(** * empmanage: the attendance / leave / payroll rule engine

    A shallow embedding of [ems/models.py] ([SalaryRecord.save],
    [LeaveRequest.total_days]) and [ems/ai.py] ([attendance_flag],
    [_team_available], [leave_recommendation], [payslip_summary]),
    together with the parts of Python's [datetime], [calendar] and
    [decimal] modules those functions call.

    Conventions.
    - Python [int] is [Z]; a database table is a [list] of rows in table
      order; a queryset is the list of rows that pass its filters.
    - A Python exception is [None] in the error monad [option].
    - [Decimal] is a triple (sign, coefficient, exponent) and every
      arithmetic operation rounds to the default context: 28 significant
      digits, ROUND_HALF_EVEN.  The exponent limits Emin/Emax of the
      context (+-999999) are not modelled: they are out of reach of values
      computed from DecimalField(max_digits=10, decimal_places=2) columns. *)

From Stdlib Require Import ZArith NArith List String Ascii Bool Lia Permutation.
Import ListNotations.
Open Scope Z_scope.

(** ** The error monad *)

Definition bind {A B : Type} (x : option A) (f : A -> option B) : option B :=
  match x with
  | Some a => f a
  | None => None
  end.

Notation "x <- e ;; k" := (bind e (fun x => k))
  (at level 61, e at next level, right associativity).
Notation "' pat <- e ;; k" := (bind e (fun x => match x with pat => k end))
  (at level 61, pat pattern, e at next level, right associativity).

(** ** Python's [datetime.date] *)

Module datetime.

Definition MINYEAR : Z := 1.
Definition MAXYEAR : Z := 9999.

Record date := mkdate { year : Z; month : Z; day : Z }.

(** [_is_leap] *)
Definition _is_leap (y : Z) : bool :=
  (y mod 4 =? 0) && (negb (y mod 100 =? 0) || (y mod 400 =? 0)).

(** [_DAYS_IN_MONTH], indexed by month number; index 0 is a placeholder. *)
Definition _DAYS_IN_MONTH : list Z :=
  [-1; 31; 28; 31; 30; 31; 30; 31; 31; 30; 31; 30; 31].

(** [_days_in_month] *)
Definition _days_in_month (y m : Z) : Z :=
  if (m =? 2) && _is_leap y then 29 else nth (Z.to_nat m) _DAYS_IN_MONTH (-1).

(** The check made by the [date] constructor ([_check_date_fields]). *)
Definition valid_date (d : date) : bool :=
  (MINYEAR <=? year d) && (year d <=? MAXYEAR)
  && (1 <=? month d) && (month d <=? 12)
  && (1 <=? day d) && (day d <=? _days_in_month (year d) (month d)).

(** [date(y, m, d)]: ValueError when the fields do not form a date. *)
Definition new (y m d : Z) : option date :=
  let r := mkdate y m d in if valid_date r then Some r else None.

(** [date.replace(year=..., month=..., day=...)]: builds a new date from
    the given fields and the remaining fields of [self]. *)
Definition replace (self : date) (y m d : option Z) : option date :=
  new (match y with Some v => v | None => year self end)
      (match m with Some v => v | None => month self end)
      (match d with Some v => v | None => day self end).

(** [_days_before_year], [_DAYS_BEFORE_MONTH], [_days_before_month] *)
Definition _days_before_year (y : Z) : Z :=
  let y1 := y - 1 in y1 * 365 + y1 / 4 - y1 / 100 + y1 / 400.

Definition _DAYS_BEFORE_MONTH : list Z :=
  [-1; 0; 31; 59; 90; 120; 151; 181; 212; 243; 273; 304; 334].

Definition _days_before_month (y m : Z) : Z :=
  nth (Z.to_nat m) _DAYS_BEFORE_MONTH (-1)
  + (if (2 <? m) && _is_leap y then 1 else 0).

(** [date.toordinal()], through [_ymd2ord] *)
Definition toordinal (d : date) : Z :=
  _days_before_year (year d) + _days_before_month (year d) (month d) + day d.

(** [date.weekday()]: Monday is 0. *)
Definition weekday (d : date) : Z := (toordinal d + 6) mod 7.

(** [(a - b).days] *)
Definition days_between (a b : date) : Z := toordinal a - toordinal b.

(** Dates compare as (year, month, day) triples. *)
Definition compare (a b : date) : comparison :=
  match year a ?= year b with
  | Eq => match month a ?= month b with
          | Eq => day a ?= day b
          | c => c
          end
  | c => c
  end.

Definition lt (a b : date) : bool :=
  match compare a b with Lt => true | _ => false end.
Definition le (a b : date) : bool :=
  match compare a b with Gt => false | _ => true end.

End datetime.

(** ** Python's [calendar] *)

Module calendar.

Definition isleap (year : Z) : bool :=
  (year mod 4 =? 0) && (negb (year mod 100 =? 0) || (year mod 400 =? 0)).

Definition mdays : list Z := [0; 31; 28; 31; 30; 31; 30; 31; 31; 30; 31; 30; 31].

Definition February : Z := 2.

(** [calendar.weekday]: a year outside MINYEAR..MAXYEAR is mapped to
    [2000 + year % 400] before [datetime.date] is asked. *)
Definition weekday (year month day : Z) : option Z :=
  let y := if (datetime.MINYEAR <=? year) && (year <=? datetime.MAXYEAR)
           then year else 2000 + year mod 400 in
  d <- datetime.new y month day ;;
  Some (datetime.weekday d).

(** [calendar.monthrange(year, month)]: weekday of the first day of the
    month and number of days in the month; IllegalMonthError outside 1..12. *)
Definition monthrange (year month : Z) : option (Z * Z) :=
  if (1 <=? month) && (month <=? 12) then
    day1 <- weekday year month 1 ;;
    let ndays := nth (Z.to_nat month) mdays 0
                 + (if (month =? February) && isleap year then 1 else 0) in
    Some (day1, ndays)
  else None.

End calendar.

(** ** Python's [decimal.Decimal] under the default context *)

Module decimal.

(** A finite Decimal: [(-1)^_sign * _int * 10^_exp]. *)
Record Decimal := mkDecimal { _sign : bool; _int : N; _exp : Z }.

(** [getcontext().prec]; the rounding mode is ROUND_HALF_EVEN. *)
Definition prec : Z := 28.

Definition pow10 (k : Z) : N := (10 ^ Z.to_N k)%N.

(** [len(str(n))]: the number of decimal digits of a coefficient. *)
Fixpoint ndigits_fuel (fuel : nat) (n : N) : Z :=
  match fuel with
  | O => 1
  | S f => if (n <? 10)%N then 1 else 1 + ndigits_fuel f (n / 10)%N
  end.

Definition ndigits (n : N) : Z := ndigits_fuel (N.to_nat (N.size n)) n.

(** [_round_half_even]: the coefficient [c] without its last [k] digits,
    rounded to nearest, a tie going to the even neighbour. *)
Definition round_half_even (c : N) (k : Z) : N :=
  let p := pow10 k in
  let q := (c / p)%N in
  let r := (c mod p)%N in
  if ((p <? 2 * r) || ((2 * r =? p) && N.odd q))%N then (q + 1)%N else q.

(** [Decimal._fix]: round to [prec] significant digits. *)
Definition _fix (d : Decimal) : Decimal :=
  if (_int d =? 0)%N then d
  else
    let exp_min := ndigits (_int d) + _exp d - prec in
    if _exp d <? exp_min then
      let coeff := round_half_even (_int d) (exp_min - _exp d) in
      if prec <? ndigits coeff
      then mkDecimal (_sign d) (coeff / 10)%N (exp_min + 1)
      else mkDecimal (_sign d) coeff exp_min
    else d.

(** [Decimal._rescale(exp, ROUND_HALF_EVEN)] *)
Definition _rescale (d : Decimal) (exp : Z) : Decimal :=
  if (_int d =? 0)%N then mkDecimal (_sign d) 0 exp
  else if exp <=? _exp d
  then mkDecimal (_sign d) (_int d * pow10 (_exp d - exp))%N exp
  else mkDecimal (_sign d) (round_half_even (_int d) (exp - _exp d)) exp.

(** [Decimal(n)] for an int [n] *)
Definition of_int (n : Z) : Decimal := mkDecimal (n <? 0) (Z.abs_N n) 0.

(** [Decimal.__bool__] *)
Definition __bool__ (d : Decimal) : bool := negb (_int d =? 0)%N.

Definition copy_negate (d : Decimal) : Decimal :=
  mkDecimal (negb (_sign d)) (_int d) (_exp d).

(** The integer [(-1)^_sign * _int]. *)
Definition signed (d : Decimal) : Z :=
  if _sign d then - Z.of_N (_int d) else Z.of_N (_int d).

(** [Decimal._cmp]: the order of the numeric values, both coefficients
    taken at the smaller of the two exponents. *)
Definition _cmp (a b : Decimal) : comparison :=
  let e := Z.min (_exp a) (_exp b) in
  (signed a * 10 ^ (_exp a - e)) ?= (signed b * 10 ^ (_exp b - e)).

Definition __eq__ (a b : Decimal) : bool :=
  match _cmp a b with Eq => true | _ => false end.
Definition __gt__ (a b : Decimal) : bool :=
  match _cmp a b with Gt => true | _ => false end.
Definition __ge__ (a b : Decimal) : bool :=
  match _cmp a b with Lt => false | _ => true end.

(** The builtin [max(a, b)]: [b] replaces [a] only when [b > a]. *)
Definition max (a b : Decimal) : Decimal := if __gt__ b a then b else a.

(** [_normalize(op1, op2, prec)]: bring both operands of an addition to
    one exponent; an operand too small to matter after rounding is
    replaced by a unit below the other's last kept digit. *)
Definition _normalize (op1 op2 : Decimal) : Decimal * Decimal :=
  let swap := _exp op1 <? _exp op2 in
  let tmp := if swap then op2 else op1 in
  let other := if swap then op1 else op2 in
  let exp := _exp tmp + Z.min (-1) (ndigits (_int tmp) - prec - 2) in
  let other' :=
    if ndigits (_int other) + _exp other - 1 <? exp
    then mkDecimal (_sign other) 1 exp else other in
  let tmp' :=
    mkDecimal (_sign tmp) (_int tmp * pow10 (_exp tmp - _exp other'))%N
              (_exp other') in
  if swap then (other', tmp') else (tmp', other').

(** [Decimal.__add__] *)
Definition __add__ (self other : Decimal) : Decimal :=
  let exp := Z.min (_exp self) (_exp other) in
  if ((_int self =? 0) && (_int other =? 0))%N then
    _fix (mkDecimal (_sign self && _sign other) 0 exp)
  else if (_int self =? 0)%N then
    _fix (_rescale other (Z.max exp (_exp other - prec - 1)))
  else if (_int other =? 0)%N then
    _fix (_rescale self (Z.max exp (_exp self - prec - 1)))
  else
    let '(op1, op2) := _normalize self other in
    if Bool.eqb (_sign op1) (_sign op2) then
      _fix (mkDecimal (_sign op1) (_int op1 + _int op2)%N (_exp op1))
    else if (_int op1 =? _int op2)%N then
      _fix (mkDecimal false 0 exp)
    else
      let '(big, small) :=
        if (_int op1 <? _int op2)%N then (op2, op1) else (op1, op2) in
      _fix (mkDecimal (_sign big) (_int big - _int small)%N (_exp op1)).

(** [Decimal.__sub__] *)
Definition __sub__ (self other : Decimal) : Decimal :=
  __add__ self (copy_negate other).

(** [Decimal.__mul__] *)
Definition __mul__ (self other : Decimal) : Decimal :=
  _fix (mkDecimal (xorb (_sign self) (_sign other))
                  (_int self * _int other)%N (_exp self + _exp other)).

(** [Decimal.__abs__] *)
Definition __abs__ (self : Decimal) : Decimal :=
  _fix (mkDecimal false (_int self) (_exp self)).

(** The loop of [__truediv__] on an exact quotient: drop trailing zeros
    while the exponent is below the ideal one. *)
Fixpoint strip_zeros (fuel : nat) (coeff : N) (exp ideal_exp : Z) : N * Z :=
  match fuel with
  | O => (coeff, exp)
  | S f =>
      if (exp <? ideal_exp) && (coeff mod 10 =? 0)%N
      then strip_zeros f (coeff / 10)%N (exp + 1) ideal_exp
      else (coeff, exp)
  end.

(** [Decimal.__truediv__]; a zero divisor raises DivisionByZero (or
    InvalidOperation for 0/0), both trapped by the default context. *)
Definition __truediv__ (self other : Decimal) : option Decimal :=
  let sign := xorb (_sign self) (_sign other) in
  if (_int other =? 0)%N then None
  else if (_int self =? 0)%N then
    Some (_fix (mkDecimal sign 0 (_exp self - _exp other)))
  else
    let shift := ndigits (_int other) - ndigits (_int self) + prec + 1 in
    let exp := _exp self - _exp other - shift in
    let '(coeff, remainder) :=
      if 0 <=? shift
      then N.div_eucl (_int self * pow10 shift) (_int other)
      else N.div_eucl (_int self) (_int other * pow10 (- shift)) in
    let '(coeff', exp') :=
      if negb (remainder =? 0)%N
      then ((if (coeff mod 5 =? 0)%N then coeff + 1 else coeff)%N, exp)
      else strip_zeros (Z.to_nat (_exp self - _exp other - exp)) coeff exp
                       (_exp self - _exp other) in
    Some (_fix (mkDecimal sign coeff' exp')).

End decimal.

(** ** String formatting: [str(int)] and [format(Decimal, '.Nf')] *)

Module fmt.

Definition digit_char (n : N) : ascii := ascii_of_N (48 + n).

Fixpoint digits_fuel (fuel : nat) (n : N) (acc : string) : string :=
  match fuel with
  | O => acc
  | S f =>
      let acc' := String (digit_char (n mod 10)) acc in
      if (n <? 10)%N then acc' else digits_fuel f (n / 10)%N acc'
  end.

(** Decimal digits of a natural number, no leading zeros. *)
Definition str_N (n : N) : string :=
  digits_fuel (S (N.to_nat (N.size n))) n EmptyString.

(** [str(n)], which is also [f'{n}'], for an int *)
Definition str_int (n : Z) : string :=
  if n <? 0 then String "-" (str_N (Z.abs_N n)) else str_N (Z.to_N n).

Fixpoint zeros (n : nat) : string :=
  match n with
  | O => EmptyString
  | S k => String "0" (zeros k)
  end.

(** [format(d, '.pf')] for [p > 0]: [Decimal.__format__] rescales to
    exponent [-p] under the context rounding, then writes sign, integer
    digits (at least one), the point and exactly [p] fraction digits. *)
Definition format_f (p : nat) (d : decimal.Decimal) : string :=
  let r := decimal._rescale d (- Z.of_nat p) in
  let s := str_N (decimal._int r) in
  let s' := append (zeros (S p - String.length s)) s in
  let n := (String.length s' - p)%nat in
  append (if decimal._sign r then "-" else EmptyString)
    (append (substring 0 n s') (String "." (substring n p s'))).

End fmt.

(** ** The models of [ems/models.py] *)

Module User.

Inductive Role := ROLE_HR | ROLE_MANAGER | ROLE_EMPLOYEE.

Record t := mk {
  id : Z;
  role : Role;
  department : string;
  leave_balance : Z
}.

End User.

Module AttendanceRecord.

Inductive Status := STATUS_PRESENT | STATUS_ABSENT | STATUS_LATE.
Inductive Review := REVIEW_PENDING | REVIEW_APPROVED | REVIEW_REJECTED.

Definition status_eqb (a b : Status) : bool :=
  match a, b with
  | STATUS_PRESENT, STATUS_PRESENT
  | STATUS_ABSENT, STATUS_ABSENT
  | STATUS_LATE, STATUS_LATE => true
  | _, _ => false
  end.

Definition review_eqb (a b : Review) : bool :=
  match a, b with
  | REVIEW_PENDING, REVIEW_PENDING
  | REVIEW_APPROVED, REVIEW_APPROVED
  | REVIEW_REJECTED, REVIEW_REJECTED => true
  | _, _ => false
  end.

(** A row: [employee] holds the primary key of the referenced user. *)
Record t := mk {
  employee : Z;
  date : datetime.date;
  status : Status;
  review_status : Review
}.

(** [qs.filter(status=s).count()] *)
Definition count_status (qs : list t) (s : Status) : Z :=
  Z.of_nat (List.length (filter (fun a => status_eqb (status a) s) qs)).

End AttendanceRecord.

Module LeaveRequest.

Inductive Status := STATUS_PENDING | STATUS_APPROVED | STATUS_REJECTED.

Definition status_eqb (a b : Status) : bool :=
  match a, b with
  | STATUS_PENDING, STATUS_PENDING
  | STATUS_APPROVED, STATUS_APPROVED
  | STATUS_REJECTED, STATUS_REJECTED => true
  | _, _ => false
  end.

(** [employee] is the related [User] object, whose attributes the rule
    engine reads; queries compare it by primary key. *)
Record t := mk {
  employee : User.t;
  start_date : datetime.date;
  end_date : datetime.date;
  status : Status
}.

(** The property [total_days] *)
Definition total_days (self : t) : Z :=
  datetime.days_between (end_date self) (start_date self) + 1.

End LeaveRequest.

Module SalaryRecord.

Import decimal.

Record t := mk {
  id : option Z;
  employee : Z;
  month : datetime.date;
  base_salary : Decimal;
  final_salary : Decimal;
  late_days : Z;
  absent_days : Z;
  anomaly_flag : bool
}.

(** The literals of [save]: Decimal('22'), Decimal('0.00'), Decimal('2')
    and Decimal('0.30'). *)
Definition D22 : Decimal := mkDecimal false 22 0.
Definition D0_00 : Decimal := mkDecimal false 0 (-2).
Definition D2 : Decimal := mkDecimal false 2 0.
Definition D0_30 : Decimal := mkDecimal false 30 (-2).

(** [AttendanceRecord.objects.filter(employee=..., date__range=(lo, hi),
    review_status=REVIEW_APPROVED)]; a range lookup is inclusive at both
    ends. *)
Definition approved_in_range (rows : list AttendanceRecord.t) (emp : Z)
    (lo hi : datetime.date) : list AttendanceRecord.t :=
  filter (fun a =>
            (AttendanceRecord.employee a =? emp)
            && (datetime.le lo (AttendanceRecord.date a)
                && datetime.le (AttendanceRecord.date a) hi)
            && AttendanceRecord.review_eqb (AttendanceRecord.review_status a)
                                           AttendanceRecord.REVIEW_APPROVED)
         rows.

(** [qs.order_by('-month').first()]: a row of the latest month, the
    first such row in table order. *)
Fixpoint order_by_month_desc_first (qs : list t) : option t :=
  match qs with
  | [] => None
  | r :: rest =>
      match order_by_month_desc_first rest with
      | Some b => if datetime.lt (month r) (month b) then Some b else Some r
      | None => Some r
      end
  end.

(** [SalaryRecord.objects.filter(employee=..., month__lt=m)
      .order_by('-month').first()] *)
Definition previous_record (objects : list t) (emp : Z) (m : datetime.date)
    : option t :=
  order_by_month_desc_first
    (filter (fun r => (employee r =? emp) && datetime.lt (month r) m) objects).

(** The anomaly test of [save]: the value given to [anomaly_flag] for
    the new final salary and the result [previous] of the lookup. *)
Definition anomaly_of (final : Decimal) (previous : option t) : option bool :=
  match previous with
  | Some p =>
      if __bool__ (final_salary p) then
        let diff := __abs__ (__sub__ final (final_salary p)) in
        ratio <- (if __bool__ (final_salary p)
                  then __truediv__ diff (final_salary p)
                  else Some D0_00) ;;
        Some (__gt__ ratio D0_30)
      else Some false
  | None => Some false
  end.

(** The body of [save] up to, and without, [super().save()]: the record
    with its month normalised and its derived fields set.  The test
    [if self.month] is passed by every date object. *)
Definition derive (attendance_objects : list AttendanceRecord.t)
    (objects : list t) (self : t) : option t :=
  month1 <- datetime.replace (month self) None None (Some 1) ;;
  let month_start := month1 in
  ' (_, last_day) <- calendar.monthrange (datetime.year month1)
                                         (datetime.month month1) ;;
  month_end <- datetime.replace month1 None None (Some last_day) ;;
  let attendance :=
    approved_in_range attendance_objects (employee self) month_start month_end in
  let late := AttendanceRecord.count_status attendance AttendanceRecord.STATUS_LATE in
  let absent := AttendanceRecord.count_status attendance AttendanceRecord.STATUS_ABSENT in
  daily_rate <- (if __bool__ (base_salary self)
                 then __truediv__ (base_salary self) D22
                 else Some D0_00) ;;
  half_rate <- __truediv__ daily_rate D2 ;;
  let deduction :=
    __add__ (__mul__ daily_rate (of_int absent))
            (__mul__ half_rate (of_int late)) in
  let final := max (__sub__ (base_salary self) deduction) D0_00 in
  let previous := previous_record objects (employee self) month1 in
  anomaly <- anomaly_of final previous ;;
  Some (mk (id self) (employee self) month1 (base_salary self) final
           late absent anomaly).

(** [Model.save()]: update the row with the record's primary key when
    there is one, else insert it (under a fresh key when it has none). *)
Definition has_pk (k : Z) (r : t) : bool :=
  match id r with
  | Some j => j =? k
  | None => false
  end.

Definition next_pk (objects : list t) : Z :=
  1 + fold_right (fun r acc => match id r with
                               | Some j => Z.max j acc
                               | None => acc
                               end) 0 objects.

Definition Model_save (objects : list t) (self : t) : list t * t :=
  match id self with
  | Some k =>
      if existsb (has_pk k) objects
      then (map (fun r => if has_pk k r then self else r) objects, self)
      else (objects ++ [self], self)
  | None =>
      let self' := mk (Some (next_pk objects)) (employee self) (month self)
                      (base_salary self) (final_salary self) (late_days self)
                      (absent_days self) (anomaly_flag self) in
      (objects ++ [self'], self')
  end.

(** [SalaryRecord.save]: the new salary table and the record as it is
    left in memory. *)
Definition save (attendance_objects : list AttendanceRecord.t)
    (objects : list t) (self : t) : option (list t * t) :=
  self' <- derive attendance_objects objects self ;;
  Some (Model_save objects self').

End SalaryRecord.

(** ** The rule engine of [ems/ai.py] *)

Module ai.

Import decimal.
Open Scope string_scope.
Open Scope Z_scope.

(** The bounds computed by [attendance_flag] when a month is given: the
    first day of the month and the first day of the next month. *)
Definition month_bounds (month : datetime.date)
    : option (datetime.date * datetime.date) :=
  month_start <- datetime.replace month None None (Some 1) ;;
  month_end <-
    (if datetime.month month =? 12
     then datetime.replace month (Some (datetime.year month + 1)) (Some 1) (Some 1)
     else datetime.replace month None (Some (datetime.month month + 1)) (Some 1)) ;;
  Some (month_start, month_end).

Definition attendance_flag (attendance_objects : list AttendanceRecord.t)
    (employee : User.t) (month : option datetime.date) : option string :=
  let records :=
    filter (fun a =>
              (AttendanceRecord.employee a =? User.id employee)
              && AttendanceRecord.review_eqb (AttendanceRecord.review_status a)
                                             AttendanceRecord.REVIEW_APPROVED)
           attendance_objects in
  records <-
    match month with
    | Some m =>
        ' (month_start, month_end) <- month_bounds m ;;
        Some (filter (fun a =>
                        datetime.le month_start (AttendanceRecord.date a)
                        && datetime.lt (AttendanceRecord.date a) month_end)
                     records)
    | None => Some records
    end ;;
  let late_count :=
    AttendanceRecord.count_status records AttendanceRecord.STATUS_LATE in
  let absent_count :=
    AttendanceRecord.count_status records AttendanceRecord.STATUS_ABSENT in
  Some (if 4 <? late_count then "Frequently Late"
        else if (3 <=? absent_count) && (3 <=? late_count)
             then "Irregular Attendance"
             else "Stable Attendance").

(** [User.objects.filter(department=...).exclude(id=...)] *)
Definition team_members_of (user_objects : list User.t) (employee : User.t)
    : list User.t :=
  filter (fun u => negb (User.id u =? User.id employee))
    (filter (fun u => String.eqb (User.department u) (User.department employee))
            user_objects).

(** The queryset [overlapping] of [_team_available]. *)
Definition overlapping_leaves (leave_objects : list LeaveRequest.t)
    (team_members : list User.t) (start_date end_date : datetime.date)
    : list LeaveRequest.t :=
  filter (fun l =>
            datetime.le (LeaveRequest.start_date l) end_date
            && datetime.le start_date (LeaveRequest.end_date l))
    (filter (fun l =>
               existsb (fun u => User.id u =? User.id (LeaveRequest.employee l))
                       team_members
               && LeaveRequest.status_eqb (LeaveRequest.status l)
                                          LeaveRequest.STATUS_APPROVED)
            leave_objects).

(** [qs.values('employee').distinct().count()] *)
Definition distinct_employee_count (qs : list LeaveRequest.t) : Z :=
  Z.of_nat (List.length
              (nodup Z.eq_dec
                 (map (fun l => User.id (LeaveRequest.employee l)) qs))).

Definition _team_available (user_objects : list User.t)
    (leave_objects : list LeaveRequest.t) (employee : User.t)
    (start_date end_date : datetime.date) : bool :=
  if String.eqb (User.department employee) EmptyString then true
  else
    let team_members := team_members_of user_objects employee in
    match team_members with
    | [] => true
    | _ :: _ =>
        let overlapping :=
          overlapping_leaves leave_objects team_members start_date end_date in
        Z.of_nat (List.length team_members) - distinct_employee_count overlapping
        >=? 1
    end.

Definition leave_recommendation (user_objects : list User.t)
    (leave_objects : list LeaveRequest.t) (leave_request : LeaveRequest.t)
    : string :=
  if (LeaveRequest.total_days leave_request
      <=? User.leave_balance (LeaveRequest.employee leave_request))
     && _team_available user_objects leave_objects
          (LeaveRequest.employee leave_request)
          (LeaveRequest.start_date leave_request)
          (LeaveRequest.end_date leave_request)
  then "Suggest Approve"
  else "Suggest Review".

(** The dict returned by [payslip_summary]. *)
Record Summary := mkSummary {
  headline : string;
  insights : list string;
  warnings : list string;
  deduction : Decimal;
  deduction_rate : Decimal
}.

Definition D0_00 : Decimal := mkDecimal false 0 (-2).
Definition D100 : Decimal := mkDecimal false 100 0.
Definition D20 : Decimal := mkDecimal false 20 0.

Definition payslip_summary (salary_record : SalaryRecord.t) : option Summary :=
  let base := if __bool__ (SalaryRecord.base_salary salary_record)
              then SalaryRecord.base_salary salary_record else D0_00 in
  let final := if __bool__ (SalaryRecord.final_salary salary_record)
               then SalaryRecord.final_salary salary_record else D0_00 in
  let deduction := max (__sub__ base final) D0_00 in
  deduction_rate <-
    (if __bool__ base
     then q <- __truediv__ deduction base ;; Some (__mul__ q D100)
     else Some D0_00) ;;
  let insights : list string := [] in
  let warnings : list string := [] in
  let '(headline, insights) :=
    if __eq__ deduction (of_int 0) then
      ("Full payout expected for this month.",
       (insights ++ ["No attendance deductions were applied."])%list)
    else if __ge__ deduction_rate D20 then
      ("Significant deductions detected this month.", insights)
    else
      ("Minor deductions applied to this month.", insights) in
  let insights :=
    if negb (SalaryRecord.absent_days salary_record =? 0)
    then (insights ++ [(fmt.str_int (SalaryRecord.absent_days salary_record)
                        ++ " day(s) marked absent.")%string])%list
    else insights in
  let insights :=
    if negb (SalaryRecord.late_days salary_record =? 0)
    then (insights ++ [(fmt.str_int (SalaryRecord.late_days salary_record)
                        ++ " day(s) marked late.")%string])%list
    else insights in
  let insights :=
    match insights with
    | [] => (insights ++ ["Attendance signals are stable for this period."])%list
    | _ :: _ => insights
    end in
  let warnings :=
    if SalaryRecord.anomaly_flag salary_record
    then (warnings ++ ["Salary changed by more than 30% compared to last month."])%list
    else warnings in
  let warnings :=
    if __gt__ deduction (of_int 0)
    then (warnings ++ [("Deduction total: " ++ fmt.format_f 2 deduction
                        ++ " (" ++ fmt.format_f 1 deduction_rate
                        ++ "% of base pay).")%string])%list
    else warnings in
  Some (mkSummary headline insights warnings deduction deduction_rate).

End ai.

(** ** The specification's vocabulary

    The definitions below follow the words of the specification, not the
    code; the theorems compare them with the embedding above. *)

Module Spec.

Import decimal.
Open Scope string_scope.
Open Scope Z_scope.

(** "the month is normalized to its first day" *)
Definition first_of_month (d : datetime.date) : datetime.date :=
  datetime.mkdate (datetime.year d) (datetime.month d) 1.

(** "the first day of the next month" *)
Definition first_of_next_month (d : datetime.date) : datetime.date :=
  if datetime.month d =? 12
  then datetime.mkdate (datetime.year d + 1) 1 1
  else datetime.mkdate (datetime.year d) (datetime.month d + 1) 1.

(** A date is the last calendar day of its month when it is a date and
    the day after it in the same month is not. *)
Definition is_last_day_of_month (d : datetime.date) : Prop :=
  datetime.valid_date d = true
  /\ datetime.valid_date
       (datetime.mkdate (datetime.year d) (datetime.month d) (datetime.day d + 1))
     = false.

(** "the counts of the employee's Approved attendance entries with status
    [s] whose date lies in [lo, hi] inclusive" *)
Definition approved_between (rows : list AttendanceRecord.t) (emp : Z)
    (s : AttendanceRecord.Status) (lo hi : datetime.date) : Z :=
  Z.of_nat (List.length
    (filter (fun a =>
               (AttendanceRecord.employee a =? emp)
               && AttendanceRecord.review_eqb (AttendanceRecord.review_status a)
                                              AttendanceRecord.REVIEW_APPROVED
               && AttendanceRecord.status_eqb (AttendanceRecord.status a) s
               && datetime.le lo (AttendanceRecord.date a)
               && datetime.le (AttendanceRecord.date a) hi)
            rows)).

(** "x > 0" on decimals *)
Definition positive (d : Decimal) : bool := __gt__ d (of_int 0).

(** "daily_rate = base_salary / 22 when base_salary > 0 else 0" *)
Definition daily_rate_claimed (base : Decimal) : option Decimal :=
  if positive base then __truediv__ base SalaryRecord.D22
  else Some SalaryRecord.D0_00.

(** The same with the test the code makes: base_salary different from 0. *)
Definition daily_rate_nonzero (base : Decimal) : option Decimal :=
  if __bool__ base then __truediv__ base SalaryRecord.D22
  else Some SalaryRecord.D0_00.

(** "deduction = daily_rate * absent_days + (daily_rate / 2) * late_days;
    final_salary = max(base_salary - deduction, 0)" *)
Definition final_salary_from (daily_rate base : Decimal) (late absent : Z)
    : option Decimal :=
  half <- __truediv__ daily_rate SalaryRecord.D2 ;;
  let deduction :=
    __add__ (__mul__ daily_rate (of_int absent)) (__mul__ half (of_int late)) in
  Some (max (__sub__ base deduction) SalaryRecord.D0_00).

(** "a SalaryRecord for the same employee with a strictly earlier month
    ..., taking the one with the most recent earlier month" *)
Definition earlier (objects : list SalaryRecord.t) (emp : Z)
    (m : datetime.date) (q : SalaryRecord.t) : Prop :=
  In q objects /\ SalaryRecord.employee q = emp
  /\ datetime.lt (SalaryRecord.month q) m = true.

Definition most_recent_earlier (objects : list SalaryRecord.t) (emp : Z)
    (m : datetime.date) (p : SalaryRecord.t) : Prop :=
  earlier objects emp m p
  /\ forall q, earlier objects emp m q ->
               datetime.le (SalaryRecord.month q) (SalaryRecord.month p) = true.


(** The scope of [attendance_flag]: every date when no month is given,
    else "the half-open interval [first day of that month, first day of
    the next month)". *)
Definition in_scope (month : option datetime.date) (d : datetime.date) : bool :=
  match month with
  | None => true
  | Some m => datetime.le (first_of_month m) d
              && datetime.lt d (first_of_next_month m)
  end.

(** "the employee's Approved attendance entries" in scope *)
Definition approved_in_scope (rows : list AttendanceRecord.t) (emp : Z)
    (month : option datetime.date) : list AttendanceRecord.t :=
  filter (fun a =>
            (AttendanceRecord.employee a =? emp)
            && AttendanceRecord.review_eqb (AttendanceRecord.review_status a)
                                           AttendanceRecord.REVIEW_APPROVED
            && in_scope month (AttendanceRecord.date a))
         rows.

Definition count_in_scope (rows : list AttendanceRecord.t) (emp : Z)
    (month : option datetime.date) (s : AttendanceRecord.Status) : Z :=
  Z.of_nat (List.length
    (filter (fun a => AttendanceRecord.status_eqb (AttendanceRecord.status a) s)
            (approved_in_scope rows emp month))).

(** "Frequently Late if late_count > 4; otherwise Irregular Attendance if
    absent_count >= 3 and late_count >= 3; otherwise Stable Attendance" *)
Definition classify (late_count absent_count : Z) : string :=
  if 4 <? late_count then "Frequently Late"
  else if (3 <=? absent_count) && (3 <=? late_count) then "Irregular Attendance"
  else "Stable Attendance".

(** The month window exists: the month is a date and its successor month
    is not beyond [datetime.MAXYEAR]. *)
Definition month_ok (month : option datetime.date) : Prop :=
  match month with
  | None => True
  | Some m => datetime.valid_date m = true
              /\ ~ (datetime.year m = datetime.MAXYEAR /\ datetime.month m = 12)
  end.

(** "all other employees with the same department" *)
Definition teammates (user_objects : list User.t) (employee : User.t)
    : list User.t :=
  filter (fun u => String.eqb (User.department u) (User.department employee)
                   && negb (User.id u =? User.id employee))
         user_objects.

(** "an Approved leave request satisfying existing.start <= new.end AND
    existing.end >= new.start" of teammate [u] *)
Definition has_overlapping_leave (leave_objects : list LeaveRequest.t)
    (start_date end_date : datetime.date) (u : User.t) : bool :=
  existsb (fun l =>
             (User.id (LeaveRequest.employee l) =? User.id u)
             && LeaveRequest.status_eqb (LeaveRequest.status l)
                                        LeaveRequest.STATUS_APPROVED
             && datetime.le (LeaveRequest.start_date l) end_date
             && datetime.le start_date (LeaveRequest.end_date l))
          leave_objects.

Definition team_available (user_objects : list User.t)
    (leave_objects : list LeaveRequest.t) (employee : User.t)
    (start_date end_date : datetime.date) : bool :=
  if String.eqb (User.department employee) EmptyString then true
  else
    let team := teammates user_objects employee in
    if (List.length team =? 0)%nat then true
    else
      1 <=? Z.of_nat (List.length team)
            - Z.of_nat (List.length
                (filter (has_overlapping_leave leave_objects start_date end_date)
                        team)).

(** [x or Decimal('0.00')]: "base" and "final" of the payslip summary are
    base_salary and final_salary, a zero being read as 0.00. *)
Definition or_zero (x : Decimal) : Decimal := if __bool__ x then x else ai.D0_00.

Definition line_no_deductions : string := "No attendance deductions were applied.".
Definition line_stable : string := "Attendance signals are stable for this period.".
Definition line_anomaly : string :=
  "Salary changed by more than 30% compared to last month.".
Definition line_absent (n : Z) : string := fmt.str_int n ++ " day(s) marked absent.".
Definition line_late (n : Z) : string := fmt.str_int n ++ " day(s) marked late.".
Definition line_deduction (deduction rate : Decimal) : string :=
  "Deduction total: " ++ fmt.format_f 2 deduction
  ++ " (" ++ fmt.format_f 1 rate ++ "% of base pay).".

(** "Full payout ... when deduction = 0, else Significant ... when
    deduction_rate >= 20, else Minor ..." *)
Definition headline_of (deduction rate : Decimal) : string :=
  if __eq__ deduction (of_int 0) then "Full payout expected for this month."
  else if __ge__ rate ai.D20 then "Significant deductions detected this month."
  else "Minor deductions applied to this month.".

(** The insight lines collected before the fallback: the no-deduction
    line first when deduction = 0, then the absent line iff absent_days is
    nonzero, then the late line iff late_days is nonzero. *)
Definition collected_insights (deduction : Decimal) (absent late : Z)
    : list string :=
  ((if __eq__ deduction (of_int 0) then [line_no_deductions] else [])
   ++ (if absent =? 0 then [] else [line_absent absent])
   ++ (if late =? 0 then [] else [line_late late]))%list.

(** "when no insight was collected the single fallback line is returned" *)
Definition insights_of (deduction : Decimal) (absent late : Z) : list string :=
  match collected_insights deduction absent late with
  | [] => [line_stable]
  | lines => lines
  end.

(** The anomaly line iff anomaly_flag is set, followed, iff
    deduction > 0, by the deduction line. *)
Definition warnings_of (anomaly : bool) (deduction rate : Decimal)
    : list string :=
  ((if anomaly then [line_anomaly] else [])
   ++ (if __gt__ deduction (of_int 0) then [line_deduction deduction rate]
       else []))%list.

End Spec.

(** ** Statements about [SalaryRecord.save] *)

Module Claims.

Import decimal.

(** Salary derivation, for a given rule [rate_rule] giving the daily rate
    from the base salary: the save succeeds; the month is the first day of
    the record's month; the day counts are the counts of Approved Late and
    Absent entries of the employee between that day and [month_end], the
    last calendar day of the same month; the final salary is the one the
    formulas give. *)
Definition salary_derivation (rate_rule : Decimal -> option Decimal)
    (attendance_objects : list AttendanceRecord.t)
    (objects : list SalaryRecord.t) (self : SalaryRecord.t) : Prop :=
  exists objects' r month_end,
    SalaryRecord.save attendance_objects objects self = Some (objects', r)
    /\ SalaryRecord.month r = Spec.first_of_month (SalaryRecord.month self)
    /\ Spec.is_last_day_of_month month_end
    /\ datetime.year month_end = datetime.year (SalaryRecord.month r)
    /\ datetime.month month_end = datetime.month (SalaryRecord.month r)
    /\ SalaryRecord.late_days r
       = Spec.approved_between attendance_objects (SalaryRecord.employee self)
           AttendanceRecord.STATUS_LATE (SalaryRecord.month r) month_end
    /\ SalaryRecord.absent_days r
       = Spec.approved_between attendance_objects (SalaryRecord.employee self)
           AttendanceRecord.STATUS_ABSENT (SalaryRecord.month r) month_end
    /\ (daily_rate <- rate_rule (SalaryRecord.base_salary self) ;;
        Spec.final_salary_from daily_rate (SalaryRecord.base_salary self)
          (SalaryRecord.late_days r) (SalaryRecord.absent_days r))
       = Some (SalaryRecord.final_salary r).


(** Saving again the record left by a save gives the same derived fields. *)
Definition resave_agrees
    (attendance_objects : list AttendanceRecord.t)
    (objects : list SalaryRecord.t) (self : SalaryRecord.t) : Prop :=
  forall objects1 r1,
    SalaryRecord.save attendance_objects objects self = Some (objects1, r1) ->
    exists objects2 r2,
      SalaryRecord.save attendance_objects objects1 r1 = Some (objects2, r2)
      /\ SalaryRecord.late_days r2 = SalaryRecord.late_days r1
      /\ SalaryRecord.absent_days r2 = SalaryRecord.absent_days r1
      /\ SalaryRecord.final_salary r2 = SalaryRecord.final_salary r1
      /\ SalaryRecord.anomaly_flag r2 = SalaryRecord.anomaly_flag r1.

(** The row stored under the record's primary key, when there is one, is
    not a row of the same employee with a month before the record's. *)
Definition own_row_not_earlier (objects : list SalaryRecord.t)
    (self : SalaryRecord.t) : Prop :=
  forall q k,
    In q objects -> SalaryRecord.id self = Some k -> SalaryRecord.id q = Some k ->
    ~ (SalaryRecord.employee q = SalaryRecord.employee self
       /\ datetime.lt (SalaryRecord.month q)
                      (Spec.first_of_month (SalaryRecord.month self)) = true).

End Claims.

(** ** Sample data *)

Module Sample.

Import decimal.

Definition employee1 : User.t := User.mk 1 User.ROLE_EMPLOYEE EmptyString 10.

(** Employee 1 approved absent on each of 1..23 January 2024. *)
Definition absences_23 : list AttendanceRecord.t :=
  map (fun d => AttendanceRecord.mk 1 (datetime.mkdate 2024 1 (Z.of_nat d))
                  AttendanceRecord.STATUS_ABSENT
                  AttendanceRecord.REVIEW_APPROVED)
      (seq 1 23).

(** A new record for January 2024 with base salary -2200.00. *)
Definition negative_base : SalaryRecord.t :=
  SalaryRecord.mk None 1 (datetime.mkdate 2024 1 15)
    (mkDecimal true 220000 (-2)) SalaryRecord.D0_00 0 0 false.

(** A new record for March 2024 with base salary 1000.00, and two
    attendance entries of that month, one of them not approved. *)
Definition march_record : SalaryRecord.t :=
  SalaryRecord.mk None 1 (datetime.mkdate 2024 3 15)
    (mkDecimal false 100000 (-2)) SalaryRecord.D0_00 0 0 false.

Definition march_attendance : list AttendanceRecord.t :=
  [ AttendanceRecord.mk 1 (datetime.mkdate 2024 3 4)
      AttendanceRecord.STATUS_ABSENT AttendanceRecord.REVIEW_APPROVED;
    AttendanceRecord.mk 1 (datetime.mkdate 2024 3 5)
      AttendanceRecord.STATUS_LATE AttendanceRecord.REVIEW_PENDING ].

(** The stored row 1 of employee 1: January 2024, final salary 1000.00. *)
Definition january_row : SalaryRecord.t :=
  SalaryRecord.mk (Some 1) 1 (datetime.mkdate 2024 1 1)
    (mkDecimal false 100000 (-2)) (mkDecimal false 100000 (-2)) 0 0 false.

(** Row 1 in memory, its month moved to March 2024 and its base salary
    set to 600.00. *)
Definition january_row_moved : SalaryRecord.t :=
  SalaryRecord.mk (Some 1) 1 (datetime.mkdate 2024 3 1)
    (mkDecimal false 60000 (-2)) (mkDecimal false 100000 (-2)) 0 0 false.

(** Two histories with the same approved March entries of employee 1;
    the second also holds a rejected entry, an entry of 1 April and an
    entry of another employee. *)
Definition history_a : list AttendanceRecord.t := march_attendance.

Definition history_b : list AttendanceRecord.t :=
  [ AttendanceRecord.mk 1 (datetime.mkdate 2024 3 6)
      AttendanceRecord.STATUS_LATE AttendanceRecord.REVIEW_REJECTED;
    AttendanceRecord.mk 1 (datetime.mkdate 2024 3 4)
      AttendanceRecord.STATUS_ABSENT AttendanceRecord.REVIEW_APPROVED;
    AttendanceRecord.mk 1 (datetime.mkdate 2024 4 1)
      AttendanceRecord.STATUS_LATE AttendanceRecord.REVIEW_APPROVED;
    AttendanceRecord.mk 2 (datetime.mkdate 2024 3 7)
      AttendanceRecord.STATUS_LATE AttendanceRecord.REVIEW_APPROVED ].

(** A department of three, and one employee elsewhere. *)
Definition alice : User.t := User.mk 1 User.ROLE_EMPLOYEE "Engineering" 10.
Definition bob : User.t := User.mk 2 User.ROLE_EMPLOYEE "Engineering" 12.
Definition carol : User.t := User.mk 3 User.ROLE_EMPLOYEE "Engineering" 12.
Definition dave : User.t := User.mk 4 User.ROLE_MANAGER "Operations" 12.
Definition all_users : list User.t := [alice; bob; carol; dave].

(** Alice asks for 11..15 March 2024 (5 days). *)
Definition alice_request : LeaveRequest.t :=
  LeaveRequest.mk alice (datetime.mkdate 2024 3 11) (datetime.mkdate 2024 3 15)
    LeaveRequest.STATUS_PENDING.

(** The same request from an employee with a balance of 3. *)
Definition short_balance_request : LeaveRequest.t :=
  LeaveRequest.mk (User.mk 1 User.ROLE_EMPLOYEE "Engineering" 3)
    (datetime.mkdate 2024 3 11) (datetime.mkdate 2024 3 15)
    LeaveRequest.STATUS_PENDING.

(** The same request from an employee without department. *)
Definition no_department_request : LeaveRequest.t :=
  LeaveRequest.mk employee1 (datetime.mkdate 2024 3 11)
    (datetime.mkdate 2024 3 15) LeaveRequest.STATUS_PENDING.

(** Bob is on approved leave for all of March; Carol from 15 March. *)
Definition bob_leave : LeaveRequest.t :=
  LeaveRequest.mk bob (datetime.mkdate 2024 3 1) (datetime.mkdate 2024 3 31)
    LeaveRequest.STATUS_APPROVED.
Definition carol_leave : LeaveRequest.t :=
  LeaveRequest.mk carol (datetime.mkdate 2024 3 15) (datetime.mkdate 2024 3 20)
    LeaveRequest.STATUS_APPROVED.

(** Two stored records with base salary 1000.00: one paid in full, one
    with final salary 750.00 after 5 absences and 1 late day. *)
Definition paid_in_full : SalaryRecord.t :=
  SalaryRecord.mk (Some 1) 1 (datetime.mkdate 2024 3 1)
    (mkDecimal false 100000 (-2)) (mkDecimal false 100000 (-2)) 0 0 false.

Definition paid_750 : SalaryRecord.t :=
  SalaryRecord.mk (Some 2) 1 (datetime.mkdate 2024 4 1)
    (mkDecimal false 100000 (-2)) (mkDecimal false 75000 (-2)) 1 5 false.

End Sample.

(** ** Constraints and views of the tables *)

Module Tables.

(** [UniqueConstraint(fields=['employee', 'date'])] of AttendanceRecord *)
Definition unique_attendance_day (rows : list AttendanceRecord.t) : Prop :=
  NoDup (map (fun a => (AttendanceRecord.employee a, AttendanceRecord.date a))
             rows).

(** [UniqueConstraint(fields=['employee', 'month'])] of SalaryRecord *)
Definition unique_salary_month (rows : list SalaryRecord.t) : Prop :=
  NoDup (map (fun r => (SalaryRecord.employee r, SalaryRecord.month r)) rows).


(** The last day of the month of [m]. *)
Definition last_of_month (m : datetime.date) : datetime.date :=
  datetime.mkdate (datetime.year m) (datetime.month m)
    (datetime._days_in_month (datetime.year m) (datetime.month m)).

(** The Approved entries of an employee dated within the month of [m]. *)
Definition approved_in_month (rows : list AttendanceRecord.t) (emp : Z)
    (m : datetime.date) : list AttendanceRecord.t :=
  filter (fun a =>
            (AttendanceRecord.employee a =? emp)
            && AttendanceRecord.review_eqb (AttendanceRecord.review_status a)
                                           AttendanceRecord.REVIEW_APPROVED
            && datetime.le (Spec.first_of_month m) (AttendanceRecord.date a)
            && datetime.le (AttendanceRecord.date a) (last_of_month m))
         rows.

(** The Approved leave requests of users other than [employee]. *)
Definition approved_leaves_of_others (rows : list LeaveRequest.t)
    (employee : User.t) : list LeaveRequest.t :=
  filter (fun l =>
            LeaveRequest.status_eqb (LeaveRequest.status l)
                                    LeaveRequest.STATUS_APPROVED
            && negb (User.id (LeaveRequest.employee l) =? User.id employee))
         rows.

(** A user with another leave balance. *)
Definition with_balance (u : User.t) (balance : Z) : User.t :=
  User.mk (User.id u) (User.role u) (User.department u) balance.

End Tables.

(** ** The stored rows read and written by the views *)

Module LeaveRow.

(** A row of the leave table: the employee and the deciding manager are
    held by primary key; the columns no view logic reads (reason,
    created_at) are left out. *)
Record t := mk {
  pk : Z;
  employee_id : Z;
  start_date : datetime.date;
  end_date : datetime.date;
  status : LeaveRequest.Status;
  manager : option Z;
  recommended_action : string
}.

(** [User.objects.get(pk=...)], [None] for DoesNotExist. *)
Definition get_user (user_objects : list User.t) (k : Z) : option User.t :=
  find (fun u => User.id u =? k) user_objects.

(** The model instance of a row: [leave.employee] is loaded from the
    user table. *)
Definition load (user_objects : list User.t) (row : t) : option LeaveRequest.t :=
  employee <- get_user user_objects (employee_id row) ;;
  Some (LeaveRequest.mk employee (start_date row) (end_date row) (status row)).

(** [LeaveRequest.objects], every row with its employee. *)
Fixpoint objects (user_objects : list User.t) (rows : list t)
    : list LeaveRequest.t :=
  match rows with
  | [] => []
  | row :: rest =>
      match load user_objects row with
      | Some l => l :: objects user_objects rest
      | None => objects user_objects rest
      end
  end.

End LeaveRow.

Module AttendanceRow.

(** A row of the attendance table: the entry read by the rule engine and
    the fields written by the views ([reviewed_at] as a clock reading). *)
Record t := mk {
  pk : Z;
  entry : AttendanceRecord.t;
  submitted_by : option Z;
  reviewed_by : option Z;
  reviewed_at : option Z
}.

End AttendanceRow.

(** ** The views of [ems/views.py] *)

Module views.

Open Scope string_scope.
Open Scope Z_scope.

Definition role_eqb (a b : User.Role) : bool :=
  match a, b with
  | User.ROLE_HR, User.ROLE_HR
  | User.ROLE_MANAGER, User.ROLE_MANAGER
  | User.ROLE_EMPLOYEE, User.ROLE_EMPLOYEE => true
  | _, _ => false
  end.

(** [User.is_hr], [User.is_manager], [User.is_employee] of models.py *)
Definition is_hr (u : User.t) : bool := role_eqb (User.role u) User.ROLE_HR.
Definition is_manager (u : User.t) : bool :=
  role_eqb (User.role u) User.ROLE_MANAGER.
Definition is_employee (u : User.t) : bool :=
  role_eqb (User.role u) User.ROLE_EMPLOYEE.

(** [request.user] of an authenticated request (every view below is
    behind [login_required]): the account and [is_superuser]. *)
Record RequestUser := mkRequestUser { account : User.t; is_superuser : bool }.

(** [request.method] with [request.POST.get('action')]; a method other
    than POST takes the branch of GET. *)
Inductive Method := GET | POST (action : option string).

Inductive Response :=
| HttpResponseForbidden
| Http404
| redirect (to : string)
| render (template : string).

(** [x in roles] *)
Definition role_in (x : User.Role) (roles : list User.Role) : bool :=
  existsb (role_eqb x) roles.

(** [role_required(roles)]: [true] when the wrapped view is called,
    [false] when the answer is HttpResponseForbidden. *)
Definition role_required (roles : list User.Role) (user : RequestUser) : bool :=
  let elevated_roles := roles in
  let elevated_roles :=
    if role_in User.ROLE_HR roles && negb (role_in User.ROLE_MANAGER elevated_roles)
    then (elevated_roles ++ [User.ROLE_MANAGER])%list
    else elevated_roles in
  is_superuser user || role_in (User.role (account user)) elevated_roles.

(** [payslip_detail]: the answer and, when the page is rendered, the
    summary put in its context. *)
Definition payslip_detail (objects : list SalaryRecord.t) (user : RequestUser)
    (pk : Z) : option (Response * option ai.Summary) :=
  match find (SalaryRecord.has_pk pk) objects with
  | None => Some (Http404, None)
  | Some record =>
      if negb (is_hr (account user) || is_manager (account user)
               || (SalaryRecord.employee record =? User.id (account user)))
      then Some (HttpResponseForbidden, None)
      else
        ai <- ai.payslip_summary record ;;
        Some (render "salary/payslip_detail.html", Some ai)
  end.

(** [Model.save()] of a loaded row: the row with its key is replaced. *)
Definition update_leave (rows : list LeaveRow.t) (row : LeaveRow.t)
    : list LeaveRow.t :=
  map (fun r => if LeaveRow.pk r =? LeaveRow.pk row then row else r) rows.

(** [employee.save(update_fields=['leave_balance'])] *)
Definition update_leave_balance (user_objects : list User.t) (k balance : Z)
    : list User.t :=
  map (fun u => if User.id u =? k
                then User.mk (User.id u) (User.role u) (User.department u) balance
                else u)
      user_objects.

Definition leave_approve (user_objects : list User.t)
    (leave_objects : list LeaveRow.t) (user : RequestUser) (method : Method)
    (pk : Z) : option (list User.t * list LeaveRow.t * Response) :=
  if negb (role_required [User.ROLE_MANAGER; User.ROLE_HR] user)
  then Some (user_objects, leave_objects, HttpResponseForbidden)
  else
    match find (fun r => LeaveRow.pk r =? pk) leave_objects with
    | None => Some (user_objects, leave_objects, Http404)
    | Some leave =>
        match method with
        | POST action =>
            ' (users', leave') <-
              (if match action with Some a => String.eqb a "approve" | None => false end
               then
                 l <- LeaveRow.load user_objects leave ;;
                 let balance :=
                   Z.max (User.leave_balance (LeaveRequest.employee l)
                          - LeaveRequest.total_days l) 0 in
                 Some (update_leave_balance user_objects
                         (LeaveRow.employee_id leave) balance,
                       LeaveRow.mk (LeaveRow.pk leave) (LeaveRow.employee_id leave)
                         (LeaveRow.start_date leave) (LeaveRow.end_date leave)
                         LeaveRequest.STATUS_APPROVED
                         (Some (User.id (account user)))
                         (LeaveRow.recommended_action leave))
               else if match action with Some a => String.eqb a "reject" | None => false end
               then
                 Some (user_objects,
                       LeaveRow.mk (LeaveRow.pk leave) (LeaveRow.employee_id leave)
                         (LeaveRow.start_date leave) (LeaveRow.end_date leave)
                         LeaveRequest.STATUS_REJECTED
                         (Some (User.id (account user)))
                         (LeaveRow.recommended_action leave))
               else Some (user_objects, leave)) ;;
            Some (users', update_leave leave_objects leave', redirect "leave_list")
        | GET => Some (user_objects, leave_objects, render "leave/approve.html")
        end
    end.

(** [filter(..., date=d)] *)
Definition same_day (a b : datetime.date) : bool :=
  match datetime.compare a b with Eq => true | _ => false end.

(** A key not yet in the table, for an inserted row. *)
Definition fresh_attendance_pk (rows : list AttendanceRow.t) : Z :=
  1 + fold_right (fun r acc => Z.max (AttendanceRow.pk r) acc) 0 rows.

Definition fresh_leave_pk (rows : list LeaveRow.t) : Z :=
  1 + fold_right (fun r acc => Z.max (LeaveRow.pk r) acc) 0 rows.

Definition update_attendance (rows : list AttendanceRow.t)
    (row : AttendanceRow.t) : list AttendanceRow.t :=
  map (fun r => if AttendanceRow.pk r =? AttendanceRow.pk row then row else r)
      rows.

(** [attendance_add]; [cleaned] is the record of a POST with a valid
    form (employee, date, status), [None] for any other request; [now] is
    [timezone.now()]. *)
Definition attendance_add (attendance_objects : list AttendanceRow.t)
    (user : RequestUser) (now : Z)
    (cleaned : option (Z * datetime.date * AttendanceRecord.Status))
    : list AttendanceRow.t * Response :=
  if negb (role_required [User.ROLE_MANAGER; User.ROLE_HR] user)
  then (attendance_objects, HttpResponseForbidden)
  else
    match cleaned with
    | Some (employee, date, status) =>
        let approved :=
          AttendanceRecord.mk employee date status
            AttendanceRecord.REVIEW_APPROVED in
        let me := Some (User.id (account user)) in
        match find (fun r =>
                      (AttendanceRecord.employee (AttendanceRow.entry r) =? employee)
                      && same_day (AttendanceRecord.date (AttendanceRow.entry r))
                                  date)
                   attendance_objects with
        | Some existing =>
            (update_attendance attendance_objects
               (AttendanceRow.mk (AttendanceRow.pk existing)
                  (AttendanceRecord.mk
                     (AttendanceRecord.employee (AttendanceRow.entry existing))
                     (AttendanceRecord.date (AttendanceRow.entry existing))
                     status AttendanceRecord.REVIEW_APPROVED)
                  me me (Some now)),
             redirect "attendance_list")
        | None =>
            ((attendance_objects
              ++ [AttendanceRow.mk (fresh_attendance_pk attendance_objects)
                    approved me me (Some now)])%list,
             redirect "attendance_list")
        end
    | None => (attendance_objects, render "attendance/form.html")
    end.

Definition attendance_review (attendance_objects : list AttendanceRow.t)
    (user : RequestUser) (now : Z) (method : Method) (pk : Z)
    : list AttendanceRow.t * Response :=
  if negb (role_required [User.ROLE_HR] user)
  then (attendance_objects, HttpResponseForbidden)
  else
    match find (fun r => AttendanceRow.pk r =? pk) attendance_objects with
    | None => (attendance_objects, Http404)
    | Some record =>
        match method with
        | POST action =>
            let reviewed (verdict : AttendanceRecord.Review) :=
              AttendanceRow.mk (AttendanceRow.pk record)
                (AttendanceRecord.mk
                   (AttendanceRecord.employee (AttendanceRow.entry record))
                   (AttendanceRecord.date (AttendanceRow.entry record))
                   (AttendanceRecord.status (AttendanceRow.entry record))
                   verdict)
                (AttendanceRow.submitted_by record)
                (Some (User.id (account user))) (Some now) in
            let record' :=
              if match action with Some a => String.eqb a "approve" | None => false end
              then reviewed AttendanceRecord.REVIEW_APPROVED
              else if match action with Some a => String.eqb a "reject" | None => false end
              then reviewed AttendanceRecord.REVIEW_REJECTED
              else record in
            (update_attendance attendance_objects record',
             redirect "attendance_list")
        | GET => (attendance_objects, render "attendance/review.html")
        end
    end.

(** [leave_request]; [cleaned] is the pair (start_date, end_date) of a
    POST with a valid form, [None] for any other request. *)
Definition leave_request (user_objects : list User.t)
    (leave_objects : list LeaveRow.t) (user : RequestUser)
    (cleaned : option (datetime.date * datetime.date))
    : list LeaveRow.t * Response :=
  match cleaned with
  | Some (start_date, end_date) =>
      let leave :=
        LeaveRequest.mk (account user) start_date end_date
          LeaveRequest.STATUS_PENDING in
      let recommended :=
        ai.leave_recommendation user_objects
          (LeaveRow.objects user_objects leave_objects) leave in
      ((leave_objects
        ++ [LeaveRow.mk (fresh_leave_pk leave_objects) (User.id (account user))
              start_date end_date LeaveRequest.STATUS_PENDING None recommended])%list,
       redirect "leave_list")
  | None => (leave_objects, render "leave/request.html")
  end.



Definition payslip_list (objects : list SalaryRecord.t) (user : RequestUser)
    : list SalaryRecord.t :=
  if is_hr (account user) || is_manager (account user)
  then objects
  else filter (fun r => SalaryRecord.employee r =? User.id (account user))
              objects.

End views.

(** * Properties *)

(** ** Dates *)

Ltac split_andb :=
  repeat match goal with
         | H : _ && _ = true |- _ => apply andb_prop in H; destruct H
         end.

Ltac month_cases m :=
  let H := fresh "Hm" in
  assert (H : m = 1 \/ m = 2 \/ m = 3 \/ m = 4 \/ m = 5 \/ m = 6 \/ m = 7
              \/ m = 8 \/ m = 9 \/ m = 10 \/ m = 11 \/ m = 12) by lia;
  repeat (destruct H as [H | H]; [subst m | ]); [ .. | subst m ].

Lemma valid_date_fields d :
  datetime.valid_date d = true ->
  1 <= datetime.year d <= 9999 /\ 1 <= datetime.month d <= 12
  /\ 1 <= datetime.day d <= datetime._days_in_month (datetime.year d) (datetime.month d).
Proof.
  unfold datetime.valid_date, datetime.MINYEAR, datetime.MAXYEAR.
  intros H. split_andb. lia.
Qed.

Lemma valid_date_intro y m d :
  1 <= y <= 9999 -> 1 <= m <= 12 -> 1 <= d <= datetime._days_in_month y m ->
  datetime.valid_date (datetime.mkdate y m d) = true.
Proof.
  intros Hy Hm Hd.
  unfold datetime.valid_date, datetime.MINYEAR, datetime.MAXYEAR. simpl.
  repeat (apply andb_true_intro; split); lia.
Qed.

Lemma days_in_month_ge_28 y m :
  1 <= m <= 12 -> 28 <= datetime._days_in_month y m <= 31.
Proof.
  intros Hm. unfold datetime._days_in_month.
  month_cases m; destruct (datetime._is_leap y); simpl; lia.
Qed.

(** The two month-length tables of the standard library agree. *)
Lemma calendar_mdays_days_in_month y m :
  1 <= m <= 12 ->
  nth (Z.to_nat m) calendar.mdays 0
  + (if (m =? calendar.February) && calendar.isleap y then 1 else 0)
  = datetime._days_in_month y m.
Proof.
  intros Hm. unfold datetime._days_in_month, calendar.isleap, datetime._is_leap.
  month_cases m;
    destruct ((y mod 4 =? 0) && (negb (y mod 100 =? 0) || (y mod 400 =? 0)));
    reflexivity.
Qed.

Lemma first_of_month_valid d :
  datetime.valid_date d = true ->
  datetime.valid_date (Spec.first_of_month d) = true.
Proof.
  intros H. apply valid_date_fields in H. destruct H as (Hy & Hm & Hd).
  apply valid_date_intro; auto. lia.
Qed.

Lemma replace_day_first d :
  datetime.valid_date (Spec.first_of_month d) = true ->
  datetime.replace d None None (Some 1) = Some (Spec.first_of_month d).
Proof.
  intros H. unfold datetime.replace, datetime.new.
  fold (Spec.first_of_month d). now rewrite H.
Qed.

Lemma replace_day_first_inv d m1 :
  datetime.replace d None None (Some 1) = Some m1 ->
  m1 = Spec.first_of_month d /\ datetime.valid_date (Spec.first_of_month d) = true.
Proof.
  unfold datetime.replace, datetime.new. fold (Spec.first_of_month d).
  destruct (datetime.valid_date (Spec.first_of_month d)); [ | discriminate].
  intros H. injection H as <-. auto.
Qed.

Lemma monthrange_valid y m :
  1 <= y <= 9999 -> 1 <= m <= 12 ->
  exists day1, calendar.monthrange y m = Some (day1, datetime._days_in_month y m).
Proof.
  intros Hy Hm. unfold calendar.monthrange, calendar.weekday.
  replace ((1 <=? m) && (m <=? 12)) with true
    by (symmetry; apply andb_true_intro; split; lia).
  replace ((datetime.MINYEAR <=? y) && (y <=? datetime.MAXYEAR)) with true
    by (symmetry; apply andb_true_intro;
        unfold datetime.MINYEAR, datetime.MAXYEAR; split; lia).
  unfold datetime.new.
  rewrite valid_date_intro; auto.
  - cbn [bind]. rewrite calendar_mdays_days_in_month by assumption. eauto.
  - pose proof (days_in_month_ge_28 y m Hm). lia.
Qed.

(** The month end computed by [save] is the last calendar day. *)
Lemma month_end_is_last_day y m :
  1 <= y <= 9999 -> 1 <= m <= 12 ->
  Spec.is_last_day_of_month
    (datetime.mkdate y m (datetime._days_in_month y m)).
Proof.
  intros Hy Hm. pose proof (days_in_month_ge_28 y m Hm).
  split.
  - apply valid_date_intro; lia.
  - unfold datetime.valid_date. simpl.
    replace (datetime._days_in_month y m + 1 <=? datetime._days_in_month y m)
      with false by (symmetry; apply Z.leb_gt; lia).
    apply andb_false_r.
Qed.

Lemma date_compare_refl d : datetime.compare d d = Eq.
Proof.
  unfold datetime.compare. now rewrite !Z.compare_refl.
Qed.

Lemma date_lt_irrefl d : datetime.lt d d = false.
Proof. unfold datetime.lt. now rewrite date_compare_refl. Qed.

(** ** Decimals *)

Lemma truediv_some a b :
  decimal.__bool__ b = true -> exists q, decimal.__truediv__ a b = Some q.
Proof.
  unfold decimal.__bool__, decimal.__truediv__. intros Hb.
  apply negb_true_iff in Hb. rewrite Hb.
  destruct (decimal._int a =? 0)%N; [eauto | ].
  match goal with |- context [let '(_, _) := ?x in _] => destruct x as [c r] end.
  match goal with |- context [let '(_, _) := ?x in _] => destruct x as [c' e'] end.
  eauto.
Qed.

Lemma truediv_zero_divisor a b :
  decimal.__bool__ b = false -> decimal.__truediv__ a b = None.
Proof.
  unfold decimal.__bool__, decimal.__truediv__. intros Hb.
  apply negb_false_iff in Hb. now rewrite Hb.
Qed.





Lemma signed_nonneg d : decimal._sign d = false -> 0 <= decimal.signed d.
Proof. unfold decimal.signed. intros ->. lia. Qed.

Lemma signed_pos d :
  decimal._sign d = false -> decimal.__bool__ d = true -> 0 < decimal.signed d.
Proof.
  unfold decimal.signed, decimal.__bool__. intros -> H.
  apply negb_true_iff, N.eqb_neq in H. lia.
Qed.

Lemma signed_zero d : decimal.__bool__ d = false -> decimal.signed d = 0.
Proof.
  unfold decimal.signed, decimal.__bool__. intros H.
  apply negb_false_iff, N.eqb_eq in H. rewrite H. now destruct (decimal._sign d).
Qed.

Lemma pow10_pos k : 0 <= k -> 0 < 10 ^ k.
Proof. intros. apply Z.pow_pos_nonneg; lia. Qed.

(** Comparing with a zero, or with a positive number, only looks at the
    sign of the scaled coefficient. *)
Lemma cmp_scaled a b :
  exists ka kb, 0 < ka /\ 0 < kb
    /\ decimal._cmp a b = (decimal.signed a * ka ?= decimal.signed b * kb).
Proof.
  unfold decimal._cmp.
  exists (10 ^ (decimal._exp a - Z.min (decimal._exp a) (decimal._exp b))),
         (10 ^ (decimal._exp b - Z.min (decimal._exp a) (decimal._exp b))).
  repeat split; try apply pow10_pos; lia.
Qed.


Lemma gt_zero_iff d z :
  decimal.signed z = 0 ->
  decimal.__gt__ d z = true <-> 0 < decimal.signed d.
Proof.
  intros Hz. unfold decimal.__gt__.
  destruct (cmp_scaled d z) as (ka & kb & Hka & Hkb & ->). rewrite Hz.
  destruct (Z.compare_spec (decimal.signed d * ka) (0 * kb));
    split; intros; try discriminate; try reflexivity; nia.
Qed.

Lemma eq_zero_iff d z :
  decimal.signed z = 0 ->
  decimal.__eq__ d z = true <-> decimal.signed d = 0.
Proof.
  intros Hz. unfold decimal.__eq__.
  destruct (cmp_scaled d z) as (ka & kb & Hka & Hkb & ->). rewrite Hz.
  destruct (Z.compare_spec (decimal.signed d * ka) (0 * kb));
    split; intros; try discriminate; try reflexivity; nia.
Qed.

(** ** Querysets *)

Lemma filter_filter_andb {A} (f g : A -> bool) (l : list A) :
  filter f (filter g l) = filter (fun x => g x && f x) l.
Proof.
  induction l as [ | x l IH]; simpl; [reflexivity | ].
  destruct (g x); simpl; [destruct (f x) | ]; now rewrite IH.
Qed.

Lemma count_status_approved_in_range rows emp lo hi s :
  AttendanceRecord.count_status (SalaryRecord.approved_in_range rows emp lo hi) s
  = Spec.approved_between rows emp s lo hi.
Proof.
  unfold AttendanceRecord.count_status, SalaryRecord.approved_in_range,
    Spec.approved_between.
  rewrite filter_filter_andb. do 2 f_equal.
  apply filter_ext. intros a.
  destruct (AttendanceRecord.employee a =? emp);
    destruct (datetime.le lo (AttendanceRecord.date a));
    destruct (datetime.le (AttendanceRecord.date a) hi);
    destruct (AttendanceRecord.review_eqb _ _);
    destruct (AttendanceRecord.status_eqb _ _); reflexivity.
Qed.

(** ** [SalaryRecord.save] *)

Lemma anomaly_of_total final previous :
  exists flag, SalaryRecord.anomaly_of final previous = Some flag.
Proof.
  unfold SalaryRecord.anomaly_of.
  destruct previous as [p | ]; [ | eauto].
  destruct (decimal.__bool__ (SalaryRecord.final_salary p)) eqn:Hp; [ | eauto].
  destruct (truediv_some
              (decimal.__abs__ (decimal.__sub__ final (SalaryRecord.final_salary p)))
              _ Hp) as [q ->].
  simpl. eauto.
Qed.

Lemma daily_rate_nonzero_total base :
  exists dr, Spec.daily_rate_nonzero base = Some dr.
Proof.
  unfold Spec.daily_rate_nonzero.
  destruct (decimal.__bool__ base); [ | eauto].
  apply truediv_some. reflexivity.
Qed.

(** The record computed by [save] before it is written, for a record
    whose month is a date. *)
Lemma derive_eq attendance_objects objects self :
  datetime.valid_date (Spec.first_of_month (SalaryRecord.month self)) = true ->
  let m1 := Spec.first_of_month (SalaryRecord.month self) in
  let month_end :=
    datetime.mkdate (datetime.year m1) (datetime.month m1)
      (datetime._days_in_month (datetime.year m1) (datetime.month m1)) in
  let emp := SalaryRecord.employee self in
  let base := SalaryRecord.base_salary self in
  let late := Spec.approved_between attendance_objects emp
                AttendanceRecord.STATUS_LATE m1 month_end in
  let absent := Spec.approved_between attendance_objects emp
                  AttendanceRecord.STATUS_ABSENT m1 month_end in
  exists daily_rate final flag,
    Spec.daily_rate_nonzero base = Some daily_rate
    /\ Spec.final_salary_from daily_rate base late absent = Some final
    /\ SalaryRecord.anomaly_of final
         (SalaryRecord.previous_record objects emp m1) = Some flag
    /\ SalaryRecord.derive attendance_objects objects self
       = Some (SalaryRecord.mk (SalaryRecord.id self) emp m1 base final
                 late absent flag).
Proof.
  intros Hv. cbv zeta.
  pose proof (valid_date_fields _ Hv) as (Hy & Hm & Hd). simpl in Hy, Hm.
  destruct (daily_rate_nonzero_total (SalaryRecord.base_salary self)) as [dr Hdr].
  destruct (truediv_some dr SalaryRecord.D2 eq_refl) as [half Hhalf].
  destruct (monthrange_valid _ _ Hy Hm) as [day1 Hmr].
  set (m1 := Spec.first_of_month (SalaryRecord.month self)).
  set (month_end := datetime.mkdate (datetime.year m1) (datetime.month m1)
         (datetime._days_in_month (datetime.year m1) (datetime.month m1))).
  set (late := Spec.approved_between attendance_objects
                 (SalaryRecord.employee self) AttendanceRecord.STATUS_LATE
                 m1 month_end).
  set (absent := Spec.approved_between attendance_objects
                   (SalaryRecord.employee self) AttendanceRecord.STATUS_ABSENT
                   m1 month_end).
  set (final := decimal.max
                  (decimal.__sub__ (SalaryRecord.base_salary self)
                     (decimal.__add__
                        (decimal.__mul__ dr (decimal.of_int absent))
                        (decimal.__mul__ half (decimal.of_int late))))
                  SalaryRecord.D0_00).
  destruct (anomaly_of_total final
              (SalaryRecord.previous_record objects (SalaryRecord.employee self) m1))
    as [flag Hflag].
  exists dr, final, flag.
  split; [exact Hdr | ]. split.
  { unfold Spec.final_salary_from. rewrite Hhalf. reflexivity. }
  split; [exact Hflag | ].
  unfold SalaryRecord.derive.
  rewrite (replace_day_first _ Hv). cbn [bind]. fold m1.
  change (datetime.year m1) with (datetime.year (SalaryRecord.month self)).
  change (datetime.month m1) with (datetime.month (SalaryRecord.month self)).
  rewrite Hmr. cbn [bind].
  assert (Hend : datetime.replace m1 None None
                   (Some (datetime._days_in_month
                            (datetime.year (SalaryRecord.month self))
                            (datetime.month (SalaryRecord.month self))))
                 = Some month_end).
  { unfold datetime.replace, datetime.new.
    pose proof (days_in_month_ge_28 (datetime.year (SalaryRecord.month self))
                  _ Hm).
    rewrite valid_date_intro; simpl; auto; lia. }
  rewrite Hend. cbn [bind].
  rewrite !count_status_approved_in_range.
  unfold Spec.daily_rate_nonzero in Hdr. rewrite Hdr. cbn [bind].
  rewrite Hhalf. cbn [bind].
  fold late absent. fold final. rewrite Hflag. reflexivity.
Qed.

Lemma Model_save_fields objects x objects' r :
  SalaryRecord.Model_save objects x = (objects', r) ->
  SalaryRecord.employee r = SalaryRecord.employee x
  /\ SalaryRecord.month r = SalaryRecord.month x
  /\ SalaryRecord.base_salary r = SalaryRecord.base_salary x
  /\ SalaryRecord.final_salary r = SalaryRecord.final_salary x
  /\ SalaryRecord.late_days r = SalaryRecord.late_days x
  /\ SalaryRecord.absent_days r = SalaryRecord.absent_days x
  /\ SalaryRecord.anomaly_flag r = SalaryRecord.anomaly_flag x.
Proof.
  unfold SalaryRecord.Model_save.
  destruct (SalaryRecord.id x) as [k | ];
    [destruct (existsb (SalaryRecord.has_pk k) objects) | ];
    intros H; injection H as _ <-; simpl; repeat split; reflexivity.
Qed.

Lemma gt_zero_false d z :
  decimal.signed z = 0 -> decimal.signed d <= 0 -> decimal.__gt__ d z = false.
Proof.
  intros Hz Hd. destruct (decimal.__gt__ d z) eqn:Hg; [ | reflexivity].
  apply (gt_zero_iff d z Hz) in Hg. lia.
Qed.

(** A non-negative base salary passes the test "> 0" exactly when it
    passes the test the code makes, so both rules give one daily rate. *)
Lemma daily_rate_rules_agree base :
  decimal._sign base = false ->
  Spec.daily_rate_claimed base = Spec.daily_rate_nonzero base.
Proof.
  intros Hs. unfold Spec.daily_rate_claimed, Spec.daily_rate_nonzero, Spec.positive.
  destruct (decimal.__bool__ base) eqn:Hb.
  - replace (decimal.__gt__ base (decimal.of_int 0)) with true; [reflexivity | ].
    symmetry. apply (gt_zero_iff base (decimal.of_int 0) eq_refl).
    now apply signed_pos.
  - rewrite gt_zero_false; [reflexivity | reflexivity | ].
    rewrite (signed_zero _ Hb). lia.
Qed.

(** [save] follows the derivation with the daily rate taken from a
    base salary different from 0. *)
Lemma save_salary_derivation attendance_objects objects self :
  datetime.valid_date (SalaryRecord.month self) = true ->
  Claims.salary_derivation Spec.daily_rate_nonzero attendance_objects objects self.
Proof.
  intros Hv.
  destruct (derive_eq attendance_objects objects self (first_of_month_valid _ Hv))
    as (dr & final & flag & Hdr & Hfinal & _ & Hderive).
  pose proof (valid_date_fields _ Hv) as (Hy & Hm & _).
  unfold Claims.salary_derivation, SalaryRecord.save.
  rewrite Hderive. cbn [bind].
  destruct (SalaryRecord.Model_save objects _) as [objects' r] eqn:Hsave.
  apply Model_save_fields in Hsave. simpl in Hsave.
  destruct Hsave as (_ & Hmonth & _ & Hfin & Hlate & Habs & _).
  exists objects', r,
    (datetime.mkdate (datetime.year (SalaryRecord.month self))
       (datetime.month (SalaryRecord.month self))
       (datetime._days_in_month (datetime.year (SalaryRecord.month self))
          (datetime.month (SalaryRecord.month self)))).
  rewrite Hmonth, Hlate, Habs, Hfin, Hdr. cbn [bind].
  repeat split; try reflexivity; try assumption.
  - apply valid_date_intro; try assumption.
    pose proof (days_in_month_ge_28 (datetime.year (SalaryRecord.month self))
                  _ Hm). lia.
  - apply (month_end_is_last_day _ _ Hy Hm).
Qed.


(** For a base salary that is not negative the derivation also follows
    the rule "base_salary / 22 when base_salary > 0 else 0". *)
Lemma save_salary_derivation_nonnegative attendance_objects objects self :
  datetime.valid_date (SalaryRecord.month self) = true ->
  decimal._sign (SalaryRecord.base_salary self) = false ->
  Claims.salary_derivation Spec.daily_rate_claimed attendance_objects objects self.
Proof.
  intros Hv Hs.
  destruct (save_salary_derivation attendance_objects objects self Hv)
    as (objects' & r & month_end & H).
  exists objects', r, month_end.
  now rewrite (daily_rate_rules_agree _ Hs).
Qed.




(** What [save] computes on the sample with the negative base salary. *)
Example negative_base_final_salary :
  exists objects' r,
    SalaryRecord.save Sample.absences_23 [] Sample.negative_base
    = Some (objects', r)
    /\ SalaryRecord.absent_days r = 23
    /\ SalaryRecord.final_salary r = decimal.mkDecimal false 10000 (-2).
Proof. eexists _, _. vm_compute. repeat split. Qed.

(** ** The order of dates *)

Lemma date_lt_iff a b :
  datetime.lt a b = true <->
  (datetime.year a < datetime.year b
   \/ (datetime.year a = datetime.year b
       /\ (datetime.month a < datetime.month b
           \/ (datetime.month a = datetime.month b
               /\ datetime.day a < datetime.day b)))).
Proof.
  unfold datetime.lt, datetime.compare.
  destruct (Z.compare_spec (datetime.year a) (datetime.year b));
    destruct (Z.compare_spec (datetime.month a) (datetime.month b));
    destruct (Z.compare_spec (datetime.day a) (datetime.day b));
    split; intros; try discriminate; try reflexivity; lia.
Qed.

Lemma date_le_iff a b :
  datetime.le a b = true <->
  (datetime.year a < datetime.year b
   \/ (datetime.year a = datetime.year b
       /\ (datetime.month a < datetime.month b
           \/ (datetime.month a = datetime.month b
               /\ datetime.day a <= datetime.day b)))).
Proof.
  unfold datetime.le, datetime.compare.
  destruct (Z.compare_spec (datetime.year a) (datetime.year b));
    destruct (Z.compare_spec (datetime.month a) (datetime.month b));
    destruct (Z.compare_spec (datetime.day a) (datetime.day b));
    split; intros; try discriminate; try reflexivity; lia.
Qed.

Lemma date_lt_false_le a b : datetime.lt a b = false -> datetime.le b a = true.
Proof.
  intros H. apply date_le_iff.
  destruct (datetime.lt a b) eqn:E; [discriminate | ].
  assert (Hn : ~ datetime.lt a b = true) by congruence.
  rewrite date_lt_iff in Hn. lia.
Qed.

Lemma date_lt_le a b : datetime.lt a b = true -> datetime.le a b = true.
Proof. rewrite date_lt_iff, date_le_iff. lia. Qed.

Lemma date_le_trans a b c :
  datetime.le a b = true -> datetime.le b c = true -> datetime.le a c = true.
Proof. rewrite !date_le_iff. lia. Qed.

Lemma date_le_refl a : datetime.le a a = true.
Proof. rewrite date_le_iff. lia. Qed.

(** ** The previous-month lookup *)

Lemma order_by_month_desc_first_some qs p :
  SalaryRecord.order_by_month_desc_first qs = Some p ->
  In p qs
  /\ forall q, In q qs ->
               datetime.le (SalaryRecord.month q) (SalaryRecord.month p) = true.
Proof.
  revert p. induction qs as [ | r rest IH]; simpl; intros p H; [discriminate | ].
  destruct (SalaryRecord.order_by_month_desc_first rest) as [b | ] eqn:Hb.
  - destruct (IH b eq_refl) as [Hin Hmax].
    destruct (datetime.lt (SalaryRecord.month r) (SalaryRecord.month b)) eqn:Hlt;
      injection H as <-.
    + split; [now right | ]. intros q [<- | Hq]; [now apply date_lt_le | auto].
    + split; [now left | ]. intros q [<- | Hq]; [apply date_le_refl | ].
      eapply date_le_trans; [apply Hmax, Hq | now apply date_lt_false_le].
  - injection H as <-. split; [now left | ].
    intros q [<- | Hq]; [apply date_le_refl | ].
    destruct rest; [contradiction | ]. simpl in Hb.
    destruct (SalaryRecord.order_by_month_desc_first rest);
      [destruct (datetime.lt _ _) | ]; discriminate.
Qed.

Lemma order_by_month_desc_first_none qs :
  SalaryRecord.order_by_month_desc_first qs = None -> qs = [].
Proof.
  destruct qs as [ | r rest]; [reflexivity | ]. simpl.
  destruct (SalaryRecord.order_by_month_desc_first rest);
    [destruct (datetime.lt _ _) | ]; discriminate.
Qed.

Lemma earlier_filter objects emp m q :
  Spec.earlier objects emp m q <->
  In q (filter (fun r => (SalaryRecord.employee r =? emp)
                         && datetime.lt (SalaryRecord.month r) m) objects).
Proof.
  unfold Spec.earlier. rewrite filter_In, andb_true_iff, Z.eqb_eq. tauto.
Qed.

Lemma previous_record_some objects emp m p :
  SalaryRecord.previous_record objects emp m = Some p ->
  Spec.most_recent_earlier objects emp m p.
Proof.
  unfold SalaryRecord.previous_record. intros H.
  apply order_by_month_desc_first_some in H. destruct H as [Hin Hmax].
  split; [now apply earlier_filter | ].
  intros q Hq. apply Hmax. now apply earlier_filter.
Qed.

Lemma previous_record_none objects emp m :
  SalaryRecord.previous_record objects emp m = None ->
  forall q, ~ Spec.earlier objects emp m q.
Proof.
  unfold SalaryRecord.previous_record. intros H q Hq.
  apply order_by_month_desc_first_none in H.
  apply earlier_filter in Hq. rewrite H in Hq. contradiction.
Qed.




(** The worked figures of the specification: previous final salary
    1000.00; a new final salary of 600.00 is flagged, one of 750.00 is
    not. *)
Example anomaly_1000_600 :
  SalaryRecord.anomaly_of (decimal.mkDecimal false 60000 (-2))
    (Some Sample.january_row) = Some true.
Proof. reflexivity. Qed.

Example anomaly_1000_750 :
  SalaryRecord.anomaly_of (decimal.mkDecimal false 75000 (-2))
    (Some Sample.january_row) = Some false.
Proof. reflexivity. Qed.

(** ** Saving twice *)

Lemma derive_some_inv attendance_objects objects self d :
  SalaryRecord.derive attendance_objects objects self = Some d ->
  datetime.valid_date (Spec.first_of_month (SalaryRecord.month self)) = true.
Proof.
  unfold SalaryRecord.derive.
  destruct (datetime.replace (SalaryRecord.month self) None None (Some 1))
    as [m1 | ] eqn:Hm1; [ | discriminate].
  intros _. now apply replace_day_first_inv in Hm1.
Qed.

(** Rows that are not candidates of the previous-month lookup can be
    replaced by, or followed by, another such row without changing the
    candidates. *)
Lemma filter_map_replace {A} (cand sel : A -> bool) (d : A) (l : list A) :
  cand d = false ->
  (forall q, In q l -> sel q = true -> cand q = false) ->
  filter cand (map (fun r => if sel r then d else r) l) = filter cand l.
Proof.
  intros Hd. induction l as [ | r l IH]; simpl; intros Hsel; [reflexivity | ].
  rewrite IH by (intros q Hq; apply Hsel; now right).
  destruct (sel r) eqn:Hr.
  - rewrite Hd. now rewrite (Hsel r (or_introl eq_refl) Hr).
  - reflexivity.
Qed.

Lemma filter_app_not {A} (cand : A -> bool) (d : A) (l : list A) :
  cand d = false -> filter cand (l ++ [d]) = filter cand l.
Proof.
  intros Hd. rewrite filter_app. simpl. rewrite Hd. apply app_nil_r.
Qed.

Lemma previous_record_Model_save objects d objects1 r1 :
  SalaryRecord.Model_save objects d = (objects1, r1) ->
  (forall q k, In q objects -> SalaryRecord.id d = Some k ->
               SalaryRecord.id q = Some k ->
               ~ (SalaryRecord.employee q = SalaryRecord.employee d
                  /\ datetime.lt (SalaryRecord.month q) (SalaryRecord.month d)
                     = true)) ->
  SalaryRecord.previous_record objects1 (SalaryRecord.employee d)
    (SalaryRecord.month d)
  = SalaryRecord.previous_record objects (SalaryRecord.employee d)
      (SalaryRecord.month d).
Proof.
  intros Hsave Hown. unfold SalaryRecord.previous_record. f_equal.
  set (cand := fun r => (SalaryRecord.employee r =? SalaryRecord.employee d)
                        && datetime.lt (SalaryRecord.month r) (SalaryRecord.month d)).
  assert (Hd : forall x, SalaryRecord.month x = SalaryRecord.month d ->
                         cand x = false).
  { intros x Hx. unfold cand. rewrite Hx, date_lt_irrefl. apply andb_false_r. }
  unfold SalaryRecord.Model_save in Hsave.
  destruct (SalaryRecord.id d) as [k | ] eqn:Hid.
  - destruct (existsb (SalaryRecord.has_pk k) objects);
      injection Hsave as <- <-.
    + apply filter_map_replace; [now apply Hd | ].
      intros q Hq Hpk. unfold SalaryRecord.has_pk in Hpk.
      destruct (SalaryRecord.id q) as [j | ] eqn:Hj; [ | discriminate].
      apply Z.eqb_eq in Hpk. subst j.
      specialize (Hown q k Hq eq_refl Hj).
      unfold cand. destruct (SalaryRecord.employee q =? _) eqn:He;
        [ | reflexivity].
      destruct (datetime.lt _ _) eqn:Hlt; [ | reflexivity].
      apply Z.eqb_eq in He. exfalso. apply Hown. now split.
    + apply filter_app_not. now apply Hd.
  - injection Hsave as <- <-. apply filter_app_not. now apply Hd.
Qed.

(** C9 (as amended). When the row stored under the record's primary key,
    if there is one, is not a row of the same employee with an earlier
    month (so for every new record, and for every save after the first),
    saving the record left by a save again, with the same attendance data
    and the salary table left by the first save, succeeds and gives the
    same late_days, absent_days, final_salary and anomaly_flag. *)
Theorem resave_same_derived_fields attendance_objects objects self :
  Claims.own_row_not_earlier objects self ->
  Claims.resave_agrees attendance_objects objects self.
Proof.
  intros Hown objects1 r1 Hsave. unfold SalaryRecord.save in Hsave.
  destruct (SalaryRecord.derive attendance_objects objects self)
    as [d | ] eqn:Hd; [ | discriminate].
  cbn [bind] in Hsave. injection Hsave as Hsave.
  pose proof (derive_some_inv _ _ _ _ Hd) as Hv.
  destruct (derive_eq attendance_objects objects self Hv)
    as (dr & final & flag & Hdr & Hfinal & Hflag & Hderive).
  rewrite Hderive in Hd. injection Hd as <-.
  pose proof (Model_save_fields _ _ _ _ Hsave) as Hf. simpl in Hf.
  destruct Hf as (Hemp & Hmonth & Hbase & Hfin & Hlate & Habs & Hanom).
  assert (Hv1 : datetime.valid_date (Spec.first_of_month (SalaryRecord.month r1))
                = true) by (rewrite Hmonth; exact Hv).
  destruct (derive_eq attendance_objects objects1 r1 Hv1)
    as (dr1 & final1 & flag1 & Hdr1 & Hfinal1 & Hflag1 & Hderive1).
  rewrite Hbase in Hdr1. rewrite Hdr in Hdr1. injection Hdr1 as <-.
  rewrite Hmonth, Hemp, Hbase in Hfinal1.
  unfold Spec.first_of_month in Hfinal, Hfinal1.
  cbn [datetime.year datetime.month] in Hfinal, Hfinal1.
  rewrite Hfinal in Hfinal1. injection Hfinal1 as <-.
  pose proof (previous_record_Model_save _ _ _ _ Hsave) as Hprev.
  cbn [SalaryRecord.id SalaryRecord.employee SalaryRecord.month] in Hprev.
  rewrite Hmonth, Hemp in Hflag1.
  change (Spec.first_of_month (Spec.first_of_month (SalaryRecord.month self)))
    with (Spec.first_of_month (SalaryRecord.month self)) in Hflag1.
  rewrite Hprev in Hflag1 by exact Hown.
  rewrite Hflag in Hflag1. injection Hflag1 as <-.
  unfold SalaryRecord.save. rewrite Hderive1. cbn [bind].
  destruct (SalaryRecord.Model_save objects1 _) as [objects2 r2] eqn:Hsave2.
  apply Model_save_fields in Hsave2. simpl in Hsave2.
  destruct Hsave2 as (_ & _ & _ & Hfin2 & Hlate2 & Habs2 & Hanom2).
  exists objects2, r2. split; [reflexivity | ].
  rewrite Hfin2, Hlate2, Habs2, Hanom2, Hfin, Hlate, Habs, Hanom, Hemp, Hmonth.
  repeat split; reflexivity.
Qed.

Lemma resave_same_derived_fields_witness :
  Claims.resave_agrees Sample.march_attendance [Sample.january_row]
    Sample.january_row.
Proof.
  apply resave_same_derived_fields.
  intros q k [<- | []] _ _ [_ H]. vm_compute in H. discriminate H.
Defined.

(** A new record saved twice: the second save returns the record the
    first one left. *)
Example resave_march_record :
  match SalaryRecord.save Sample.march_attendance [Sample.january_row]
          Sample.march_record with
  | Some (objects1, r1) =>
      match SalaryRecord.save Sample.march_attendance objects1 r1 with
      | Some (_, r2) =>
          r2 = r1 /\ SalaryRecord.absent_days r1 = 1
          /\ SalaryRecord.late_days r1 = 0
      | None => False
      end
  | None => False
  end.
Proof. vm_compute. repeat split. Qed.

(** C9 (as stated) fails: row 1 is stored for January with final salary
    1000.00; the record in memory has its month moved to March and base
    salary 600.00.  The first save finds the stored row as predecessor
    and sets the flag; saved again, the record has no predecessor and the
    flag is cleared. *)
Lemma resave_changes_anomaly_flag :
  ~ Claims.resave_agrees [] [Sample.january_row] Sample.january_row_moved.
Proof.
  intros H.
  assert (Hfirst :
    SalaryRecord.save [] [Sample.january_row] Sample.january_row_moved
    = Some ([SalaryRecord.mk (Some 1) 1 (datetime.mkdate 2024 3 1)
               (decimal.mkDecimal false 60000 (-2))
               (decimal.mkDecimal false 6000000000000000000000000000 (-25)) 0 0 true],
            SalaryRecord.mk (Some 1) 1 (datetime.mkdate 2024 3 1)
              (decimal.mkDecimal false 60000 (-2))
              (decimal.mkDecimal false 6000000000000000000000000000 (-25)) 0 0 true))
    by (vm_compute; reflexivity).
  destruct (H _ _ Hfirst) as (objects2 & r2 & Hsave & _ & _ & _ & Hflag).
  vm_compute in Hsave. injection Hsave as _ <-.
  discriminate Hflag.
Qed.

(** ** [attendance_flag] *)

Lemma new_some_eq y m d r : datetime.new y m d = Some r -> r = datetime.mkdate y m d.
Proof.
  unfold datetime.new. destruct (datetime.valid_date _); [ | discriminate].
  intros H. now injection H as <-.
Qed.

Lemma new_valid y m d :
  datetime.valid_date (datetime.mkdate y m d) = true ->
  datetime.new y m d = Some (datetime.mkdate y m d).
Proof. unfold datetime.new. now intros ->. Qed.

(** The bounds, when they exist, are the first day of the month and the
    first day of the next month. *)
Lemma month_bounds_inv m lo hi :
  ai.month_bounds m = Some (lo, hi) ->
  lo = Spec.first_of_month m /\ hi = Spec.first_of_next_month m.
Proof.
  unfold ai.month_bounds, Spec.first_of_next_month, datetime.replace.
  destruct (datetime.new (datetime.year m) (datetime.month m) 1)
    as [a | ] eqn:Ha; [ | discriminate].
  cbn [bind]. apply new_some_eq in Ha.
  destruct (datetime.month m =? 12).
  - destruct (datetime.new (datetime.year m + 1) 1 1) as [b | ] eqn:Hb;
      [ | discriminate].
    cbn [bind]. apply new_some_eq in Hb. intros H. injection H as <- <-. auto.
  - destruct (datetime.new (datetime.year m) (datetime.month m + 1) 1)
      as [b | ] eqn:Hb; [ | discriminate].
    cbn [bind]. apply new_some_eq in Hb. intros H. injection H as <- <-. auto.
Qed.

Lemma month_bounds_ok m :
  Spec.month_ok (Some m) ->
  ai.month_bounds m = Some (Spec.first_of_month m, Spec.first_of_next_month m).
Proof.
  intros [Hv Hlast]. pose proof (valid_date_fields _ Hv) as (Hy & Hm & Hd).
  unfold datetime.MAXYEAR in Hlast.
  unfold ai.month_bounds, Spec.first_of_next_month.
  rewrite (replace_day_first _ (first_of_month_valid _ Hv)). cbn [bind].
  unfold datetime.replace.
  destruct (datetime.month m =? 12) eqn:H12.
  - apply Z.eqb_eq in H12. rewrite new_valid; [reflexivity | ].
    apply valid_date_intro; try lia.
    pose proof (days_in_month_ge_28 (datetime.year m + 1) 1). lia.
  - apply Z.eqb_neq in H12. rewrite new_valid; [reflexivity | ].
    apply valid_date_intro; try lia.
    pose proof (days_in_month_ge_28 (datetime.year m) (datetime.month m + 1)).
    lia.
Qed.

Lemma count_status_scope rows emp month s (scope : AttendanceRecord.t -> bool) :
  (forall a, scope a = Spec.in_scope month (AttendanceRecord.date a)) ->
  AttendanceRecord.count_status
    (filter scope
       (filter (fun a =>
                  (AttendanceRecord.employee a =? emp)
                  && AttendanceRecord.review_eqb (AttendanceRecord.review_status a)
                       AttendanceRecord.REVIEW_APPROVED) rows)) s
  = Spec.count_in_scope rows emp month s.
Proof.
  intros Hscope.
  unfold AttendanceRecord.count_status, Spec.count_in_scope, Spec.approved_in_scope.
  do 3 f_equal. rewrite filter_filter_andb. apply filter_ext.
  intros a. now rewrite Hscope.
Qed.

Lemma filter_true {A} (l : list A) : filter (fun _ => true) l = l.
Proof. induction l; simpl; congruence. Qed.

(** [attendance_flag] raises exactly when the month bounds do, and
    otherwise classifies the counts of the entries in scope. *)
Lemma attendance_flag_eq attendance_objects employee month :
  ai.attendance_flag attendance_objects employee month
  = bind (match month with
          | Some m => ai.month_bounds m
          | None => Some (datetime.mkdate 1 1 1, datetime.mkdate 1 1 1)
          end)
      (fun _ =>
         Some (Spec.classify
                 (Spec.count_in_scope attendance_objects (User.id employee)
                    month AttendanceRecord.STATUS_LATE)
                 (Spec.count_in_scope attendance_objects (User.id employee)
                    month AttendanceRecord.STATUS_ABSENT))).
Proof.
  unfold ai.attendance_flag, Spec.classify.
  destruct month as [m | ].
  - destruct (ai.month_bounds m) as [[lo hi] | ] eqn:Hb; [ | reflexivity].
    apply month_bounds_inv in Hb. destruct Hb as [-> ->]. cbn [bind].
    now rewrite !(count_status_scope _ _ (Some m)).
  - cbn [bind].
    rewrite <- !(count_status_scope _ _ None _ (fun _ => true)) by reflexivity.
    now rewrite !filter_true.
Qed.

(** C3. attendance_flag classification: whenever the month window exists
    (no month given, or a month whose successor is still a date), the
    result is "Frequently Late" if late_count > 4, otherwise "Irregular
    Attendance" if absent_count >= 3 and late_count >= 3, otherwise
    "Stable Attendance", late_count and absent_count being the counts of
    the employee's Approved Late and Absent entries in scope. *)
Theorem attendance_flag_classification attendance_objects employee month :
  Spec.month_ok month ->
  ai.attendance_flag attendance_objects employee month
  = Some (Spec.classify
            (Spec.count_in_scope attendance_objects (User.id employee) month
               AttendanceRecord.STATUS_LATE)
            (Spec.count_in_scope attendance_objects (User.id employee) month
               AttendanceRecord.STATUS_ABSENT)).
Proof.
  intros Hok. rewrite attendance_flag_eq.
  destruct month as [m | ]; [ | reflexivity].
  now rewrite (month_bounds_ok m Hok).
Qed.

Lemma attendance_flag_classification_witness :
  ai.attendance_flag Sample.march_attendance Sample.employee1
    (Some (datetime.mkdate 2024 3 15))
  = Some (Spec.classify
            (Spec.count_in_scope Sample.march_attendance 1
               (Some (datetime.mkdate 2024 3 15)) AttendanceRecord.STATUS_LATE)
            (Spec.count_in_scope Sample.march_attendance 1
               (Some (datetime.mkdate 2024 3 15)) AttendanceRecord.STATUS_ABSENT)).
Proof.
  apply (attendance_flag_classification Sample.march_attendance
           Sample.employee1 (Some (datetime.mkdate 2024 3 15))).
  split; [reflexivity | ].
  intros [H _]. discriminate H.
Defined.

(** The three cases of the specification. *)
Example classify_5_0 : Spec.classify 5 0 = "Frequently Late"%string.
Proof. reflexivity. Qed.

Example classify_3_3 : Spec.classify 3 3 = "Irregular Attendance"%string.
Proof. reflexivity. Qed.

Example classify_1_1 : Spec.classify 1 1 = "Stable Attendance"%string.
Proof. reflexivity. Qed.

(** The window does not exist for December of the last year of the
    calendar: the code raises ValueError there. *)
Example attendance_flag_december_9999 attendance_objects employee :
  ai.attendance_flag attendance_objects employee
    (Some (datetime.mkdate 9999 12 1)) = None.
Proof. rewrite attendance_flag_eq. reflexivity. Qed.

(** A queryset filter commutes with reordering the rows. *)
Lemma filter_Permutation (keep : AttendanceRecord.t -> bool)
    (rows rows' : list AttendanceRecord.t) :
  Permutation rows rows' -> Permutation (filter keep rows) (filter keep rows').
Proof.
  induction 1 as [ | x l l' _ IH | x y l | l l' l'' _ IH1 _ IH2]; simpl.
  - constructor.
  - destruct (keep x); [now constructor | assumption].
  - destruct (keep x), (keep y); try apply Permutation_refl. constructor.
  - now transitivity (filter keep l').
Qed.

(** C8. Noninterference: two attendance histories with the same Approved
    entries of the employee in the window (all of time when no month is
    given, else from the first day of the month up to, not including, the
    first day of the next month), in any order, give the same result,
    whatever their Pending, Rejected, foreign or out-of-window entries. *)
Theorem attendance_flag_noninterference attendance1 attendance2 employee month :
  Permutation (Spec.approved_in_scope attendance1 (User.id employee) month)
              (Spec.approved_in_scope attendance2 (User.id employee) month) ->
  ai.attendance_flag attendance1 employee month
  = ai.attendance_flag attendance2 employee month.
Proof.
  intros Hperm. rewrite !attendance_flag_eq. unfold Spec.count_in_scope.
  now rewrite !(Permutation_length (filter_Permutation _ _ _ Hperm)).
Qed.

Lemma attendance_flag_noninterference_witness :
  ai.attendance_flag Sample.history_a Sample.employee1
    (Some (datetime.mkdate 2024 3 15))
  = ai.attendance_flag Sample.history_b Sample.employee1
      (Some (datetime.mkdate 2024 3 15)).
Proof.
  apply attendance_flag_noninterference. vm_compute. reflexivity.
Defined.

(** ** [_team_available] and [leave_recommendation] *)

Lemma team_members_of_teammates user_objects employee :
  ai.team_members_of user_objects employee = Spec.teammates user_objects employee.
Proof.
  unfold ai.team_members_of, Spec.teammates. apply filter_filter_andb.
Qed.

(** Filtering a table keeps its primary keys distinct. *)
Lemma NoDup_ids_filter (keep : User.t -> bool) (users : list User.t) :
  NoDup (map User.id users) -> NoDup (map User.id (filter keep users)).
Proof.
  induction users as [ | u users IH]; simpl; intros H; [constructor | ].
  inversion H as [ | y ys Hnotin Hnodup]; subst.
  destruct (keep u); simpl; [ | auto].
  constructor; [ | auto].
  intros Hin. apply Hnotin. apply in_map_iff in Hin.
  destruct Hin as (z & Hz & Hzin). apply filter_In in Hzin.
  apply in_map_iff. exists z. tauto.
Qed.

(** The employees of the overlapping approved leaves of the team are the
    identifiers of the teammates that have such a leave. *)
Lemma overlapping_employee_iff leave_objects team start_date end_date x :
  In x (map (fun l => User.id (LeaveRequest.employee l))
          (ai.overlapping_leaves leave_objects team start_date end_date))
  <-> In x (map User.id
              (filter (Spec.has_overlapping_leave leave_objects start_date end_date)
                      team)).
Proof.
  unfold ai.overlapping_leaves, Spec.has_overlapping_leave.
  rewrite !in_map_iff. split.
  - intros (l & <- & Hl).
    rewrite !filter_In, !andb_true_iff, existsb_exists in Hl.
    destruct Hl as ((Hin & (u & Hu & Hid) & Happ) & Hs & He).
    apply Z.eqb_eq in Hid.
    exists u. split; [assumption | ].
    apply filter_In. split; [assumption | ].
    apply existsb_exists. exists l. split; [assumption | ].
    rewrite !andb_true_iff, Z.eqb_eq. auto.
  - intros (u & <- & Hu).
    rewrite filter_In, existsb_exists in Hu.
    destruct Hu as (Hin & l & Hl & Hc).
    rewrite !andb_true_iff, Z.eqb_eq in Hc.
    destruct Hc as (((Hid & Happ) & Hs) & He).
    exists l. split; [assumption | ].
    rewrite !filter_In, !andb_true_iff, existsb_exists.
    repeat split; try assumption.
    exists u. split; [assumption | ]. now apply Z.eqb_eq.
Qed.

Lemma distinct_employee_count_team leave_objects team start_date end_date :
  NoDup (map User.id team) ->
  ai.distinct_employee_count
    (ai.overlapping_leaves leave_objects team start_date end_date)
  = Z.of_nat (List.length
      (filter (Spec.has_overlapping_leave leave_objects start_date end_date)
              team)).
Proof.
  intros Hnd. unfold ai.distinct_employee_count. f_equal.
  rewrite <- (length_map User.id (filter _ team)).
  apply Permutation_length, NoDup_Permutation.
  - apply NoDup_nodup.
  - now apply NoDup_ids_filter.
  - intros x. rewrite nodup_In. apply overlapping_employee_iff.
Qed.

(** C5. _team_available, for a user table with distinct primary keys:
    true when the employee has no department; otherwise true when no other
    employee has the same department; otherwise true exactly when the
    number of teammates minus the number of teammates with at least one
    Approved leave request with start <= new end and end >= new start is
    at least 1. *)
Theorem team_available_correct user_objects leave_objects employee
    start_date end_date :
  NoDup (map User.id user_objects) ->
  ai._team_available user_objects leave_objects employee start_date end_date
  = Spec.team_available user_objects leave_objects employee start_date end_date.
Proof.
  intros Hnd. unfold ai._team_available, Spec.team_available.
  destruct (String.eqb (User.department employee) EmptyString); [reflexivity | ].
  rewrite team_members_of_teammates.
  assert (Hteam : NoDup (map User.id (Spec.teammates user_objects employee)))
    by (now apply NoDup_ids_filter).
  destruct (Spec.teammates user_objects employee) as [ | u team] eqn:Ht;
    [reflexivity | ].
  rewrite (distinct_employee_count_team _ _ _ _ Hteam).
  cbn [List.length Nat.eqb]. apply Z.geb_leb.
Qed.

Lemma team_available_correct_witness :
  ai._team_available Sample.all_users [Sample.bob_leave; Sample.carol_leave]
    Sample.alice (datetime.mkdate 2024 3 11) (datetime.mkdate 2024 3 15)
  = Spec.team_available Sample.all_users [Sample.bob_leave; Sample.carol_leave]
      Sample.alice (datetime.mkdate 2024 3 11) (datetime.mkdate 2024 3 15).
Proof.
  apply team_available_correct.
  repeat constructor; simpl; intuition discriminate.
Defined.

(** The team cases of the specification: with two teammates, one on an
    overlapping approved leave leaves the team available; both on such
    leaves do not. *)
Example team_one_of_two_on_leave :
  ai._team_available Sample.all_users [Sample.bob_leave] Sample.alice
    (datetime.mkdate 2024 3 11) (datetime.mkdate 2024 3 15) = true.
Proof. reflexivity. Qed.

Example team_both_on_leave :
  ai._team_available Sample.all_users [Sample.bob_leave; Sample.carol_leave]
    Sample.alice (datetime.mkdate 2024 3 11) (datetime.mkdate 2024 3 15) = false.
Proof. reflexivity. Qed.

(** C4. leave_recommendation is "Suggest Approve" if and only if the
    employee's leave_balance is at least the request's total_days and
    _team_available holds for the employee and the request's dates; it is
    "Suggest Review" in every other case, in particular whenever
    leave_balance < total_days. *)
Theorem leave_recommendation_correct user_objects leave_objects leave_request :
  let employee := LeaveRequest.employee leave_request in
  let available :=
    ai._team_available user_objects leave_objects employee
      (LeaveRequest.start_date leave_request)
      (LeaveRequest.end_date leave_request) in
  let result := ai.leave_recommendation user_objects leave_objects leave_request in
  (result = "Suggest Approve"%string
   <-> LeaveRequest.total_days leave_request <= User.leave_balance employee
       /\ available = true)
  /\ (~ (LeaveRequest.total_days leave_request <= User.leave_balance employee
         /\ available = true)
      -> result = "Suggest Review"%string)
  /\ (User.leave_balance employee < LeaveRequest.total_days leave_request
      -> result = "Suggest Review"%string).
Proof.
  cbv zeta. unfold ai.leave_recommendation.
  destruct (Z.leb_spec (LeaveRequest.total_days leave_request)
              (User.leave_balance (LeaveRequest.employee leave_request)))
    as [Hle | Hlt];
    destruct (ai._team_available _ _ _ _ _); simpl;
    repeat split; intros; try reflexivity; try discriminate; try tauto;
    try lia.
  all: match goal with H : _ /\ _ |- _ => destruct H; try discriminate; lia end.
Qed.

Lemma leave_recommendation_correct_witness :
  ai.leave_recommendation Sample.all_users [] Sample.short_balance_request
  = "Suggest Review"%string.
Proof.
  apply (leave_recommendation_correct Sample.all_users []
           Sample.short_balance_request).
  vm_compute. reflexivity.
Defined.

(** The cases of the specification. *)
Example recommend_no_department :
  LeaveRequest.total_days Sample.no_department_request = 5
  /\ ai.leave_recommendation Sample.all_users [Sample.bob_leave; Sample.carol_leave]
       Sample.no_department_request = "Suggest Approve"%string.
Proof. split; reflexivity. Qed.

Example recommend_one_of_two_on_leave :
  ai.leave_recommendation Sample.all_users [Sample.bob_leave]
    Sample.alice_request = "Suggest Approve"%string.
Proof. reflexivity. Qed.

Example recommend_both_on_leave :
  ai.leave_recommendation Sample.all_users [Sample.bob_leave; Sample.carol_leave]
    Sample.alice_request = "Suggest Review"%string.
Proof. reflexivity. Qed.

(** ** [payslip_summary] *)

Lemma or_zero_bool x : decimal.__bool__ (Spec.or_zero x) = decimal.__bool__ x.
Proof.
  unfold Spec.or_zero. destruct (decimal.__bool__ x) eqn:H; [exact H | reflexivity].
Qed.

(** [x or Decimal('0.00')] is [x] up to the representation of zero. *)
Lemma or_zero_cmp x : decimal._cmp (Spec.or_zero x) x = Eq.
Proof.
  unfold Spec.or_zero. destruct (decimal.__bool__ x) eqn:H.
  - unfold decimal._cmp. apply Z.compare_refl.
  - destruct (cmp_scaled ai.D0_00 x) as (ka & kb & _ & _ & ->).
    rewrite (signed_zero _ H). reflexivity.
Qed.

Lemma or_zero_nonzero x : decimal.__bool__ x = true -> Spec.or_zero x = x.
Proof. unfold Spec.or_zero. now intros ->. Qed.

(** The summary is computed for every record, and its fields are the
    following. *)
Lemma payslip_summary_eq salary_record :
  let base := Spec.or_zero (SalaryRecord.base_salary salary_record) in
  let final := Spec.or_zero (SalaryRecord.final_salary salary_record) in
  let deduction := decimal.max (decimal.__sub__ base final) ai.D0_00 in
  exists rate,
    (if decimal.__bool__ base
     then exists q, decimal.__truediv__ deduction base = Some q
                    /\ rate = decimal.__mul__ q ai.D100
     else rate = ai.D0_00)
    /\ ai.payslip_summary salary_record
       = Some (ai.mkSummary
                 (Spec.headline_of deduction rate)
                 (Spec.insights_of deduction
                    (SalaryRecord.absent_days salary_record)
                    (SalaryRecord.late_days salary_record))
                 (Spec.warnings_of (SalaryRecord.anomaly_flag salary_record)
                    deduction rate)
                 deduction rate).
Proof.
  cbv zeta. unfold ai.payslip_summary. fold (Spec.or_zero (SalaryRecord.base_salary salary_record)).
  fold (Spec.or_zero (SalaryRecord.final_salary salary_record)).
  set (base := Spec.or_zero (SalaryRecord.base_salary salary_record)).
  set (final := Spec.or_zero (SalaryRecord.final_salary salary_record)).
  set (deduction := decimal.max (decimal.__sub__ base final) ai.D0_00).
  assert (Hrate : exists rate,
            (if decimal.__bool__ base
             then q <- decimal.__truediv__ deduction base ;;
                  Some (decimal.__mul__ q ai.D100)
             else Some ai.D0_00) = Some rate
            /\ (if decimal.__bool__ base
                then exists q, decimal.__truediv__ deduction base = Some q
                               /\ rate = decimal.__mul__ q ai.D100
                else rate = ai.D0_00)).
  { destruct (decimal.__bool__ base) eqn:Hb; [ | eauto].
    destruct (truediv_some deduction base Hb) as [q Hq].
    rewrite Hq. cbn [bind]. eauto. }
  destruct Hrate as (rate & Heq & Hrate).
  exists rate. split; [exact Hrate | ].
  rewrite Heq. cbn [bind].
  unfold Spec.headline_of, Spec.insights_of, Spec.collected_insights,
    Spec.warnings_of, Spec.line_no_deductions, Spec.line_absent,
    Spec.line_late, Spec.line_stable, Spec.line_anomaly, Spec.line_deduction.
  destruct (decimal.__eq__ deduction (decimal.of_int 0));
    [ | destruct (decimal.__ge__ rate ai.D20)];
    destruct (SalaryRecord.absent_days salary_record =? 0);
    destruct (SalaryRecord.late_days salary_record =? 0);
    destruct (SalaryRecord.anomaly_flag salary_record);
    destruct (decimal.__gt__ deduction (decimal.of_int 0));
    reflexivity.
Qed.

(** *** The lines are pairwise different *)

Lemma string_length_append (s t : string) :
  String.length (s ++ t) = (String.length s + String.length t)%nat.
Proof. induction s as [ | c s IH]; simpl; [reflexivity | now rewrite IH]. Qed.

(** The characters of a suffix, read in the whole string. *)
Lemma append_eq_get (s t u : string) (n : nat) :
  (s ++ t)%string = u ->
  String.get n t = String.get (n + (String.length u - String.length t)) u.
Proof.
  intros <-. rewrite string_length_append.
  replace (String.length s + String.length t - String.length t)%nat
    with (String.length s) by lia.
  apply append_correct2.
Qed.

Lemma line_absent_not_stable n : Spec.line_absent n <> Spec.line_stable.
Proof.
  unfold Spec.line_absent. intros H.
  apply (append_eq_get _ _ _ 0) in H. vm_compute in H. discriminate H.
Qed.

Lemma line_late_not_stable n : Spec.line_late n <> Spec.line_stable.
Proof.
  unfold Spec.line_late. intros H.
  apply (append_eq_get _ _ _ 0) in H. vm_compute in H. discriminate H.
Qed.

Lemma line_absent_not_no_deductions n :
  Spec.line_absent n <> Spec.line_no_deductions.
Proof.
  unfold Spec.line_absent. intros H.
  apply (append_eq_get _ _ _ 0) in H. vm_compute in H. discriminate H.
Qed.

Lemma line_late_not_no_deductions n :
  Spec.line_late n <> Spec.line_no_deductions.
Proof.
  unfold Spec.line_late. intros H.
  apply (append_eq_get _ _ _ 0) in H. vm_compute in H. discriminate H.
Qed.

Lemma append_append_get (s1 t1 s2 t2 : string) (n m : nat) :
  (s1 ++ t1)%string = (s2 ++ t2)%string ->
  (n + String.length t2 = m + String.length t1)%nat ->
  String.get n t1 = String.get m t2.
Proof.
  intros H Hnm.
  pose proof (f_equal String.length H) as Hlen.
  rewrite !string_length_append in Hlen.
  rewrite (append_correct2 s1 t1 n), (append_correct2 s2 t2 m), H.
  f_equal. lia.
Qed.

Lemma line_absent_not_late a l : Spec.line_absent a <> Spec.line_late l.
Proof.
  unfold Spec.line_absent, Spec.line_late. intros H.
  apply (append_append_get _ _ _ _ 20 18) in H; [ | reflexivity].
  vm_compute in H. discriminate H.
Qed.

Lemma line_deduction_not_anomaly d r : Spec.line_deduction d r <> Spec.line_anomaly.
Proof. unfold Spec.line_deduction, Spec.line_anomaly. simpl. discriminate. Qed.

(** *** The sign of the deduction *)

Lemma max_zero_nonneg x z :
  decimal.signed z = 0 -> 0 <= decimal.signed (decimal.max x z).
Proof.
  intros Hz. unfold decimal.max, decimal.__gt__.
  destruct (cmp_scaled z x) as (kz & kx & Hkz & Hkx & ->). rewrite Hz.
  destruct (Z.compare_spec (0 * kz) (decimal.signed x * kx)); try lia; nia.
Qed.

Lemma nonneg_eq_or_gt d :
  0 <= decimal.signed d ->
  decimal.__gt__ d (decimal.of_int 0) = negb (decimal.__eq__ d (decimal.of_int 0)).
Proof.
  intros Hd.
  destruct (decimal.__eq__ d (decimal.of_int 0)) eqn:He; simpl.
  - apply (eq_zero_iff d (decimal.of_int 0) eq_refl) in He.
    apply gt_zero_false; [reflexivity | lia].
  - apply (gt_zero_iff d (decimal.of_int 0) eq_refl).
    assert (Hn : decimal.signed d <> 0).
    { intros H0. apply (eq_zero_iff d (decimal.of_int 0) eq_refl) in H0.
      congruence. }
    lia.
Qed.

Lemma positive_bool x : Spec.positive x = true -> decimal.__bool__ x = true.
Proof.
  unfold Spec.positive. intros H.
  apply (gt_zero_iff x (decimal.of_int 0) eq_refl) in H.
  destruct (decimal.__bool__ x) eqn:Hb; [reflexivity | ].
  rewrite (signed_zero _ Hb) in H. lia.
Qed.

Lemma eq_zero_bool x :
  decimal.__eq__ x (decimal.of_int 0) = true -> decimal.__bool__ x = false.
Proof.
  intros H. apply (eq_zero_iff x (decimal.of_int 0) eq_refl) in H.
  unfold decimal.signed in H. unfold decimal.__bool__.
  apply negb_false_iff, N.eqb_eq. destruct (decimal._sign x); lia.
Qed.

(** *** Membership in the insight and warning lists *)

Ltac absurd_line H :=
  exfalso;
  first [ exact (line_absent_not_stable _ H)
        | exact (line_absent_not_stable _ (eq_sym H))
        | exact (line_late_not_stable _ H)
        | exact (line_late_not_stable _ (eq_sym H))
        | exact (line_absent_not_no_deductions _ H)
        | exact (line_absent_not_no_deductions _ (eq_sym H))
        | exact (line_late_not_no_deductions _ H)
        | exact (line_late_not_no_deductions _ (eq_sym H))
        | exact (line_absent_not_late _ _ H)
        | exact (line_absent_not_late _ _ (eq_sym H))
        | exact (line_deduction_not_anomaly _ _ H)
        | exact (line_deduction_not_anomaly _ _ (eq_sym H))
        | discriminate H ].

Ltac split_In H :=
  repeat (destruct H as [H | H]; [try absurd_line H | ]);
  try contradiction.

Lemma insights_of_absent deduction absent late :
  In (Spec.line_absent absent) (Spec.insights_of deduction absent late)
  <-> absent <> 0.
Proof.
  unfold Spec.insights_of, Spec.collected_insights.
  destruct (decimal.__eq__ deduction (decimal.of_int 0));
    destruct (Z.eqb_spec absent 0) as [Ha | Ha];
    destruct (Z.eqb_spec late 0) as [Hl | Hl]; simpl;
    (split; [intros H; try assumption; split_In H | intros H; try tauto]).
Qed.

Lemma insights_of_late deduction absent late :
  In (Spec.line_late late) (Spec.insights_of deduction absent late)
  <-> late <> 0.
Proof.
  unfold Spec.insights_of, Spec.collected_insights.
  destruct (decimal.__eq__ deduction (decimal.of_int 0));
    destruct (Z.eqb_spec absent 0) as [Ha | Ha];
    destruct (Z.eqb_spec late 0) as [Hl | Hl]; simpl;
    (split; [intros H; try assumption; split_In H | intros H; try tauto]).
Qed.




Lemma warnings_of_anomaly anomaly deduction rate :
  In Spec.line_anomaly (Spec.warnings_of anomaly deduction rate)
  <-> anomaly = true.
Proof.
  unfold Spec.warnings_of.
  destruct anomaly; destruct (decimal.__gt__ deduction (decimal.of_int 0));
    simpl; (split; [intros H; try reflexivity; split_In H
                   | intros H; try discriminate H; tauto]).
Qed.

Lemma warnings_of_deduction anomaly deduction rate :
  In (Spec.line_deduction deduction rate)
     (Spec.warnings_of anomaly deduction rate)
  <-> decimal.__gt__ deduction (decimal.of_int 0) = true.
Proof.
  unfold Spec.warnings_of.
  destruct anomaly; destruct (decimal.__gt__ deduction (decimal.of_int 0));
    simpl; (split; [intros H; try reflexivity; split_In H
                   | intros H; try discriminate H; tauto]).
Qed.

(** C6. payslip_summary never raises, and in its result: deduction is
    max(base - final, 0), base and final being base_salary and
    final_salary with a zero read as 0.00; deduction_rate is
    deduction / base_salary * 100 when base_salary > 0 and 0 when
    base_salary = 0; the headline is "Full payout expected for this
    month." when deduction = 0, else "Significant deductions detected
    this month." when deduction_rate >= 20, else "Minor deductions applied
    to this month.". *)
Theorem payslip_deduction_rate_headline salary_record :
  exists s,
    ai.payslip_summary salary_record = Some s
    /\ ai.deduction s
       = decimal.max
           (decimal.__sub__
              (Spec.or_zero (SalaryRecord.base_salary salary_record))
              (Spec.or_zero (SalaryRecord.final_salary salary_record)))
           ai.D0_00
    /\ (Spec.positive (SalaryRecord.base_salary salary_record) = true ->
        exists q,
          decimal.__truediv__ (ai.deduction s)
            (SalaryRecord.base_salary salary_record) = Some q
          /\ ai.deduction_rate s = decimal.__mul__ q ai.D100)
    /\ (decimal.__eq__ (SalaryRecord.base_salary salary_record)
          (decimal.of_int 0) = true ->
        ai.deduction_rate s = ai.D0_00)
    /\ ai.headline s = Spec.headline_of (ai.deduction s) (ai.deduction_rate s).
Proof.
  destruct (payslip_summary_eq salary_record) as (rate & Hrate & Heq).
  cbv zeta in Hrate, Heq. rewrite or_zero_bool in Hrate.
  eexists. split; [exact Heq | ]. cbn [ai.deduction ai.deduction_rate ai.headline].
  split; [reflexivity | ]. split; [ | split; [ | reflexivity]].
  - intros Hpos. apply positive_bool in Hpos.
    rewrite Hpos in Hrate. now rewrite (or_zero_nonzero _ Hpos) in *.
  - intros Hzero. apply eq_zero_bool in Hzero. now rewrite Hzero in Hrate.
Qed.

(** C7. In the result of payslip_summary, insights is: the line "No
    attendance deductions were applied." when deduction = 0, then
    "{n} day(s) marked absent." iff absent_days is nonzero, then
    "{n} day(s) marked late." iff late_days is nonzero, and, when none of
    these was collected, the single line "Attendance signals are stable
    for this period."; warnings is: "Salary changed by more than 30%
    compared to last month." iff anomaly_flag is set, followed, iff
    deduction > 0, by "Deduction total: {deduction:.2f} ({rate:.1f}% of
    base pay).". *)
Theorem payslip_insights_warnings salary_record :
  exists s,
    ai.payslip_summary salary_record = Some s
    /\ ai.insights s
       = Spec.insights_of (ai.deduction s)
           (SalaryRecord.absent_days salary_record)
           (SalaryRecord.late_days salary_record)
    /\ ai.warnings s
       = Spec.warnings_of (SalaryRecord.anomaly_flag salary_record)
           (ai.deduction s) (ai.deduction_rate s)
    /\ (In (Spec.line_absent (SalaryRecord.absent_days salary_record))
           (ai.insights s)
        <-> SalaryRecord.absent_days salary_record <> 0)
    /\ (In (Spec.line_late (SalaryRecord.late_days salary_record))
           (ai.insights s)
        <-> SalaryRecord.late_days salary_record <> 0)
    /\ (In Spec.line_anomaly (ai.warnings s)
        <-> SalaryRecord.anomaly_flag salary_record = true)
    /\ (In (Spec.line_deduction (ai.deduction s) (ai.deduction_rate s))
           (ai.warnings s)
        <-> decimal.__gt__ (ai.deduction s) (decimal.of_int 0) = true).
Proof.
  destruct (payslip_summary_eq salary_record) as (rate & _ & Heq).
  cbv zeta in Heq.
  eexists. split; [exact Heq | ].
  cbn [ai.deduction ai.deduction_rate ai.insights ai.warnings].
  split; [reflexivity | ]. split; [reflexivity | ].
  split; [apply insights_of_absent | ].
  split; [apply insights_of_late | ].
  split; [apply warnings_of_anomaly | apply warnings_of_deduction].
Qed.


(** The worked payslips of the specification. *)
Example payslip_paid_in_full :
  ai.payslip_summary Sample.paid_in_full
  = Some (ai.mkSummary "Full payout expected for this month."
            ["No attendance deductions were applied."%string] []
            (decimal.mkDecimal false 0 (-2)) (decimal.mkDecimal false 0 0)).
Proof. vm_compute. reflexivity. Qed.

Example payslip_paid_750 :
  ai.payslip_summary Sample.paid_750
  = Some (ai.mkSummary "Significant deductions detected this month."
            ["5 day(s) marked absent."%string; "1 day(s) marked late."%string]
            ["Deduction total: 250.00 (25.0% of base pay)."%string]
            (decimal.mkDecimal false 25000 (-2))
            (decimal.mkDecimal false 2500 (-2))).
Proof. vm_compute. reflexivity. Qed.

(** ** Values of the Decimal model

    The figures below are what Python's [decimal] gives for the same
    operands under the default context. *)

Example truediv_1000_22 :
  decimal.__truediv__ (decimal.mkDecimal false 100000 (-2)) SalaryRecord.D22
  = Some (decimal.mkDecimal false 4545454545454545454545454545 (-26)).
Proof. vm_compute. reflexivity. Qed.

Example truediv_2_3 :
  decimal.__truediv__ (decimal.of_int 2) (decimal.of_int 3)
  = Some (decimal.mkDecimal false 6666666666666666666666666667 (-28)).
Proof. vm_compute. reflexivity. Qed.

Example truediv_exact :
  decimal.__truediv__ (decimal.mkDecimal false 25000 (-2))
    (decimal.mkDecimal false 100000 (-2))
  = Some (decimal.mkDecimal false 25 (-2)).
Proof. vm_compute. reflexivity. Qed.

Example mul_rounds_half_even :
  decimal.__mul__ (decimal.mkDecimal false 4545454545454545454545454545 (-26))
    (decimal.of_int 11)
  = decimal.mkDecimal false 5000000000000000000000000000 (-25).
Proof. vm_compute. reflexivity. Qed.

Example sub_small_difference :
  decimal.__sub__ (decimal.mkDecimal false 100000 (-2))
    (decimal.mkDecimal false 9999999999999999999999999999 (-25))
  = decimal.mkDecimal false 1 (-25).
Proof. vm_compute. reflexivity. Qed.

Example format_f_rounds_half_even :
  fmt.format_f 2 (decimal.mkDecimal false 12345 (-3)) = "12.34"%string
  /\ fmt.format_f 2 (decimal.mkDecimal false 12355 (-3)) = "12.36"%string
  /\ fmt.format_f 1 (decimal.mkDecimal true 4 (-2)) = "-0.0"%string.
Proof. vm_compute. repeat split. Qed.

(** A full month of 22 absences on a base salary of 1000.00 leaves
    1E-25, not 0: the daily rate is rounded to 28 digits before it is
    multiplied. *)
Example final_salary_22_absences :
  Spec.final_salary_from
    (decimal.mkDecimal false 4545454545454545454545454545 (-26))
    (decimal.mkDecimal false 100000 (-2)) 0 22
  = Some (decimal.mkDecimal false 1 (-25)).
Proof. vm_compute. reflexivity. Qed.

(** * Further properties of the code *)

(** ** [SalaryRecord.save] *)

Lemma derive_none attendance_objects objects self :
  datetime.valid_date (Spec.first_of_month (SalaryRecord.month self)) = false ->
  SalaryRecord.derive attendance_objects objects self = None.
Proof.
  intros H. unfold SalaryRecord.derive, datetime.replace, datetime.new.
  fold (Spec.first_of_month (SalaryRecord.month self)). now rewrite H.
Qed.

Lemma gt_false_iff_le a b :
  decimal.signed a <= 0 -> 0 <= decimal.signed b -> decimal.__gt__ a b = false.
Proof.
  intros Ha Hb. unfold decimal.__gt__.
  destruct (cmp_scaled a b) as (ka & kb & Hka & Hkb & ->).
  destruct (Z.compare_spec (decimal.signed a * ka) (decimal.signed b * kb));
    try reflexivity. nia.
Qed.

Lemma max_zero_floor x z :
  decimal.signed z = 0 -> decimal.__gt__ z (decimal.max x z) = false.
Proof.
  intros Hz. apply gt_false_iff_le; [lia | now apply max_zero_nonneg].
Qed.

(** X1. The final salary written by [save] is never negative, whatever
    the base salary, the attendance and the other salary records. *)
Theorem save_final_salary_nonnegative attendance_objects objects self objects' r :
  SalaryRecord.save attendance_objects objects self = Some (objects', r) ->
  0 <= decimal.signed (SalaryRecord.final_salary r)
  /\ decimal.__gt__ SalaryRecord.D0_00 (SalaryRecord.final_salary r) = false.
Proof.
  unfold SalaryRecord.save. intros Hsave.
  destruct (SalaryRecord.derive attendance_objects objects self)
    as [d | ] eqn:Hd; [ | discriminate].
  cbn [bind] in Hsave. injection Hsave as Hsave.
  pose proof (derive_some_inv _ _ _ _ Hd) as Hv.
  destruct (derive_eq attendance_objects objects self Hv)
    as (dr & final & flag & _ & Hfinal & _ & Hderive).
  rewrite Hderive in Hd. injection Hd as <-.
  apply Model_save_fields in Hsave. simpl in Hsave.
  destruct Hsave as (_ & _ & _ & -> & _).
  unfold Spec.final_salary_from in Hfinal.
  destruct (decimal.__truediv__ dr SalaryRecord.D2) as [half | ];
    [ | discriminate].
  cbn [bind] in Hfinal. injection Hfinal as <-.
  split; [apply max_zero_nonneg | apply max_zero_floor]; reflexivity.
Qed.

Lemma save_final_salary_nonnegative_witness :
  0 <= decimal.signed (decimal.mkDecimal false 10000 (-2))
  /\ decimal.__gt__ SalaryRecord.D0_00 (decimal.mkDecimal false 10000 (-2))
     = false.
Proof.
  apply (save_final_salary_nonnegative Sample.absences_23 [] Sample.negative_base
           [SalaryRecord.mk (Some 1) 1 (datetime.mkdate 2024 1 1)
              (decimal.mkDecimal true 220000 (-2))
              (decimal.mkDecimal false 10000 (-2)) 0 23 false]
           (SalaryRecord.mk (Some 1) 1 (datetime.mkdate 2024 1 1)
              (decimal.mkDecimal true 220000 (-2))
              (decimal.mkDecimal false 10000 (-2)) 0 23 false)).
  vm_compute. reflexivity.
Defined.

Lemma approved_between_in_month rows emp s m :
  Spec.approved_between rows emp s (Spec.first_of_month m) (Tables.last_of_month m)
  = AttendanceRecord.count_status (Tables.approved_in_month rows emp m) s.
Proof.
  unfold Spec.approved_between, AttendanceRecord.count_status,
    Tables.approved_in_month.
  rewrite filter_filter_andb. do 2 f_equal. apply filter_ext. intros a.
  destruct (AttendanceRecord.employee a =? emp);
    destruct (AttendanceRecord.review_eqb _ _);
    destruct (AttendanceRecord.status_eqb _ _);
    destruct (datetime.le (Spec.first_of_month m) _);
    destruct (datetime.le _ (Tables.last_of_month m)); reflexivity.
Qed.

(** The record derived by [save], with the day counts read from the
    month's approved entries. *)
Lemma derive_in_month attendance_objects objects self :
  datetime.valid_date (Spec.first_of_month (SalaryRecord.month self)) = true ->
  exists d,
    SalaryRecord.derive attendance_objects objects self = Some d
    /\ SalaryRecord.month d = Spec.first_of_month (SalaryRecord.month self)
    /\ SalaryRecord.late_days d
       = AttendanceRecord.count_status
           (Tables.approved_in_month attendance_objects
              (SalaryRecord.employee self) (SalaryRecord.month self))
           AttendanceRecord.STATUS_LATE
    /\ SalaryRecord.absent_days d
       = AttendanceRecord.count_status
           (Tables.approved_in_month attendance_objects
              (SalaryRecord.employee self) (SalaryRecord.month self))
           AttendanceRecord.STATUS_ABSENT.
Proof.
  intros Hv.
  destruct (derive_eq attendance_objects objects self Hv)
    as (dr & final & flag & _ & _ & _ & Hderive).
  eexists. split; [exact Hderive | ].
  cbn [SalaryRecord.month SalaryRecord.late_days SalaryRecord.absent_days].
  rewrite <- !approved_between_in_month. repeat split; reflexivity.
Qed.

Lemma count_status_Permutation rows rows' s :
  Permutation rows rows' ->
  AttendanceRecord.count_status rows s = AttendanceRecord.count_status rows' s.
Proof.
  intros H. unfold AttendanceRecord.count_status.
  now rewrite (Permutation_length (filter_Permutation _ _ _ H)).
Qed.

(** X2. [save] reads the attendance table only through the employee's
    Approved entries dated within the record's month: two tables with the
    same such entries, in any order, give the same save, whatever their
    Pending or Rejected entries, entries of other employees and entries
    of other months. *)
Theorem save_depends_on_approved_month_entries attendance1 attendance2
    objects self :
  Permutation
    (Tables.approved_in_month attendance1 (SalaryRecord.employee self)
       (SalaryRecord.month self))
    (Tables.approved_in_month attendance2 (SalaryRecord.employee self)
       (SalaryRecord.month self)) ->
  SalaryRecord.save attendance1 objects self
  = SalaryRecord.save attendance2 objects self.
Proof.
  intros Hperm. unfold SalaryRecord.save. f_equal.
  destruct (datetime.valid_date
              (Spec.first_of_month (SalaryRecord.month self))) eqn:Hv.
  - destruct (derive_eq attendance1 objects self Hv)
      as (dr1 & final1 & flag1 & Hdr1 & Hfinal1 & Hflag1 & ->).
    destruct (derive_eq attendance2 objects self Hv)
      as (dr2 & final2 & flag2 & Hdr2 & Hfinal2 & Hflag2 & ->).
    change (datetime.mkdate
              (datetime.year (Spec.first_of_month (SalaryRecord.month self)))
              (datetime.month (Spec.first_of_month (SalaryRecord.month self)))
              (datetime._days_in_month
                 (datetime.year (Spec.first_of_month (SalaryRecord.month self)))
                 (datetime.month (Spec.first_of_month (SalaryRecord.month self)))))
      with (Tables.last_of_month (SalaryRecord.month self)) in *.
    rewrite !approved_between_in_month in *.
    rewrite !(count_status_Permutation _ _ _ Hperm) in *.
    assert (dr1 = dr2) by congruence. subst dr2.
    assert (final1 = final2) by congruence. subst final2.
    assert (flag1 = flag2) by congruence. subst flag2.
    reflexivity.
  - now rewrite !derive_none.
Qed.

Lemma save_depends_on_approved_month_entries_witness :
  SalaryRecord.save Sample.history_a [Sample.january_row] Sample.march_record
  = SalaryRecord.save Sample.history_b [Sample.january_row] Sample.march_record.
Proof.
  apply save_depends_on_approved_month_entries. vm_compute. reflexivity.
Defined.

(** A date between the first and the last day of a month lies in it. *)
Lemma in_month_fields m d :
  datetime.le (Spec.first_of_month m) d = true ->
  datetime.le d (Tables.last_of_month m) = true ->
  datetime.year d = datetime.year m /\ datetime.month d = datetime.month m
  /\ 1 <= datetime.day d
     <= datetime._days_in_month (datetime.year m) (datetime.month m).
Proof.
  rewrite !date_le_iff. unfold Spec.first_of_month, Tables.last_of_month.
  simpl. lia.
Qed.

Lemma NoDup_key_filter {Row Key} (key : Row -> Key) (keep : Row -> bool)
    (rows : list Row) :
  NoDup (map key rows) -> NoDup (map key (filter keep rows)).
Proof.
  induction rows as [ | x rows IH]; simpl; intros H; [constructor | ].
  apply NoDup_cons_iff in H. destruct H as [Hx Hrows].
  destruct (keep x); simpl; [ | auto].
  apply NoDup_cons; [ | auto].
  rewrite in_map_iff in *. intros (z & Hz & Hin).
  apply filter_In in Hin. apply Hx. exists z. tauto.
Qed.

(** Distinct keys stay distinct under a map that is injective on the rows. *)
Lemma NoDup_rekey {Row K1 K2} (k1 : Row -> K1) (k2 : Row -> K2)
    (rows : list Row) :
  (forall x y, In x rows -> In y rows -> k2 x = k2 y -> k1 x = k1 y) ->
  NoDup (map k1 rows) -> NoDup (map k2 rows).
Proof.
  induction rows as [ | x rows IH]; simpl; intros Hinj H; [constructor | ].
  apply NoDup_cons_iff in H. destruct H as [Hx Hrows].
  apply NoDup_cons.
  - rewrite in_map_iff in *. intros (z & Hz & Hin). apply Hx.
    exists z. split; [ | assumption]. apply Hinj; auto.
  - apply IH; [ | assumption]. intros; apply Hinj; auto.
Qed.

(** Distinct whole numbers between 1 and [n] are at most [n]. *)
Lemma NoDup_bounded_length (l : list Z) (n : Z) :
  NoDup l -> (forall x, In x l -> 1 <= x <= n) -> Z.of_nat (List.length l) <= Z.max n 0.
Proof.
  intros Hnd Hb.
  assert (Hnat : NoDup (map Z.to_nat l)).
  { apply (NoDup_rekey (fun x => x) Z.to_nat); [ | now rewrite map_id].
    intros x y Hx Hy Heq. apply Hb in Hx, Hy. lia. }
  assert (Hincl : incl (map Z.to_nat l) (seq 1 (Z.to_nat n))).
  { intros k Hk. apply in_map_iff in Hk. destruct Hk as (x & <- & Hx).
    apply Hb in Hx. apply in_seq. lia. }
  pose proof (NoDup_incl_length Hnat Hincl) as Hlen.
  rewrite length_map, length_seq in Hlen. lia.
Qed.

Lemma count_status_late_absent rows :
  AttendanceRecord.count_status rows AttendanceRecord.STATUS_LATE
  + AttendanceRecord.count_status rows AttendanceRecord.STATUS_ABSENT
  <= Z.of_nat (List.length rows).
Proof.
  unfold AttendanceRecord.count_status.
  induction rows as [ | a rows IH]; [simpl; lia | ].
  cbn [filter]. destruct (AttendanceRecord.status a);
    cbn [AttendanceRecord.status_eqb List.length];
    rewrite ?Nat2Z.inj_succ; lia.
Qed.

Lemma approved_in_month_length rows emp m :
  Tables.unique_attendance_day rows ->
  Z.of_nat (List.length (Tables.approved_in_month rows emp m))
  <= Z.max (datetime._days_in_month (datetime.year m) (datetime.month m)) 0.
Proof.
  intros Hu. unfold Tables.unique_attendance_day in Hu.
  set (L := Tables.approved_in_month rows emp m).
  assert (HL : forall a, In a L ->
            AttendanceRecord.employee a = emp
            /\ datetime.year (AttendanceRecord.date a) = datetime.year m
            /\ datetime.month (AttendanceRecord.date a) = datetime.month m
            /\ 1 <= datetime.day (AttendanceRecord.date a)
               <= datetime._days_in_month (datetime.year m) (datetime.month m)).
  { intros a Ha. unfold L, Tables.approved_in_month in Ha.
    apply filter_In in Ha. destruct Ha as [_ Ha]. split_andb.
    split; [now apply Z.eqb_eq | now apply in_month_fields]. }
  rewrite <- (length_map (fun a => datetime.day (AttendanceRecord.date a)) L).
  apply NoDup_bounded_length.
  - apply (NoDup_rekey
             (fun a => (AttendanceRecord.employee a, AttendanceRecord.date a))).
    + intros x y Hx Hy Hday. apply HL in Hx, Hy.
      destruct Hx as (Ex & Yx & Mx & _), Hy as (Ey & Yy & My & _).
      destruct (AttendanceRecord.date x) as [yx mx dx],
               (AttendanceRecord.date y) as [yy my dy].
      simpl in *. congruence.
    + now apply NoDup_key_filter.
  - intros x Hx. apply in_map_iff in Hx. destruct Hx as (a & <- & Ha).
    now apply HL in Ha.
Qed.

(** X3. With at most one attendance entry per employee and day (the
    constraint unique_attendance_day), the counts written by [save] are
    not negative and late_days + absent_days is at most the number of days
    of the record's month, hence at most 31. *)
Theorem save_day_counts_bounded attendance_objects objects self objects' r :
  Tables.unique_attendance_day attendance_objects ->
  SalaryRecord.save attendance_objects objects self = Some (objects', r) ->
  0 <= SalaryRecord.late_days r /\ 0 <= SalaryRecord.absent_days r
  /\ SalaryRecord.late_days r + SalaryRecord.absent_days r
     <= datetime._days_in_month (datetime.year (SalaryRecord.month r))
          (datetime.month (SalaryRecord.month r))
     <= 31.
Proof.
  intros Hu Hsave. unfold SalaryRecord.save in Hsave.
  destruct (SalaryRecord.derive attendance_objects objects self)
    as [d | ] eqn:Hd; [ | discriminate].
  cbn [bind] in Hsave. injection Hsave as Hsave.
  pose proof (derive_some_inv _ _ _ _ Hd) as Hv.
  destruct (derive_in_month attendance_objects objects self Hv)
    as (d' & Hd' & Hmonth & Hlate & Habs).
  rewrite Hd' in Hd. injection Hd as ->.
  apply Model_save_fields in Hsave.
  destruct Hsave as (_ & -> & _ & _ & -> & -> & _).
  rewrite Hmonth, Hlate, Habs.
  pose proof (valid_date_fields _ Hv) as (_ & Hm & _). simpl in Hm.
  pose proof (days_in_month_ge_28 (datetime.year (SalaryRecord.month self))
                _ Hm) as Hdim.
  pose proof (count_status_late_absent
                (Tables.approved_in_month attendance_objects
                   (SalaryRecord.employee self) (SalaryRecord.month self))).
  pose proof (approved_in_month_length attendance_objects
                (SalaryRecord.employee self) (SalaryRecord.month self) Hu).
  unfold AttendanceRecord.count_status in *. simpl. lia.
Qed.

Lemma save_day_counts_bounded_witness :
  0 <= 0 /\ 0 <= 23 /\ 0 + 23 <= datetime._days_in_month 2024 1 <= 31.
Proof.
  apply (save_day_counts_bounded Sample.absences_23 [] Sample.negative_base
           [SalaryRecord.mk (Some 1) 1 (datetime.mkdate 2024 1 1)
              (decimal.mkDecimal true 220000 (-2))
              (decimal.mkDecimal false 10000 (-2)) 0 23 false]
           (SalaryRecord.mk (Some 1) 1 (datetime.mkdate 2024 1 1)
              (decimal.mkDecimal true 220000 (-2))
              (decimal.mkDecimal false 10000 (-2)) 0 23 false)).
  - unfold Tables.unique_attendance_day. vm_compute.
    repeat (constructor; [simpl; intuition discriminate | ]). constructor.
  - vm_compute. reflexivity.
Defined.

(** ** The previous-month lookup and the order of the table *)

Lemma date_le_antisym a b :
  datetime.le a b = true -> datetime.le b a = true -> a = b.
Proof.
  rewrite !date_le_iff. destruct a as [ya ma da], b as [yb mb db]. simpl.
  intros H1 H2. f_equal; lia.
Qed.

Lemma unique_key_eq {Row Key} (key : Row -> Key) (rows : list Row) x y :
  NoDup (map key rows) -> In x rows -> In y rows -> key x = key y -> x = y.
Proof.
  induction rows as [ | z rows IH]; simpl; intros Hnd Hx Hy Hk; [contradiction | ].
  apply NoDup_cons_iff in Hnd. destruct Hnd as [Hz Hnd].
  destruct Hx as [-> | Hx], Hy as [-> | Hy]; auto.
  - exfalso. apply Hz. rewrite Hk. now apply in_map.
  - exfalso. apply Hz. rewrite <- Hk. now apply in_map.
Qed.

Lemma earlier_Permutation objects objects' emp m q :
  Permutation objects objects' ->
  Spec.earlier objects emp m q -> Spec.earlier objects' emp m q.
Proof.
  intros Hp (Hin & He & Hlt). repeat split; try assumption.
  now apply (Permutation_in _ Hp).
Qed.

Lemma most_recent_earlier_unique objects emp m p p' :
  Tables.unique_salary_month objects ->
  Spec.most_recent_earlier objects emp m p ->
  Spec.most_recent_earlier objects emp m p' -> p = p'.
Proof.
  intros Hu [Hp Hmax] [Hp' Hmax'].
  pose proof (Hmax p' Hp') as H1. pose proof (Hmax' p Hp) as H2.
  pose proof (date_le_antisym _ _ H1 H2) as Hm.
  destruct Hp as (Hin & He & _), Hp' as (Hin' & He' & _).
  apply (unique_key_eq
           (fun r => (SalaryRecord.employee r, SalaryRecord.month r))
           objects); try assumption.
  simpl. congruence.
Qed.

Lemma previous_record_Permutation objects objects' emp m :
  Tables.unique_salary_month objects ->
  Permutation objects objects' ->
  SalaryRecord.previous_record objects emp m
  = SalaryRecord.previous_record objects' emp m.
Proof.
  intros Hu Hperm.
  destruct (SalaryRecord.previous_record objects emp m) as [p | ] eqn:H1;
    destruct (SalaryRecord.previous_record objects' emp m) as [p' | ] eqn:H2;
    try reflexivity.
  - f_equal. apply previous_record_some in H1, H2.
    apply (most_recent_earlier_unique objects emp m); try assumption.
    destruct H2 as [Hp' Hmax']. split.
    + now apply (earlier_Permutation objects' objects); [symmetry | ].
    + intros q Hq. apply Hmax'. now apply (earlier_Permutation objects objects').
  - exfalso. apply previous_record_some in H1. destruct H1 as [Hp _].
    apply (previous_record_none _ _ _ H2 p).
    now apply (earlier_Permutation objects objects').
  - exfalso. apply previous_record_some in H2. destruct H2 as [Hp _].
    apply (previous_record_none _ _ _ H1 p').
    now apply (earlier_Permutation objects' objects); [symmetry | ].
Qed.

(** X4. With at most one salary record per employee and month (the
    constraint unique_salary_month), the result of a save does not depend
    on the order of the rows of the salary table: the predecessor found by
    order_by('-month').first() is the same, and so are the month, the day
    counts, the final salary and the anomaly flag. *)
Theorem save_independent_of_row_order attendance_objects objects objects'
    self objects1 r1 :
  Tables.unique_salary_month objects ->
  Permutation objects objects' ->
  SalaryRecord.save attendance_objects objects self = Some (objects1, r1) ->
  exists objects2 r2,
    SalaryRecord.save attendance_objects objects' self = Some (objects2, r2)
    /\ SalaryRecord.month r2 = SalaryRecord.month r1
    /\ SalaryRecord.late_days r2 = SalaryRecord.late_days r1
    /\ SalaryRecord.absent_days r2 = SalaryRecord.absent_days r1
    /\ SalaryRecord.final_salary r2 = SalaryRecord.final_salary r1
    /\ SalaryRecord.anomaly_flag r2 = SalaryRecord.anomaly_flag r1.
Proof.
  intros Hu Hperm Hsave. unfold SalaryRecord.save in *.
  destruct (SalaryRecord.derive attendance_objects objects self)
    as [d | ] eqn:Hd; [ | discriminate].
  cbn [bind] in Hsave. injection Hsave as Hsave.
  pose proof (derive_some_inv _ _ _ _ Hd) as Hv.
  destruct (derive_eq attendance_objects objects self Hv)
    as (dr & final & flag & Hdr & Hfinal & Hflag & Hderive).
  destruct (derive_eq attendance_objects objects' self Hv)
    as (dr' & final' & flag' & Hdr' & Hfinal' & Hflag' & Hderive').
  assert (dr' = dr) by congruence. subst dr'.
  assert (final' = final) by congruence. subst final'.
  rewrite <- (previous_record_Permutation _ _ _ _ Hu Hperm) in Hflag'.
  assert (flag' = flag) by congruence. subst flag'.
  rewrite Hderive in Hd. injection Hd as <-.
  rewrite Hderive'. cbn [bind].
  destruct (SalaryRecord.Model_save objects' _) as [objects2 r2] eqn:Hsave2.
  apply Model_save_fields in Hsave, Hsave2.
  destruct Hsave as (_ & M1 & _ & F1 & L1 & A1 & G1).
  destruct Hsave2 as (_ & M2 & _ & F2 & L2 & A2 & G2).
  exists objects2, r2.
  rewrite M1, F1, L1, A1, G1, M2, F2, L2, A2, G2.
  repeat split; reflexivity.
Qed.

Lemma save_independent_of_row_order_witness :
  exists objects2 r2,
    SalaryRecord.save Sample.march_attendance
      [Sample.paid_750; Sample.january_row] Sample.march_record
    = Some (objects2, r2)
    /\ SalaryRecord.month r2 = datetime.mkdate 2024 3 1
    /\ SalaryRecord.late_days r2 = 0
    /\ SalaryRecord.absent_days r2 = 1
    /\ SalaryRecord.final_salary r2
       = decimal.mkDecimal false 9545454545454545454545454546 (-25)
    /\ SalaryRecord.anomaly_flag r2 = false.
Proof.
  apply (save_independent_of_row_order Sample.march_attendance
           [Sample.january_row; Sample.paid_750]
           [Sample.paid_750; Sample.january_row] Sample.march_record
           [Sample.january_row; Sample.paid_750;
            SalaryRecord.mk (Some 3) 1 (datetime.mkdate 2024 3 1)
              (decimal.mkDecimal false 100000 (-2))
              (decimal.mkDecimal false 9545454545454545454545454546 (-25))
              0 1 false]
           (SalaryRecord.mk (Some 3) 1 (datetime.mkdate 2024 3 1)
              (decimal.mkDecimal false 100000 (-2))
              (decimal.mkDecimal false 9545454545454545454545454546 (-25))
              0 1 false)).
  - unfold Tables.unique_salary_month. vm_compute.
    repeat (constructor; [simpl; intuition discriminate | ]). constructor.
  - apply perm_swap.
  - vm_compute. reflexivity.
Defined.

(** ** Day numbers and [LeaveRequest.total_days] *)

Lemma mod_4_100_400 y :
  y mod 4 = (y mod 100) mod 4 /\ y mod 100 = (y mod 400) mod 100.
Proof.
  split; symmetry; apply Z.mod_mod_divide.
  - exists 25. reflexivity.
  - exists 4. reflexivity.
Qed.

Lemma days_before_year_succ y :
  datetime._days_before_year (y + 1)
  = datetime._days_before_year y + 365 + (if datetime._is_leap y then 1 else 0).
Proof.
  unfold datetime._days_before_year, datetime._is_leap. cbv zeta.
  replace (y + 1 - 1) with y by lia.
  destruct (mod_4_100_400 y) as [H4 H100].
  destruct (Z.eqb_spec (y mod 4) 0); destruct (Z.eqb_spec (y mod 100) 0);
    destruct (Z.eqb_spec (y mod 400) 0); cbn [andb orb negb];
    Z.div_mod_to_equations; lia.
Qed.

Lemma days_before_year_mono a b :
  a <= b -> datetime._days_before_year a <= datetime._days_before_year b.
Proof.
  intros Hab. replace b with (a + Z.of_nat (Z.to_nat (b - a))) by lia.
  induction (Z.to_nat (b - a)) as [ | n IH].
  - replace (a + Z.of_nat 0) with a by lia. lia.
  - replace (a + Z.of_nat (S n)) with (a + Z.of_nat n + 1) by lia.
    rewrite days_before_year_succ.
    destruct (datetime._is_leap (a + Z.of_nat n)); lia.
Qed.

(** The days of a year before a month, and the month itself, fit in the
    year. *)
Lemma days_before_month_bounds y m :
  1 <= m <= 12 ->
  0 <= datetime._days_before_month y m
  /\ datetime._days_before_month y m + datetime._days_in_month y m
     <= 365 + (if datetime._is_leap y then 1 else 0).
Proof.
  intros Hm. unfold datetime._days_before_month, datetime._days_in_month.
  month_cases m; destruct (datetime._is_leap y); simpl; lia.
Qed.

Lemma days_before_month_mono y m1 m2 :
  1 <= m1 -> m1 < m2 -> m2 <= 12 ->
  datetime._days_before_month y m1 + datetime._days_in_month y m1
  <= datetime._days_before_month y m2.
Proof.
  intros H1 H12 H2. unfold datetime._days_before_month, datetime._days_in_month.
  assert (Hm1 : 1 <= m1 <= 12) by lia. assert (Hm2 : 1 <= m2 <= 12) by lia.
  clear H1 H2.
  month_cases m1; month_cases m2; try lia;
    destruct (datetime._is_leap y); simpl; lia.
Qed.

(** [toordinal] is strictly increasing along the order of dates. *)
Lemma toordinal_lt a b :
  datetime.valid_date a = true -> datetime.valid_date b = true ->
  datetime.lt a b = true -> datetime.toordinal a < datetime.toordinal b.
Proof.
  intros Ha Hb Hlt.
  apply valid_date_fields in Ha, Hb.
  destruct Ha as (Hya & Hma & Hda), Hb as (Hyb & Hmb & Hdb).
  apply date_lt_iff in Hlt. unfold datetime.toordinal.
  pose proof (days_before_month_bounds (datetime.year a) _ Hma) as [_ Ba].
  pose proof (days_before_month_bounds (datetime.year b) _ Hmb) as [Bb _].
  destruct Hlt as [Hy | [Hy [Hm | [Hm Hd]]]].
  - pose proof (days_before_year_mono (datetime.year a + 1) (datetime.year b)
                  ltac:(lia)) as Hmono.
    rewrite days_before_year_succ in Hmono. lia.
  - rewrite Hy in *.
    assert (H1 : 1 <= datetime.month a) by lia.
    assert (H2 : datetime.month b <= 12) by lia.
    pose proof (days_before_month_mono (datetime.year b) _ _ H1 Hm H2). lia.
  - rewrite Hy, Hm. lia.
Qed.

Lemma date_le_cases a b :
  datetime.le a b = true -> a = b \/ datetime.lt a b = true.
Proof.
  rewrite date_le_iff, date_lt_iff. destruct a as [ya ma da], b as [yb mb db].
  simpl. intros H.
  destruct (Z.eq_dec da db) as [Hd | Hd];
    destruct (Z.eq_dec ma mb) as [Hm | Hm];
    destruct (Z.eq_dec ya yb) as [Hy | Hy]; subst;
    first [left; reflexivity | right; lia].
Qed.

Lemma date_le_or_lt a b : datetime.le a b = true \/ datetime.lt b a = true.
Proof.
  destruct (datetime.lt b a) eqn:H; [now right | left].
  now apply date_lt_false_le.
Qed.

(** X5. For dates, total_days counts the days from start_date to end_date,
    both included: it is at least 1 exactly when start_date <= end_date,
    it is 1 exactly when they are the same day, and it is 0 or negative
    exactly when end_date is before start_date. *)
Theorem total_days_positive_iff leave_request :
  datetime.valid_date (LeaveRequest.start_date leave_request) = true ->
  datetime.valid_date (LeaveRequest.end_date leave_request) = true ->
  (1 <= LeaveRequest.total_days leave_request
   <-> datetime.le (LeaveRequest.start_date leave_request)
                   (LeaveRequest.end_date leave_request) = true)
  /\ (LeaveRequest.total_days leave_request = 1
      <-> LeaveRequest.start_date leave_request
          = LeaveRequest.end_date leave_request)
  /\ (LeaveRequest.total_days leave_request <= 0
      <-> datetime.lt (LeaveRequest.end_date leave_request)
                      (LeaveRequest.start_date leave_request) = true).
Proof.
  intros Hs He. unfold LeaveRequest.total_days, datetime.days_between.
  set (s := LeaveRequest.start_date leave_request) in *.
  set (e := LeaveRequest.end_date leave_request) in *.
  pose proof (toordinal_lt s e Hs He) as Hse.
  pose proof (toordinal_lt e s He Hs) as Hes.
  assert (Hirr : datetime.lt e s = true -> datetime.le s e = true -> False).
  { rewrite date_lt_iff, date_le_iff. lia. }
  repeat split.
  - intros H. destruct (date_le_or_lt s e) as [Hle | Hlt]; [assumption | ].
    apply Hes in Hlt. lia.
  - intros H. apply date_le_cases in H. destruct H as [-> | H]; [lia | ].
    apply Hse in H. lia.
  - intros H. destruct (date_le_or_lt s e) as [Hle | Hlt].
    + apply date_le_cases in Hle. destruct Hle as [Heq | Hlt]; [assumption | ].
      apply Hse in Hlt. lia.
    + apply Hes in Hlt. lia.
  - intros ->. lia.
  - intros H. destruct (date_le_or_lt s e) as [Hle | Hlt]; [ | assumption].
    apply date_le_cases in Hle. destruct Hle as [Heq | Hlt].
    + rewrite Heq in H. lia.
    + apply Hse in Hlt. lia.
  - intros H. apply Hes in H. lia.
Qed.

Lemma total_days_positive_iff_witness :
  (1 <= LeaveRequest.total_days Sample.alice_request
   <-> datetime.le (datetime.mkdate 2024 3 11) (datetime.mkdate 2024 3 15) = true)
  /\ (LeaveRequest.total_days Sample.alice_request = 1
      <-> datetime.mkdate 2024 3 11 = datetime.mkdate 2024 3 15)
  /\ (LeaveRequest.total_days Sample.alice_request <= 0
      <-> datetime.lt (datetime.mkdate 2024 3 15) (datetime.mkdate 2024 3 11)
          = true).
Proof.
  apply (total_days_positive_iff Sample.alice_request); reflexivity.
Defined.

(** X6. A request whose end date is before its start date passes the
    balance test for every balance that is not negative: its
    recommendation is decided by team availability alone. *)
Theorem reversed_range_ignores_balance user_objects leave_objects leave_request :
  datetime.valid_date (LeaveRequest.start_date leave_request) = true ->
  datetime.valid_date (LeaveRequest.end_date leave_request) = true ->
  datetime.lt (LeaveRequest.end_date leave_request)
              (LeaveRequest.start_date leave_request) = true ->
  0 <= User.leave_balance (LeaveRequest.employee leave_request) ->
  ai.leave_recommendation user_objects leave_objects leave_request
  = if ai._team_available user_objects leave_objects
         (LeaveRequest.employee leave_request)
         (LeaveRequest.start_date leave_request)
         (LeaveRequest.end_date leave_request)
    then "Suggest Approve"%string else "Suggest Review"%string.
Proof.
  intros Hs He Hlt Hbal. unfold ai.leave_recommendation.
  pose proof (toordinal_lt _ _ He Hs Hlt) as Hord.
  replace (LeaveRequest.total_days leave_request
           <=? User.leave_balance (LeaveRequest.employee leave_request))
    with true; [reflexivity | ].
  symmetry. apply Z.leb_le.
  unfold LeaveRequest.total_days, datetime.days_between. lia.
Qed.

Lemma reversed_range_ignores_balance_witness :
  ai.leave_recommendation Sample.all_users [Sample.bob_leave]
    (LeaveRequest.mk (User.mk 1 User.ROLE_EMPLOYEE "Engineering" 0)
       (datetime.mkdate 2024 3 15) (datetime.mkdate 2024 3 11)
       LeaveRequest.STATUS_PENDING)
  = "Suggest Approve"%string.
Proof.
  apply (reversed_range_ignores_balance Sample.all_users [Sample.bob_leave]
           (LeaveRequest.mk (User.mk 1 User.ROLE_EMPLOYEE "Engineering" 0)
              (datetime.mkdate 2024 3 15) (datetime.mkdate 2024 3 11)
              LeaveRequest.STATUS_PENDING));
    solve [reflexivity | simpl; lia].
Defined.

(** ** [attendance_flag] and the month *)

Lemma month_bounds_december_9999 m :
  datetime.year m = datetime.MAXYEAR -> datetime.month m = 12 ->
  ai.month_bounds m = None.
Proof.
  intros Hy Hm. unfold ai.month_bounds, datetime.replace.
  rewrite Hy, Hm. cbn [Z.eqb Pos.eqb].
  destruct (datetime.new datetime.MAXYEAR 12 1); reflexivity.
Qed.

(** X7. attendance_flag raises exactly for a month of December 9999,
    whose successor month is beyond the last year of [date]; it never
    raises when no month is given. *)
Theorem attendance_flag_raises_iff attendance_objects employee m :
  datetime.valid_date m = true ->
  (ai.attendance_flag attendance_objects employee (Some m) = None
   <-> datetime.year m = 9999 /\ datetime.month m = 12)
  /\ ai.attendance_flag attendance_objects employee None <> None.
Proof.
  intros Hv. rewrite !attendance_flag_eq. split; [ | discriminate].
  split.
  - intros Hnone.
    destruct (Z.eq_dec (datetime.year m) 9999) as [Hy | Hy];
      destruct (Z.eq_dec (datetime.month m) 12) as [Hm | Hm]; auto;
      rewrite month_bounds_ok in Hnone;
      try discriminate Hnone; (split; [assumption | ]);
      unfold datetime.MAXYEAR; lia.
  - intros [Hy Hm]. now rewrite month_bounds_december_9999.
Qed.

Lemma attendance_flag_raises_iff_witness :
  (ai.attendance_flag Sample.history_a Sample.employee1
     (Some (datetime.mkdate 9999 12 31)) = None
   <-> 9999 = 9999 /\ 12 = 12)
  /\ ai.attendance_flag Sample.history_a Sample.employee1 None <> None.
Proof.
  apply (attendance_flag_raises_iff Sample.history_a Sample.employee1
           (datetime.mkdate 9999 12 31)).
  reflexivity.
Defined.





(** ** [_team_available]: who decides *)

Lemma filter_length_lt_iff {A} (keep : A -> bool) (l : list A) :
  (List.length (filter keep l) < List.length l)%nat
  <-> exists x, In x l /\ keep x = false.
Proof.
  induction l as [ | a l IH]; simpl.
  - split; [lia | intros (x & [] & _)].
  - pose proof (filter_length_le keep l) as Hle.
    destruct (keep a) eqn:Ha; simpl.
    + rewrite <- Nat.succ_lt_mono, IH. split.
      * intros (x & Hx & Hk). eauto.
      * intros (x & [-> | Hx] & Hk); [congruence | eauto].
    + split; [intros _; eauto | intros _; lia].
Qed.

(** X9. With distinct user keys, the team of an employee with a
    department is available exactly when the employee has no teammate or
    some teammate has no Approved leave overlapping the dates; an employee
    without department is always available. *)
Theorem team_available_iff_free_teammate user_objects leave_objects employee
    start_date end_date :
  NoDup (map User.id user_objects) ->
  ai._team_available user_objects leave_objects employee start_date end_date
  = true
  <-> User.department employee = EmptyString
      \/ Spec.teammates user_objects employee = []
      \/ exists u, In u (Spec.teammates user_objects employee)
                   /\ Spec.has_overlapping_leave leave_objects
                        start_date end_date u = false.
Proof.
  intros Hnd. unfold ai._team_available.
  destruct (String.eqb_spec (User.department employee) EmptyString) as [Hd | Hd];
    [tauto | ].
  rewrite team_members_of_teammates.
  assert (Hteam : NoDup (map User.id (Spec.teammates user_objects employee)))
    by (now apply NoDup_ids_filter).
  destruct (Spec.teammates user_objects employee) as [ | t team] eqn:Ht;
    [tauto | ].
  rewrite (distinct_employee_count_team _ _ _ _ Hteam).
  rewrite Z.geb_leb, Z.leb_le.
  pose proof (filter_length_lt_iff
                (Spec.has_overlapping_leave leave_objects start_date end_date)
                (t :: team)) as Hiff.
  split.
  - intros H. right. right. apply Hiff. lia.
  - intros [H | [H | H]]; [contradiction | discriminate | ].
    apply Hiff in H. lia.
Qed.

Lemma team_available_iff_free_teammate_witness :
  ai._team_available Sample.all_users [Sample.bob_leave] Sample.alice
    (datetime.mkdate 2024 3 11) (datetime.mkdate 2024 3 15) = true
  <-> User.department Sample.alice = EmptyString
      \/ Spec.teammates Sample.all_users Sample.alice = []
      \/ exists u, In u (Spec.teammates Sample.all_users Sample.alice)
                   /\ Spec.has_overlapping_leave [Sample.bob_leave]
                        (datetime.mkdate 2024 3 11) (datetime.mkdate 2024 3 15) u
                      = false.
Proof.
  apply team_available_iff_free_teammate.
  repeat constructor; simpl; intuition discriminate.
Defined.

Lemma overlapping_leaves_of_others leave_objects employee team start_date end_date :
  (forall u, In u team -> User.id u <> User.id employee) ->
  ai.overlapping_leaves leave_objects team start_date end_date
  = ai.overlapping_leaves
      (Tables.approved_leaves_of_others leave_objects employee)
      team start_date end_date.
Proof.
  intros Hteam. unfold ai.overlapping_leaves, Tables.approved_leaves_of_others.
  f_equal. rewrite filter_filter_andb. apply filter_ext. intros l.
  destruct (LeaveRequest.status_eqb _ _); [ | now rewrite !andb_false_r].
  destruct (existsb _ team) eqn:He; [ | now rewrite !andb_false_r].
  apply existsb_exists in He. destruct He as (u & Hu & Hid).
  apply Z.eqb_eq in Hid. rewrite <- Hid.
  apply Hteam in Hu. apply Z.eqb_neq in Hu. now rewrite Hu.
Qed.

Lemma team_available_approved_others user_objects leaves1 leaves2 employee
    start_date end_date :
  Tables.approved_leaves_of_others leaves1 employee
  = Tables.approved_leaves_of_others leaves2 employee ->
  ai._team_available user_objects leaves1 employee start_date end_date
  = ai._team_available user_objects leaves2 employee start_date end_date.
Proof.
  intros Heq. unfold ai._team_available.
  destruct (String.eqb (User.department employee) EmptyString); [reflexivity | ].
  assert (Hteam : forall u, In u (ai.team_members_of user_objects employee) ->
                            User.id u <> User.id employee).
  { intros u Hu. unfold ai.team_members_of in Hu.
    apply filter_In in Hu. destruct Hu as [_ Hu].
    apply negb_true_iff in Hu. now apply Z.eqb_neq. }
  destruct (ai.team_members_of user_objects employee) as [ | t team] eqn:Ht;
    [reflexivity | ].
  now rewrite (overlapping_leaves_of_others leaves1 employee _ _ _ Hteam),
    (overlapping_leaves_of_others leaves2 employee _ _ _ Hteam), Heq.
Qed.


(** X10. Team availability reads the leave table only through the
    Approved requests of other users: Pending and Rejected requests, and
    the employee's own requests, never change it. *)
Theorem team_available_ignores_unapproved user_objects leaves1 leaves2 employee
    start_date end_date :
  Tables.approved_leaves_of_others leaves1 employee
  = Tables.approved_leaves_of_others leaves2 employee ->
  ai._team_available user_objects leaves1 employee start_date end_date
  = ai._team_available user_objects leaves2 employee start_date end_date.
Proof. apply team_available_approved_others. Qed.

Lemma team_available_ignores_unapproved_witness :
  ai._team_available Sample.all_users
    [Sample.bob_leave;
     LeaveRequest.mk Sample.carol (datetime.mkdate 2024 3 12)
       (datetime.mkdate 2024 3 13) LeaveRequest.STATUS_PENDING;
     LeaveRequest.mk Sample.alice (datetime.mkdate 2024 3 1)
       (datetime.mkdate 2024 3 31) LeaveRequest.STATUS_APPROVED]
    Sample.alice (datetime.mkdate 2024 3 11) (datetime.mkdate 2024 3 15)
  = ai._team_available Sample.all_users [Sample.bob_leave]
      Sample.alice (datetime.mkdate 2024 3 11) (datetime.mkdate 2024 3 15).
Proof.
  apply team_available_ignores_unapproved. reflexivity.
Defined.

(** ** [payslip_summary]: headline, insights and warnings together *)

Lemma headline_of_full deduction rate :
  Spec.headline_of deduction rate = "Full payout expected for this month."%string
  <-> decimal.__eq__ deduction (decimal.of_int 0) = true.
Proof.
  unfold Spec.headline_of.
  destruct (decimal.__eq__ deduction (decimal.of_int 0));
    [tauto | destruct (decimal.__ge__ rate ai.D20)];
    split; intros H; discriminate H.
Qed.

Lemma insights_of_no_deductions deduction absent late :
  In Spec.line_no_deductions (Spec.insights_of deduction absent late)
  <-> decimal.__eq__ deduction (decimal.of_int 0) = true.
Proof.
  unfold Spec.insights_of, Spec.collected_insights.
  destruct (decimal.__eq__ deduction (decimal.of_int 0));
    destruct (Z.eqb_spec absent 0) as [Ha | Ha];
    destruct (Z.eqb_spec late 0) as [Hl | Hl]; simpl;
    (split; [intros H; try reflexivity; split_In H
            | intros H; try discriminate H; tauto]).
Qed.

Lemma insights_of_length deduction absent late :
  (1 <= List.length (Spec.insights_of deduction absent late) <= 3)%nat.
Proof.
  unfold Spec.insights_of, Spec.collected_insights.
  destruct (decimal.__eq__ deduction (decimal.of_int 0));
    destruct (absent =? 0); destruct (late =? 0); simpl; lia.
Qed.

Lemma warnings_of_length anomaly deduction rate :
  (List.length (Spec.warnings_of anomaly deduction rate) <= 2)%nat.
Proof.
  unfold Spec.warnings_of.
  destruct anomaly; destruct (decimal.__gt__ deduction (decimal.of_int 0));
    simpl; lia.
Qed.

(** X11. The parts of a payslip summary agree: the headline is "Full
    payout expected for this month." exactly when the insights hold "No
    attendance deductions were applied.", and exactly when the warnings
    hold no "Deduction total" line; there are between 1 and 3 insights and
    at most 2 warnings. *)
Theorem payslip_parts_agree salary_record :
  exists s,
    ai.payslip_summary salary_record = Some s
    /\ (ai.headline s = "Full payout expected for this month."%string
        <-> In Spec.line_no_deductions (ai.insights s))
    /\ (ai.headline s = "Full payout expected for this month."%string
        <-> ~ In (Spec.line_deduction (ai.deduction s) (ai.deduction_rate s))
                 (ai.warnings s))
    /\ (1 <= List.length (ai.insights s) <= 3)%nat
    /\ (List.length (ai.warnings s) <= 2)%nat.
Proof.
  destruct (payslip_summary_eq salary_record) as (rate & _ & Heq).
  cbv zeta in Heq. eexists. split; [exact Heq | ].
  cbn [ai.headline ai.insights ai.warnings ai.deduction ai.deduction_rate].
  rewrite headline_of_full, insights_of_no_deductions, warnings_of_deduction.
  split; [tauto | ].
  split; [ | split; [apply insights_of_length | apply warnings_of_length]].
  rewrite nonneg_eq_or_gt by (now apply max_zero_nonneg).
  destruct (decimal.__eq__ _ (decimal.of_int 0)); simpl;
    split; intros H; try reflexivity; try discriminate; auto;
    exfalso; now apply H.
Qed.

(** ** Access control *)

Lemma role_eqb_eq a b : views.role_eqb a b = true <-> a = b.
Proof. destruct a, b; simpl; split; intros H; try reflexivity; discriminate H. Qed.

Lemma role_in_iff x roles : views.role_in x roles = true <-> In x roles.
Proof.
  unfold views.role_in. rewrite existsb_exists. split.
  - intros (y & Hy & He). apply role_eqb_eq in He. now subst.
  - intros H. exists x. split; [assumption | now apply role_eqb_eq].
Qed.

Lemma role_in_app x roles y :
  views.role_in x (roles ++ [y]) = views.role_in x roles || views.role_eqb x y.
Proof.
  unfold views.role_in. rewrite existsb_app. simpl. now rewrite orb_false_r.
Qed.

(** X12. role_required(roles) lets a request through exactly when the
    user is a superuser, or the user's role is listed, or the user is a
    manager and HR is listed: every HR gate is also open to managers. *)
Theorem role_required_iff roles user :
  views.role_required roles user = true
  <-> views.is_superuser user = true
      \/ In (User.role (views.account user)) roles
      \/ (User.role (views.account user) = User.ROLE_MANAGER
          /\ In User.ROLE_HR roles).
Proof.
  unfold views.role_required. cbv zeta.
  rewrite orb_true_iff.
  destruct (views.role_in User.ROLE_HR roles) eqn:Hhr;
    destruct (views.role_in User.ROLE_MANAGER roles) eqn:Hm; cbn [andb negb].
  - apply role_in_iff in Hhr, Hm. rewrite role_in_iff.
    split; [tauto | ]. intros [H | [H | [H _]]]; auto. rewrite H. auto.
  - apply role_in_iff in Hhr.
    rewrite role_in_app, orb_true_iff, role_eqb_eq, role_in_iff. tauto.
  - rewrite role_in_iff.
    assert (~ In User.ROLE_HR roles)
      by (rewrite <- role_in_iff; congruence). tauto.
  - rewrite role_in_iff.
    assert (~ In User.ROLE_HR roles)
      by (rewrite <- role_in_iff; congruence). tauto.
Qed.

(** X13. The two gates used by the views, role_required([HR]) and
    role_required([MANAGER, HR]), admit the same users: superusers, HR
    and managers; an employee who is not a superuser is refused by both. *)
Theorem view_gates_admit_hr_manager_superuser user :
  views.role_required [User.ROLE_HR] user
  = views.role_required [User.ROLE_MANAGER; User.ROLE_HR] user
  /\ views.role_required [User.ROLE_HR] user
     = (views.is_superuser user || views.is_hr (views.account user)
        || views.is_manager (views.account user))
  /\ (views.is_superuser user = false ->
      views.is_employee (views.account user) = true ->
      views.role_required [User.ROLE_HR] user = false).
Proof.
  unfold views.role_required, views.role_in, views.is_hr, views.is_manager,
    views.is_employee.
  destruct (views.is_superuser user);
    destruct (User.role (views.account user)); simpl; repeat split;
    intros; try reflexivity; discriminate.
Qed.

(** X14. payslip_detail refuses exactly the users with the role EMPLOYEE
    asking for a record of another employee, superusers included:
    is_superuser plays no part; every other request for a stored record is
    answered with the summary of that record. *)
Theorem payslip_detail_access objects user pk record :
  find (SalaryRecord.has_pk pk) objects = Some record ->
  (views.payslip_detail objects user pk
   = Some (views.HttpResponseForbidden, None)
   <-> User.role (views.account user) = User.ROLE_EMPLOYEE
       /\ SalaryRecord.employee record <> User.id (views.account user))
  /\ (views.payslip_detail objects user pk
      <> Some (views.HttpResponseForbidden, None) ->
      exists s,
        ai.payslip_summary record = Some s
        /\ views.payslip_detail objects user pk
           = Some (views.render "salary/payslip_detail.html", Some s)).
Proof.
  intros Hfind. unfold views.payslip_detail. rewrite Hfind.
  destruct (payslip_summary_eq record) as (rate & _ & ->). cbv zeta.
  unfold views.is_hr, views.is_manager.
  destruct (Z.eqb_spec (SalaryRecord.employee record)
              (User.id (views.account user))) as [He | He];
    destruct (User.role (views.account user)); simpl; split;
    try (split; [intros H; discriminate H | intros [H1 H2]; congruence]);
    try (intros _; eexists; split; reflexivity);
    try (split; [intros _; split; [reflexivity | assumption] | reflexivity]).
  all: intros H; exfalso; now apply H.
Qed.

Lemma payslip_detail_access_witness :
  views.payslip_detail [Sample.paid_in_full; Sample.paid_750]
    (views.mkRequestUser Sample.bob true) 2
  = Some (views.HttpResponseForbidden, None)
  <-> User.role Sample.bob = User.ROLE_EMPLOYEE
      /\ SalaryRecord.employee Sample.paid_750 <> User.id Sample.bob.
Proof.
  apply (payslip_detail_access [Sample.paid_in_full; Sample.paid_750]
           (views.mkRequestUser Sample.bob true) 2 Sample.paid_750).
  reflexivity.
Defined.

(** ** [leave_approve] *)

Lemma find_map_same {A} (p : A -> bool) (f : A -> A) (l : list A) :
  (forall x, p (f x) = p x) ->
  find p (map f l) = option_map f (find p l).
Proof.
  intros Hp. induction l as [ | x l IH]; simpl; [reflexivity | ].
  rewrite Hp. destruct (p x); [reflexivity | exact IH].
Qed.

Lemma get_user_update_same user_objects k balance :
  LeaveRow.get_user (views.update_leave_balance user_objects k balance) k
  = option_map (fun u => Tables.with_balance u balance)
      (LeaveRow.get_user user_objects k).
Proof.
  unfold LeaveRow.get_user, views.update_leave_balance.
  rewrite find_map_same.
  - destruct (find (fun u => User.id u =? k) user_objects) as [u | ] eqn:Hu;
      [ | reflexivity].
    apply find_some in Hu. destruct Hu as [_ Hu]. simpl. now rewrite Hu.
  - intros u. cbv beta. destruct (User.id u =? k) eqn:E; simpl; now rewrite ?E.
Qed.

Lemma get_user_update_other user_objects k balance j :
  j <> k ->
  LeaveRow.get_user (views.update_leave_balance user_objects k balance) j
  = LeaveRow.get_user user_objects j.
Proof.
  intros Hj. unfold LeaveRow.get_user, views.update_leave_balance.
  rewrite find_map_same.
  - destruct (find (fun u => User.id u =? j) user_objects) as [u | ] eqn:Hu;
      [ | reflexivity].
    apply find_some in Hu. destruct Hu as [_ Hu]. simpl.
    apply Z.eqb_eq in Hu. subst j.
    now replace (User.id u =? k) with false by (symmetry; now apply Z.eqb_neq).
  - intros u. cbv beta. destruct (User.id u =? k) eqn:E; simpl; now rewrite ?E.
Qed.

Lemma find_update_leave rows row k :
  LeaveRow.pk row = k ->
  find (fun r => LeaveRow.pk r =? k) (views.update_leave rows row)
  = option_map (fun _ => row) (find (fun r => LeaveRow.pk r =? k) rows).
Proof.
  intros Hk. unfold views.update_leave. rewrite find_map_same.
  - destruct (find (fun r => LeaveRow.pk r =? k) rows) as [r | ] eqn:Hr;
      [ | reflexivity].
    apply find_some in Hr. destruct Hr as [_ Hr]. simpl.
    apply Z.eqb_eq in Hr. rewrite Hr, Hk. now rewrite Z.eqb_refl.
  - intros r. destruct (Z.eqb_spec (LeaveRow.pk r) (LeaveRow.pk row)) as [E | E];
      [now rewrite E | reflexivity].
Qed.

(** The approval branch of [leave_approve], for an admitted user, a
    stored request and a stored employee. *)
Lemma leave_approve_approve user_objects leave_objects user pk leave e :
  views.role_required [User.ROLE_MANAGER; User.ROLE_HR] user = true ->
  find (fun r => LeaveRow.pk r =? pk) leave_objects = Some leave ->
  LeaveRow.get_user user_objects (LeaveRow.employee_id leave) = Some e ->
  views.leave_approve user_objects leave_objects user
    (views.POST (Some "approve"%string)) pk
  = Some (views.update_leave_balance user_objects (LeaveRow.employee_id leave)
            (Z.max (User.leave_balance e
                    - (datetime.days_between (LeaveRow.end_date leave)
                         (LeaveRow.start_date leave) + 1)) 0),
          views.update_leave leave_objects
            (LeaveRow.mk (LeaveRow.pk leave) (LeaveRow.employee_id leave)
               (LeaveRow.start_date leave) (LeaveRow.end_date leave)
               LeaveRequest.STATUS_APPROVED
               (Some (User.id (views.account user)))
               (LeaveRow.recommended_action leave)),
          views.redirect "leave_list").
Proof.
  intros Hrole Hfind Huser. unfold views.leave_approve, LeaveRow.load.
  rewrite Hrole, Hfind, Huser. reflexivity.
Qed.

(** X15. An approval by an admitted user writes
    max(leave_balance - total_days, 0) as the employee's balance and
    leaves every other account as it was; the request becomes Approved
    with the approver as manager. *)
Theorem leave_approve_deducts user_objects leave_objects user pk leave e :
  views.role_required [User.ROLE_MANAGER; User.ROLE_HR] user = true ->
  find (fun r => LeaveRow.pk r =? pk) leave_objects = Some leave ->
  LeaveRow.get_user user_objects (LeaveRow.employee_id leave) = Some e ->
  exists users' leaves' leave',
    views.leave_approve user_objects leave_objects user
      (views.POST (Some "approve"%string)) pk
    = Some (users', leaves', views.redirect "leave_list")
    /\ LeaveRow.get_user users' (LeaveRow.employee_id leave)
       = Some (Tables.with_balance e
                 (Z.max (User.leave_balance e
                         - (datetime.days_between (LeaveRow.end_date leave)
                              (LeaveRow.start_date leave) + 1)) 0))
    /\ (forall j, j <> LeaveRow.employee_id leave ->
                  LeaveRow.get_user users' j = LeaveRow.get_user user_objects j)
    /\ find (fun r => LeaveRow.pk r =? pk) leaves' = Some leave'
    /\ LeaveRow.status leave' = LeaveRequest.STATUS_APPROVED
    /\ LeaveRow.manager leave' = Some (User.id (views.account user)).
Proof.
  intros Hrole Hfind Huser.
  rewrite (leave_approve_approve _ _ _ _ _ _ Hrole Hfind Huser).
  eexists _, _, _. split; [reflexivity | ].
  split; [now rewrite get_user_update_same, Huser | ].
  split; [intros j Hj; now apply get_user_update_other | ].
  pose proof (find_some _ _ Hfind) as [_ Hpk]. apply Z.eqb_eq in Hpk.
  rewrite find_update_leave by exact Hpk. rewrite Hfind.
  repeat split; reflexivity.
Qed.

Lemma leave_approve_deducts_witness :
  exists users' leaves' leave',
    views.leave_approve Sample.all_users
      [LeaveRow.mk 7 1 (datetime.mkdate 2024 3 11) (datetime.mkdate 2024 3 15)
         LeaveRequest.STATUS_PENDING None "Suggest Approve"]
      (views.mkRequestUser Sample.dave false)
      (views.POST (Some "approve"%string)) 7
    = Some (users', leaves', views.redirect "leave_list")
    /\ LeaveRow.get_user users' 1 = Some (Tables.with_balance Sample.alice 5)
    /\ (forall j, j <> 1 ->
                  LeaveRow.get_user users' j = LeaveRow.get_user Sample.all_users j)
    /\ find (fun r => LeaveRow.pk r =? 7) leaves' = Some leave'
    /\ LeaveRow.status leave' = LeaveRequest.STATUS_APPROVED
    /\ LeaveRow.manager leave' = Some 4.
Proof.
  apply (leave_approve_deducts Sample.all_users
           [LeaveRow.mk 7 1 (datetime.mkdate 2024 3 11)
              (datetime.mkdate 2024 3 15) LeaveRequest.STATUS_PENDING None
              "Suggest Approve"]
           (views.mkRequestUser Sample.dave false) 7
           (LeaveRow.mk 7 1 (datetime.mkdate 2024 3 11)
              (datetime.mkdate 2024 3 15) LeaveRequest.STATUS_PENDING None
              "Suggest Approve")
           Sample.alice); reflexivity.
Defined.

(** X16. Nothing in leave_approve looks at the request's status: an
    approval repeated on the same request deducts total_days a second
    time. *)
Theorem leave_approve_twice_deducts_twice user_objects leave_objects user pk
    leave e :
  views.role_required [User.ROLE_MANAGER; User.ROLE_HR] user = true ->
  find (fun r => LeaveRow.pk r =? pk) leave_objects = Some leave ->
  LeaveRow.get_user user_objects (LeaveRow.employee_id leave) = Some e ->
  let total_days :=
    datetime.days_between (LeaveRow.end_date leave) (LeaveRow.start_date leave)
    + 1 in
  exists users1 leaves1 users2 leaves2,
    views.leave_approve user_objects leave_objects user
      (views.POST (Some "approve"%string)) pk
    = Some (users1, leaves1, views.redirect "leave_list")
    /\ views.leave_approve users1 leaves1 user
         (views.POST (Some "approve"%string)) pk
       = Some (users2, leaves2, views.redirect "leave_list")
    /\ LeaveRow.get_user users2 (LeaveRow.employee_id leave)
       = Some (Tables.with_balance e
                 (Z.max (Z.max (User.leave_balance e - total_days) 0
                         - total_days) 0)).
Proof.
  intros Hrole Hfind Huser total_days.
  pose proof (find_some _ _ Hfind) as [_ Hpk]. apply Z.eqb_eq in Hpk.
  rewrite (leave_approve_approve _ _ _ _ _ _ Hrole Hfind Huser).
  eexists _, _, _, _. split; [reflexivity | ].
  set (users1 := views.update_leave_balance user_objects _ _).
  set (leave1 := LeaveRow.mk _ _ _ _ _ _ _).
  assert (Hfind1 : find (fun r => LeaveRow.pk r =? pk)
                     (views.update_leave leave_objects leave1) = Some leave1)
    by (rewrite find_update_leave by exact Hpk; now rewrite Hfind).
  assert (Huser1 : LeaveRow.get_user users1 (LeaveRow.employee_id leave1)
                   = Some (Tables.with_balance e
                             (Z.max (User.leave_balance e - total_days) 0)))
    by (change (LeaveRow.employee_id leave1) with (LeaveRow.employee_id leave);
        unfold users1; now rewrite get_user_update_same, Huser).
  rewrite (leave_approve_approve _ _ _ _ _ _ Hrole Hfind1 Huser1).
  split; [reflexivity | ].
  rewrite get_user_update_same.
  etransitivity; [apply f_equal; exact Huser1 | reflexivity].
Qed.

Lemma leave_approve_twice_deducts_twice_witness :
  exists users1 leaves1 users2 leaves2,
    views.leave_approve Sample.all_users
      [LeaveRow.mk 7 1 (datetime.mkdate 2024 3 11) (datetime.mkdate 2024 3 15)
         LeaveRequest.STATUS_PENDING None "Suggest Approve"]
      (views.mkRequestUser Sample.dave false)
      (views.POST (Some "approve"%string)) 7
    = Some (users1, leaves1, views.redirect "leave_list")
    /\ views.leave_approve users1 leaves1 (views.mkRequestUser Sample.dave false)
         (views.POST (Some "approve"%string)) 7
       = Some (users2, leaves2, views.redirect "leave_list")
    /\ LeaveRow.get_user users2 1 = Some (Tables.with_balance Sample.alice 0).
Proof.
  apply (leave_approve_twice_deducts_twice Sample.all_users
           [LeaveRow.mk 7 1 (datetime.mkdate 2024 3 11)
              (datetime.mkdate 2024 3 15) LeaveRequest.STATUS_PENDING None
              "Suggest Approve"]
           (views.mkRequestUser Sample.dave false) 7
           (LeaveRow.mk 7 1 (datetime.mkdate 2024 3 11)
              (datetime.mkdate 2024 3 15) LeaveRequest.STATUS_PENDING None
              "Suggest Approve")
           Sample.alice); reflexivity.
Defined.

Lemma update_leave_balance_nonnegative user_objects k balance :
  0 <= balance ->
  Forall (fun u => 0 <= User.leave_balance u) user_objects ->
  Forall (fun u => 0 <= User.leave_balance u)
         (views.update_leave_balance user_objects k balance).
Proof.
  intros Hb H. unfold views.update_leave_balance.
  induction H as [ | u l Hu Hl IH]; simpl; constructor; try assumption.
  destruct (User.id u =? k); simpl; assumption.
Qed.

(** X17. leave_approve keeps every leave balance non-negative: whatever
    the request, the method, the action and the dates, if no stored
    balance is negative before, none is after. *)
Theorem leave_approve_keeps_balances_nonnegative user_objects leave_objects
    user method pk users' leaves' response :
  Forall (fun u => 0 <= User.leave_balance u) user_objects ->
  views.leave_approve user_objects leave_objects user method pk
  = Some (users', leaves', response) ->
  Forall (fun u => 0 <= User.leave_balance u) users'.
Proof.
  intros Hall. unfold views.leave_approve.
  destruct (negb (views.role_required _ user));
    [intros H; now injection H as <- _ _ | ].
  destruct (find _ leave_objects) as [leave | ];
    [ | intros H; now injection H as <- _ _].
  destruct method as [ | action]; [intros H; now injection H as <- _ _ | ].
  destruct (match action with Some a => String.eqb a "approve" | None => false end).
  - destruct (LeaveRow.load user_objects leave) as [l | ]; [ | discriminate].
    cbn [bind]. intros H. injection H as <- _ _.
    apply update_leave_balance_nonnegative; [lia | assumption].
  - destruct (match action with Some a => String.eqb a "reject" | None => false end);
      cbn [bind]; intros H; now injection H as <- _ _.
Qed.

Lemma leave_approve_keeps_balances_nonnegative_witness :
  Forall (fun u => 0 <= User.leave_balance u)
    (views.update_leave_balance Sample.all_users 1 0).
Proof.
  apply (leave_approve_keeps_balances_nonnegative Sample.all_users
           [LeaveRow.mk 7 1 (datetime.mkdate 2024 3 1) (datetime.mkdate 2024 3 31)
              LeaveRequest.STATUS_PENDING None "Suggest Review"]
           (views.mkRequestUser Sample.dave false)
           (views.POST (Some "approve"%string)) 7
           (views.update_leave_balance Sample.all_users 1 0)
           [LeaveRow.mk 7 1 (datetime.mkdate 2024 3 1) (datetime.mkdate 2024 3 31)
              LeaveRequest.STATUS_APPROVED (Some 4) "Suggest Review"]
           (views.redirect "leave_list")).
  - repeat constructor; simpl; lia.
  - reflexivity.
Defined.

(** X18. leave_approve changes balances only on an approval: a refused
    user, a missing request and a GET change neither table, and a
    rejection or an unknown action changes no balance. *)
Theorem leave_approve_changes_balances_only_on_approve user_objects
    leave_objects user method pk users' leaves' response :
  views.leave_approve user_objects leave_objects user method pk
  = Some (users', leaves', response) ->
  (method <> views.POST (Some "approve"%string) -> users' = user_objects)
  /\ (views.role_required [User.ROLE_MANAGER; User.ROLE_HR] user = false
      \/ method = views.GET
      \/ find (fun r => LeaveRow.pk r =? pk) leave_objects = None ->
      users' = user_objects /\ leaves' = leave_objects).
Proof.
  unfold views.leave_approve.
  destruct (views.role_required _ user) eqn:Hrole; cbn [negb].
  2:{ intros H. injection H as <- <- _. auto. }
  destruct (find _ leave_objects) as [leave | ] eqn:Hfind.
  2:{ intros H. injection H as <- <- _. auto. }
  destruct method as [ | action].
  { intros H. injection H as <- <- _. auto. }
  destruct action as [a | ].
  - destruct (String.eqb_spec a "approve") as [-> | Ha].
    + intros _. split; [congruence | ].
      intros [H | [H | H]]; discriminate H.
    + destruct (String.eqb a "reject"); cbn [bind];
        intros H; injection H as <- _ _;
        (split; [reflexivity | intros [H | [H | H]]; discriminate H]).
  - cbn [bind]. intros H. injection H as <- _ _.
    split; [reflexivity | intros [H | [H | H]]; discriminate H].
Qed.

Lemma leave_approve_changes_balances_only_on_approve_witness :
  (views.POST (Some "reject"%string) <> views.POST (Some "approve"%string) ->
   Sample.all_users = Sample.all_users)
  /\ (views.role_required [User.ROLE_MANAGER; User.ROLE_HR]
        (views.mkRequestUser Sample.dave false) = false
      \/ views.POST (Some "reject"%string) = views.GET
      \/ find (fun r => LeaveRow.pk r =? 7)
           [LeaveRow.mk 7 1 (datetime.mkdate 2024 3 1)
              (datetime.mkdate 2024 3 31) LeaveRequest.STATUS_PENDING None
              "Suggest Review"] = None ->
      Sample.all_users = Sample.all_users
      /\ [LeaveRow.mk 7 1 (datetime.mkdate 2024 3 1) (datetime.mkdate 2024 3 31)
            LeaveRequest.STATUS_REJECTED (Some 4) "Suggest Review"]
         = [LeaveRow.mk 7 1 (datetime.mkdate 2024 3 1)
              (datetime.mkdate 2024 3 31) LeaveRequest.STATUS_PENDING None
              "Suggest Review"]).
Proof.
  apply (leave_approve_changes_balances_only_on_approve Sample.all_users
           [LeaveRow.mk 7 1 (datetime.mkdate 2024 3 1) (datetime.mkdate 2024 3 31)
              LeaveRequest.STATUS_PENDING None "Suggest Review"]
           (views.mkRequestUser Sample.dave false)
           (views.POST (Some "reject"%string)) 7
           Sample.all_users
           [LeaveRow.mk 7 1 (datetime.mkdate 2024 3 1) (datetime.mkdate 2024 3 31)
              LeaveRequest.STATUS_REJECTED (Some 4) "Suggest Review"]
           (views.redirect "leave_list")).
  reflexivity.
Defined.

(** ** [attendance_add] and [attendance_review] *)





(** Replacing the row of a key by a row with the same image under [f]
    leaves the images of the table as they were. *)
Lemma update_attendance_images {B} (f : AttendanceRow.t -> B) rows old row :
  NoDup (map AttendanceRow.pk rows) -> In old rows ->
  AttendanceRow.pk row = AttendanceRow.pk old -> f row = f old ->
  map f (views.update_attendance rows row) = map f rows.
Proof.
  intros Hnd Hin Hpk Hf. unfold views.update_attendance.
  rewrite map_map. apply map_ext_in. intros r Hr.
  destruct (Z.eqb_spec (AttendanceRow.pk r) (AttendanceRow.pk row)) as [E | E];
    [ | reflexivity].
  rewrite Hf. f_equal.
  apply (unique_key_eq AttendanceRow.pk rows); auto. congruence.
Qed.

Lemma update_attendance_other rows row r :
  In r rows -> AttendanceRow.pk r <> AttendanceRow.pk row ->
  In r (views.update_attendance rows row).
Proof.
  intros Hin Hpk. unfold views.update_attendance. apply in_map_iff.
  exists r. split; [ | assumption].
  now destruct (Z.eqb_spec (AttendanceRow.pk r) (AttendanceRow.pk row)).
Qed.

Lemma update_attendance_in rows old row :
  In old rows -> AttendanceRow.pk row = AttendanceRow.pk old ->
  In row (views.update_attendance rows row).
Proof.
  intros Hin Hpk. unfold views.update_attendance. apply in_map_iff.
  exists old. split; [ | assumption].
  rewrite Hpk. now rewrite Z.eqb_refl.
Qed.



(** X20. attendance_review only writes the review of the row it is asked
    about: with distinct primary keys, no row's key, employee, date,
    status or submitter changes, rows with another key are kept as they
    are, and after an admitted POST with action approve (reject) the row
    of that key is Approved (Rejected) and signed by the reviewer. *)
Theorem attendance_review_only_reviews rows user now method pk rows' response :
  NoDup (map AttendanceRow.pk rows) ->
  views.attendance_review rows user now method pk = (rows', response) ->
  map (fun r => (AttendanceRow.pk r,
                 AttendanceRecord.employee (AttendanceRow.entry r),
                 AttendanceRecord.date (AttendanceRow.entry r),
                 AttendanceRecord.status (AttendanceRow.entry r),
                 AttendanceRow.submitted_by r)) rows'
  = map (fun r => (AttendanceRow.pk r,
                   AttendanceRecord.employee (AttendanceRow.entry r),
                   AttendanceRecord.date (AttendanceRow.entry r),
                   AttendanceRecord.status (AttendanceRow.entry r),
                   AttendanceRow.submitted_by r)) rows
  /\ (forall r, In r rows -> AttendanceRow.pk r <> pk -> In r rows')
  /\ (views.role_required [User.ROLE_HR] user = true ->
      forall verdict,
        (method = views.POST (Some "approve"%string)
         /\ verdict = AttendanceRecord.REVIEW_APPROVED)
        \/ (method = views.POST (Some "reject"%string)
            /\ verdict = AttendanceRecord.REVIEW_REJECTED) ->
        forall r, In r rows -> AttendanceRow.pk r = pk ->
          exists r', In r' rows' /\ AttendanceRow.pk r' = pk
                     /\ AttendanceRecord.review_status (AttendanceRow.entry r')
                        = verdict
                     /\ AttendanceRow.reviewed_by r'
                        = Some (User.id (views.account user))
                     /\ AttendanceRow.reviewed_at r' = Some now).
Proof.
  intros Hnd. unfold views.attendance_review.
  destruct (views.role_required [User.ROLE_HR] user) eqn:Hrole; cbn [negb].
  2:{ intros H. injection H as <- _. repeat split; auto. discriminate. }
  destruct (find _ rows) as [record | ] eqn:Hfind.
  2:{ intros H. injection H as <- _. repeat split; auto.
      intros _ verdict _ r Hr Hpk. exfalso.
      pose proof (find_none _ _ Hfind r Hr) as Hn. simpl in Hn.
      rewrite Hpk, Z.eqb_refl in Hn. discriminate. }
  pose proof (find_some _ _ Hfind) as [Hin Hpk]. apply Z.eqb_eq in Hpk.
  destruct method as [ | action].
  { intros H. injection H as <- _. repeat split; auto.
    intros _ verdict [[H _] | [H _]]; discriminate H. }
  intros H. injection H as <- _.
  set (record' := if match action with Some a => String.eqb a "approve"
                                    | None => false end
                  then _ else _).
  assert (Hsame : AttendanceRow.pk record' = AttendanceRow.pk record
                  /\ AttendanceRecord.employee (AttendanceRow.entry record')
                     = AttendanceRecord.employee (AttendanceRow.entry record)
                  /\ AttendanceRecord.date (AttendanceRow.entry record')
                     = AttendanceRecord.date (AttendanceRow.entry record)
                  /\ AttendanceRecord.status (AttendanceRow.entry record')
                     = AttendanceRecord.status (AttendanceRow.entry record)
                  /\ AttendanceRow.submitted_by record'
                     = AttendanceRow.submitted_by record).
  { unfold record'.
    destruct (match action with Some a => String.eqb a "approve" | None => false end);
      [ | destruct (match action with Some a => String.eqb a "reject" | None => false end)];
      repeat split; reflexivity. }
  destruct Hsame as (S1 & S2 & S3 & S4 & S5).
  split.
  { apply (update_attendance_images _ rows record record' Hnd Hin S1).
    now rewrite S1, S2, S3, S4, S5. }
  split.
  { intros r Hr Hne. apply update_attendance_other; [assumption | ].
    rewrite S1. congruence. }
  intros _ verdict Hcase r Hr Hrpk.
  exists record'. split; [now apply (update_attendance_in rows record) | ].
  split; [congruence | ].
  unfold record'.
  destruct Hcase as [[Hm ->] | [Hm ->]]; injection Hm as ->; simpl; auto.
Qed.

Lemma attendance_review_only_reviews_witness :
  views.attendance_review
    [AttendanceRow.mk 1
       (AttendanceRecord.mk 1 (datetime.mkdate 2024 3 5)
          AttendanceRecord.STATUS_LATE AttendanceRecord.REVIEW_PENDING)
       (Some 1) None None]
    (views.mkRequestUser Sample.dave false) 100
    (views.POST (Some "reject"%string)) 1
  = ([AttendanceRow.mk 1
        (AttendanceRecord.mk 1 (datetime.mkdate 2024 3 5)
           AttendanceRecord.STATUS_LATE AttendanceRecord.REVIEW_REJECTED)
        (Some 1) (Some 4) (Some 100)],
     views.redirect "attendance_list")
  /\ forall r,
       In r [AttendanceRow.mk 1
               (AttendanceRecord.mk 1 (datetime.mkdate 2024 3 5)
                  AttendanceRecord.STATUS_LATE AttendanceRecord.REVIEW_PENDING)
               (Some 1) None None] ->
       AttendanceRow.pk r <> 1 ->
       In r [AttendanceRow.mk 1
               (AttendanceRecord.mk 1 (datetime.mkdate 2024 3 5)
                  AttendanceRecord.STATUS_LATE AttendanceRecord.REVIEW_REJECTED)
               (Some 1) (Some 4) (Some 100)].
Proof.
  split; [reflexivity | ].
  apply (attendance_review_only_reviews
           [AttendanceRow.mk 1
              (AttendanceRecord.mk 1 (datetime.mkdate 2024 3 5)
                 AttendanceRecord.STATUS_LATE AttendanceRecord.REVIEW_PENDING)
              (Some 1) None None]
           (views.mkRequestUser Sample.dave false) 100
           (views.POST (Some "reject"%string)) 1
           _ (views.redirect "attendance_list")).
  - repeat constructor; simpl; tauto.
  - reflexivity.
Defined.

(** ** [leave_request] *)

Lemma leave_objects_app user_objects rows rows' :
  LeaveRow.objects user_objects (rows ++ rows')
  = LeaveRow.objects user_objects rows ++ LeaveRow.objects user_objects rows'.
Proof.
  induction rows as [ | r rows IH]; simpl; [reflexivity | ].
  destruct (LeaveRow.load user_objects r); simpl; now rewrite IH.
Qed.

Lemma approved_leaves_pending_row user_objects rows row employee :
  LeaveRow.status row = LeaveRequest.STATUS_PENDING ->
  Tables.approved_leaves_of_others
    (LeaveRow.objects user_objects (rows ++ [row])) employee
  = Tables.approved_leaves_of_others (LeaveRow.objects user_objects rows) employee.
Proof.
  intros Hp. rewrite leave_objects_app.
  unfold Tables.approved_leaves_of_others. rewrite filter_app.
  simpl. unfold LeaveRow.load.
  destruct (LeaveRow.get_user user_objects (LeaveRow.employee_id row));
    simpl; [rewrite Hp; simpl | ]; apply app_nil_r.
Qed.

(** X21. Submitting a leave request stores it as Pending, with one of the
    two recommendations, without touching the stored requests; and since
    it is Pending it changes the team availability of no one: every
    _team_available answer over the new table is the answer over the old
    one. *)
Theorem leave_request_keeps_team_availability user_objects leave_objects user
    start_date end_date rows' response :
  views.leave_request user_objects leave_objects user
    (Some (start_date, end_date)) = (rows', response) ->
  (exists row,
     rows' = leave_objects ++ [row]
     /\ LeaveRow.status row = LeaveRequest.STATUS_PENDING
     /\ LeaveRow.employee_id row = User.id (views.account user)
     /\ (LeaveRow.recommended_action row = "Suggest Approve"%string
         \/ LeaveRow.recommended_action row = "Suggest Review"%string))
  /\ forall employee s e,
       ai._team_available user_objects
         (LeaveRow.objects user_objects rows') employee s e
       = ai._team_available user_objects
           (LeaveRow.objects user_objects leave_objects) employee s e.
Proof.
  unfold views.leave_request. intros H. injection H as <- _.
  split.
  - eexists. split; [reflexivity | ]. simpl. repeat split.
    unfold ai.leave_recommendation.
    match goal with |- context [if ?c then _ else _] => destruct c end; auto.
  - intros employee s e. apply team_available_approved_others.
    now apply approved_leaves_pending_row.
Qed.

Lemma leave_request_keeps_team_availability_witness :
  ai._team_available Sample.all_users
    (LeaveRow.objects Sample.all_users
       [LeaveRow.mk 1 2 (datetime.mkdate 2024 3 11) (datetime.mkdate 2024 3 15)
          LeaveRequest.STATUS_PENDING None "Suggest Approve"])
    Sample.alice (datetime.mkdate 2024 3 11) (datetime.mkdate 2024 3 15)
  = ai._team_available Sample.all_users
      (LeaveRow.objects Sample.all_users [])
      Sample.alice (datetime.mkdate 2024 3 11) (datetime.mkdate 2024 3 15).
Proof.
  apply (leave_request_keeps_team_availability Sample.all_users []
           (views.mkRequestUser Sample.bob false)
           (datetime.mkdate 2024 3 11) (datetime.mkdate 2024 3 15)
           _ (views.redirect "leave_list")).
  reflexivity.
Defined.

(** X22. An employee who is not a superuser can change neither
    attendance nor leave decisions nor balances: attendance_add,
    attendance_review and leave_approve answer 403 and leave every table
    as it was, whatever the request. *)
Theorem employee_cannot_change_tables user_objects leave_objects
    attendance_objects user now cleaned method pk :
  views.is_superuser user = false ->
  User.role (views.account user) = User.ROLE_EMPLOYEE ->
  views.attendance_add attendance_objects user now cleaned
  = (attendance_objects, views.HttpResponseForbidden)
  /\ views.attendance_review attendance_objects user now method pk
     = (attendance_objects, views.HttpResponseForbidden)
  /\ views.leave_approve user_objects leave_objects user method pk
     = Some (user_objects, leave_objects, views.HttpResponseForbidden).
Proof.
  intros Hsu Hrole.
  unfold views.attendance_add, views.attendance_review, views.leave_approve,
    views.role_required, views.role_in.
  rewrite Hsu, Hrole. simpl. auto.
Qed.

Lemma employee_cannot_change_tables_witness :
  views.attendance_add [] (views.mkRequestUser Sample.bob false) 100
    (Some (2, datetime.mkdate 2024 3 5, AttendanceRecord.STATUS_PRESENT))
  = ([], views.HttpResponseForbidden)
  /\ views.attendance_review [] (views.mkRequestUser Sample.bob false) 100
       (views.POST (Some "approve"%string)) 1
     = ([], views.HttpResponseForbidden)
  /\ views.leave_approve Sample.all_users [] (views.mkRequestUser Sample.bob false)
       (views.POST (Some "approve"%string)) 1
     = Some (Sample.all_users, [], views.HttpResponseForbidden).
Proof.
  apply (employee_cannot_change_tables Sample.all_users [] []
           (views.mkRequestUser Sample.bob false) 100
           (Some (2, datetime.mkdate 2024 3 5, AttendanceRecord.STATUS_PRESENT))
           (views.POST (Some "approve"%string)) 1); reflexivity.
Defined.

(** X23. For a request with dates, an approval lowers the balance only
    when start_date <= end_date: then a non-negative balance does not
    grow; when end_date is before start_date, total_days is 0 or negative
    and the balance written is never below the balance read. *)
Theorem leave_approve_balance_direction user_objects leave_objects user pk
    leave e users' leaves' response :
  views.role_required [User.ROLE_MANAGER; User.ROLE_HR] user = true ->
  find (fun r => LeaveRow.pk r =? pk) leave_objects = Some leave ->
  LeaveRow.get_user user_objects (LeaveRow.employee_id leave) = Some e ->
  datetime.valid_date (LeaveRow.start_date leave) = true ->
  datetime.valid_date (LeaveRow.end_date leave) = true ->
  views.leave_approve user_objects leave_objects user
    (views.POST (Some "approve"%string)) pk
  = Some (users', leaves', response) ->
  exists e',
    LeaveRow.get_user users' (LeaveRow.employee_id leave) = Some e'
    /\ (datetime.le (LeaveRow.start_date leave) (LeaveRow.end_date leave) = true ->
        0 <= User.leave_balance e ->
        User.leave_balance e' < User.leave_balance e
        \/ User.leave_balance e' = 0)
    /\ (datetime.lt (LeaveRow.end_date leave) (LeaveRow.start_date leave) = true ->
        User.leave_balance e <= User.leave_balance e').
Proof.
  intros Hrole Hfind Huser Hs He.
  rewrite (leave_approve_approve _ _ _ _ _ _ Hrole Hfind Huser).
  intros H. injection H as <- _ _.
  rewrite get_user_update_same, Huser. eexists. split; [reflexivity | ].
  cbn [Tables.with_balance User.leave_balance].
  unfold datetime.days_between. split.
  - intros Hle Hb. apply date_le_cases in Hle. destruct Hle as [Heq | Hlt].
    + rewrite Heq. lia.
    + pose proof (toordinal_lt _ _ Hs He Hlt). lia.
  - intros Hlt. pose proof (toordinal_lt _ _ He Hs Hlt). lia.
Qed.

Lemma leave_approve_balance_direction_witness :
  exists e',
    LeaveRow.get_user (views.update_leave_balance Sample.all_users 1 13) 1
    = Some e'
    /\ (datetime.le (datetime.mkdate 2024 3 15) (datetime.mkdate 2024 3 11) = true ->
        0 <= User.leave_balance Sample.alice ->
        User.leave_balance e' < User.leave_balance Sample.alice
        \/ User.leave_balance e' = 0)
    /\ (datetime.lt (datetime.mkdate 2024 3 11) (datetime.mkdate 2024 3 15) = true ->
        User.leave_balance Sample.alice <= User.leave_balance e').
Proof.
  apply (leave_approve_balance_direction Sample.all_users
           [LeaveRow.mk 7 1 (datetime.mkdate 2024 3 15) (datetime.mkdate 2024 3 11)
              LeaveRequest.STATUS_PENDING None "Suggest Approve"]
           (views.mkRequestUser Sample.dave false) 7
           (LeaveRow.mk 7 1 (datetime.mkdate 2024 3 15) (datetime.mkdate 2024 3 11)
              LeaveRequest.STATUS_PENDING None "Suggest Approve")
           Sample.alice
           (views.update_leave_balance Sample.all_users 1 13)
           [LeaveRow.mk 7 1 (datetime.mkdate 2024 3 15) (datetime.mkdate 2024 3 11)
              LeaveRequest.STATUS_APPROVED (Some 4) "Suggest Approve"]
           (views.redirect "leave_list")); reflexivity.
Defined.

(** ** The lists and the detail page *)

Lemma find_has_pk objects r pk :
  NoDup (map SalaryRecord.id objects) -> In r objects ->
  SalaryRecord.id r = Some pk ->
  find (SalaryRecord.has_pk pk) objects = Some r.
Proof.
  intros Hnd Hin Hid.
  destruct (find (SalaryRecord.has_pk pk) objects) as [q | ] eqn:Hq.
  - apply find_some in Hq. destruct Hq as [Hqin Hqpk].
    unfold SalaryRecord.has_pk in Hqpk.
    destruct (SalaryRecord.id q) as [j | ] eqn:Hj; [ | discriminate].
    apply Z.eqb_eq in Hqpk. subst j. f_equal.
    apply (unique_key_eq SalaryRecord.id objects); auto. congruence.
  - pose proof (find_none _ _ Hq r Hin) as Hn.
    unfold SalaryRecord.has_pk in Hn. rewrite Hid, Z.eqb_refl in Hn.
    discriminate.
Qed.

(** X24. The payslip list and the payslip page agree: with distinct
    primary keys, a stored record is in the list shown to a user exactly
    when payslip_detail renders it for that user, and then the page
    carries the summary of that record. *)
Theorem payslip_list_matches_detail objects user r pk :
  NoDup (map SalaryRecord.id objects) -> In r objects ->
  SalaryRecord.id r = Some pk ->
  In r (views.payslip_list objects user)
  <-> exists s,
        ai.payslip_summary r = Some s
        /\ views.payslip_detail objects user pk
           = Some (views.render "salary/payslip_detail.html", Some s).
Proof.
  intros Hnd Hin Hid.
  unfold views.payslip_list, views.payslip_detail.
  rewrite (find_has_pk _ _ _ Hnd Hin Hid).
  destruct (payslip_summary_eq r) as (rate & _ & ->). cbv zeta.
  destruct (views.is_hr (views.account user) || views.is_manager (views.account user));
    cbn [orb negb bind].
  - split; [intros _; eexists; split; reflexivity | auto].
  - rewrite filter_In.
    destruct (SalaryRecord.employee r =? User.id (views.account user));
      cbn [negb bind].
    + split; [intros _; eexists; split; reflexivity | auto].
    + split; [intros [_ E]; discriminate E | ].
      intros (s & _ & E). discriminate E.
Qed.

Lemma payslip_list_matches_detail_witness :
  In Sample.paid_750
     (views.payslip_list [Sample.paid_in_full; Sample.paid_750]
        (views.mkRequestUser Sample.alice false))
  <-> exists s,
        ai.payslip_summary Sample.paid_750 = Some s
        /\ views.payslip_detail [Sample.paid_in_full; Sample.paid_750]
             (views.mkRequestUser Sample.alice false) 2
           = Some (views.render "salary/payslip_detail.html", Some s).
Proof.
  apply payslip_list_matches_detail.
  - repeat constructor; simpl; intuition discriminate.
  - right. left. reflexivity.
  - reflexivity.
Defined.

